(** * mssql_mcp_server: identifier validation, statement classification,
      the connection manager and the request handlers

    A shallow embedding of [src/mssql_mcp_server/server.py].

    A Python [str] is kept as the bytes of its UTF-8 form, one byte per
    Rocq character.  Searching, slicing and the two regular expressions
    only look for ASCII characters, which UTF-8 keeps apart from every
    other character, so they work on the bytes as Python does on the
    characters.  The functions that know about characters beyond ASCII
    ([strip], [split] without argument, [upper]) read the UTF-8 forms:
    whitespace is what [str.isspace] accepts, upper case is Python's
    upper-case mapping of every character.

    The two regular expressions of the source are embedded twice: as
    the scanners the handlers run ([TableNameRe], [BlockCommentRe]) and
    as patterns with the meaning Python gives them ([PyRe]); the
    scanners are proved to decide that meaning.

    The database driver (pyodbc) and the engine behind it are not part
    of the repository: they are an interface ([Driver]) over an abstract
    engine state, and every handler is a computation in a state and
    exception monad over the process state.  Logging is left out. *)

From Stdlib Require Import String Ascii List Bool Arith NArith ZArith Lia DecimalString.
From ExtLib Require Import Structures.Monad Structures.MonadExc.
Import ListNotations.
Import MonadNotation.
Local Open Scope list_scope.
Local Open Scope string_scope.
Local Open Scope monad_scope.

Set Implicit Arguments.

(** ** Python exceptions and outcomes *)

(** The exception classes the handlers raise or meet.  All of them derive
    from [Exception]; [DatabaseError] stands for [pyodbc.Error] and its
    subclasses. *)
Inductive exn_class :=
| ValueError | RuntimeError | TypeError | IndexError | AttributeError
| ValidationError | DatabaseError.

(** An exception instance: its class and [str(e)]. *)
Record exn := Exn { exn_cls : exn_class; exn_msg : string }.

(** [str(e)] *)
Definition str_exn (e : exn) : string := exn_msg e.

(** The result of running a piece of Python: a value or a raised
    exception. *)
Inductive outcome (A : Type) :=
| Ret (a : A)
| Raise (e : exn).
Arguments Ret {A} a.
Arguments Raise {A} e.

(** the newline character, as a one-character string *)
Definition LF : string := String "010" "".

(** ** Python string operations *)
Module PyStr.

Definition in_range (lo hi : nat) (c : ascii) : bool :=
  Nat.leb lo (nat_of_ascii c) && Nat.leb (nat_of_ascii c) hi.

(** the UTF-8 form of the character with code point [cp] *)
Definition utf8 (cp : N) : string :=
  let b (n : N) := ascii_of_N n in
  (if cp <? 128 then String (b cp) ""
   else if cp <? 2048 then
     String (b (192 + cp / 64)) (String (b (128 + cp mod 64)) "")
   else if cp <? 65536 then
     String (b (224 + cp / 4096))
       (String (b (128 + (cp / 64) mod 64)) (String (b (128 + cp mod 64)) ""))
   else
     String (b (240 + cp / 262144))
       (String (b (128 + (cp / 4096) mod 64))
          (String (b (128 + (cp / 64) mod 64))
             (String (b (128 + cp mod 64)) ""))))%N.

Fixpoint concat (pieces : list string) : string :=
  match pieces with
  | [] => EmptyString
  | p :: ps => p ++ concat ps
  end.

Fixpoint map (f : ascii -> ascii) (s : string) : string :=
  match s with
  | EmptyString => EmptyString
  | String c r => String (f c) (map f r)
  end.

(** [s.startswith(p)] *)
Fixpoint startswith (p s : string) : bool :=
  match p, s with
  | EmptyString, _ => true
  | String a p', String b s' => Ascii.eqb a b && startswith p' s'
  | String _ _, EmptyString => false
  end.

(** [s[n:]] *)
Fixpoint drop (n : nat) (s : string) : string :=
  match n, s with
  | O, _ => s
  | S n', String _ r => drop n' r
  | S _, EmptyString => EmptyString
  end.

(** [s[:n]] *)
Fixpoint take (n : nat) (s : string) : string :=
  match n, s with
  | S n', String c r => String c (take n' r)
  | _, _ => EmptyString
  end.

(** [s.find(sub)]: the lowest index where [sub] occurs, [None] for
    Python's [-1]. *)
Fixpoint find (sub s : string) : option nat :=
  if startswith sub s then Some 0
  else match s with
       | EmptyString => None
       | String _ r => option_map S (find sub r)
       end.

(** [sub in s] *)
Definition contains (sub s : string) : bool :=
  match find sub s with Some _ => true | None => false end.

(** [s.split(sep)] for a one-character separator: the pieces between
    the separators, empty pieces kept; never the empty list. *)
Fixpoint split (sep : ascii) (s : string) : list string :=
  match s with
  | EmptyString => [EmptyString]
  | String c r =>
      if Ascii.eqb c sep then EmptyString :: split sep r
      else match split sep r with
           | piece :: pieces => String c piece :: pieces
           | [] => [String c EmptyString]
           end
  end.

(** [sep.join(pieces)] *)
Fixpoint join (sep : string) (pieces : list string) : string :=
  match pieces with
  | [] => EmptyString
  | [p] => p
  | p :: ps => p ++ sep ++ join sep ps
  end.

(** *** Whitespace

    The characters [str.isspace] accepts, which are the ones [strip] and
    [split] without argument take for whitespace.  [isspace] is
    [str.isspace] on an ASCII character: tab, LF, VT, FF, CR, the four
    separators FS GS RS US, and space. *)
Definition isspace (c : ascii) : bool :=
  in_range 9 13 c || in_range 28 32 c.

(** Beyond ASCII: U+0085, U+00A0, U+1680, U+2000 to U+200A, U+2028,
    U+2029, U+202F, U+205F and U+3000, in their UTF-8 forms. *)
Definition wide_spaces : list string :=
  Eval vm_compute in
    List.map utf8
      [133; 160; 5760; 8192; 8193; 8194; 8195; 8196; 8197; 8198; 8199;
       8200; 8201; 8202; 8232; 8233; 8239; 8287; 12288]%N.

(** the number of bytes of the whitespace character [s] starts with;
    [0] when it does not start with one *)
Definition space_len (s : string) : nat :=
  match s with
  | EmptyString => 0
  | String c _ =>
      if isspace c then 1
      else match List.find (fun e => startswith e s) wide_spaces with
           | Some e => String.length e
           | None => 0
           end
  end.

(** [s.lstrip()]; [skip] counts the bytes still to pass of a whitespace
    character that has been recognised. *)
Fixpoint lstrip_from (skip : nat) (s : string) : string :=
  match s with
  | EmptyString => EmptyString
  | String c r =>
      match skip with
      | S n => lstrip_from n r
      | O => match space_len s with
             | O => s
             | S n => lstrip_from n r
             end
      end
  end.

Definition lstrip (s : string) : string := lstrip_from 0 s.

(** [s.rstrip()]: the text is cut where nothing but whitespace
    follows. *)
Fixpoint rstrip (s : string) : string :=
  match s with
  | EmptyString => EmptyString
  | String c r =>
      match lstrip s with
      | EmptyString => EmptyString
      | _ => String c (rstrip r)
      end
  end.

(** [s.strip()] *)
Definition strip (s : string) : string := rstrip (lstrip s).

(** [s.split()] with no separator: the maximal runs of non-whitespace.
    [word] is the run being collected, last byte first; [skip] is as in
    [lstrip_from]. *)
Fixpoint rev_append (w s : string) : string :=
  match w with
  | EmptyString => s
  | String c r => rev_append r (String c s)
  end.

Definition flush (word : string) (words : list string) : list string :=
  match word with
  | EmptyString => words
  | _ => rev_append word EmptyString :: words
  end.

Fixpoint split_ws_from (word : string) (skip : nat) (s : string)
  : list string :=
  match s with
  | EmptyString => flush word []
  | String c r =>
      match skip with
      | S n => split_ws_from word n r
      | O => match space_len s with
             | O => split_ws_from (String c word) 0 r
             | S n => flush word (split_ws_from EmptyString n r)
             end
      end
  end.

Definition split_ws (s : string) : list string :=
  split_ws_from EmptyString 0 s.

(** *** Letter case *)

(** the upper-case and the lower-case form of an ASCII letter; every
    other byte is left as it is *)
Definition upper_char (c : ascii) : ascii :=
  if in_range 97 122 c then ascii_of_nat (nat_of_ascii c - 32) else c.

Definition lower_char (c : ascii) : ascii :=
  if in_range 65 90 c then ascii_of_nat (nat_of_ascii c + 32) else c.

(** a text with its ASCII letters in upper case *)
Definition ascii_upper (s : string) : string := map upper_char s.

(** [s.lower()], as far as a comparison with an ASCII text can tell: the
    ASCII letters are mapped; of all other characters only U+0130 and
    U+212A have an ASCII letter in their lower-case form ([i] and [k]). *)
Definition lower (s : string) : string := map lower_char s.

(** The characters beyond ASCII that [str.upper] changes, each with the
    characters of its upper-case form, by code point (Unicode 14, as
    Python 3.11 has it). *)
Definition upper_data : list (N * list N) :=
  [(181, [924]); (223, [83; 83]); (224, [192]); (225, [193]); (226, [194]);
   (227, [195]); (228, [196]); (229, [197]); (230, [198]); (231, [199]);
   (232, [200]); (233, [201]); (234, [202]); (235, [203]); (236, [204]);
   (237, [205]); (238, [206]); (239, [207]); (240, [208]); (241, [209]);
   (242, [210]); (243, [211]); (244, [212]); (245, [213]); (246, [214]);
   (248, [216]); (249, [217]); (250, [218]); (251, [219]); (252, [220]);
   (253, [221]); (254, [222]); (255, [376]); (257, [256]); (259, [258]);
   (261, [260]); (263, [262]); (265, [264]); (267, [266]); (269, [268]);
   (271, [270]); (273, [272]); (275, [274]); (277, [276]); (279, [278]);
   (281, [280]); (283, [282]); (285, [284]); (287, [286]); (289, [288]);
   (291, [290]); (293, [292]); (295, [294]); (297, [296]); (299, [298]);
   (301, [300]); (303, [302]); (305, [73]); (307, [306]); (309, [308]);
   (311, [310]); (314, [313]); (316, [315]); (318, [317]); (320, [319]);
   (322, [321]); (324, [323]); (326, [325]); (328, [327]); (329, [700; 78]);
   (331, [330]); (333, [332]); (335, [334]); (337, [336]); (339, [338]);
   (341, [340]); (343, [342]); (345, [344]); (347, [346]); (349, [348]);
   (351, [350]); (353, [352]); (355, [354]); (357, [356]); (359, [358]);
   (361, [360]); (363, [362]); (365, [364]); (367, [366]); (369, [368]);
   (371, [370]); (373, [372]); (375, [374]); (378, [377]); (380, [379]);
   (382, [381]); (383, [83]); (384, [579]); (387, [386]); (389, [388]);
   (392, [391]); (396, [395]); (402, [401]); (405, [502]); (409, [408]);
   (410, [573]); (414, [544]); (417, [416]); (419, [418]); (421, [420]);
   (424, [423]); (429, [428]); (432, [431]); (436, [435]); (438, [437]);
   (441, [440]); (445, [444]); (447, [503]); (453, [452]); (454, [452]);
   (456, [455]); (457, [455]); (459, [458]); (460, [458]); (462, [461]);
   (464, [463]); (466, [465]); (468, [467]); (470, [469]); (472, [471]);
   (474, [473]); (476, [475]); (477, [398]); (479, [478]); (481, [480]);
   (483, [482]); (485, [484]); (487, [486]); (489, [488]); (491, [490]);
   (493, [492]); (495, [494]); (496, [74; 780]); (498, [497]); (499, [497]);
   (501, [500]); (505, [504]); (507, [506]); (509, [508]); (511, [510]);
   (513, [512]); (515, [514]); (517, [516]); (519, [518]); (521, [520]);
   (523, [522]); (525, [524]); (527, [526]); (529, [528]); (531, [530]);
   (533, [532]); (535, [534]); (537, [536]); (539, [538]); (541, [540]);
   (543, [542]); (547, [546]); (549, [548]); (551, [550]); (553, [552]);
   (555, [554]); (557, [556]); (559, [558]); (561, [560]); (563, [562]);
   (572, [571]); (575, [11390]); (576, [11391]); (578, [577]); (583, [582]);
   (585, [584]); (587, [586]); (589, [588]); (591, [590]); (592, [11375]);
   (593, [11373]); (594, [11376]); (595, [385]); (596, [390]); (598, [393]);
   (599, [394]); (601, [399]); (603, [400]); (604, [42923]); (608, [403]);
   (609, [42924]); (611, [404]); (613, [42893]); (614, [42922]); (616, [407]);
   (617, [406]); (618, [42926]); (619, [11362]); (620, [42925]); (623, [412]);
   (625, [11374]); (626, [413]); (629, [415]); (637, [11364]); (640, [422]);
   (642, [42949]); (643, [425]); (647, [42929]); (648, [430]); (649, [580]);
   (650, [433]); (651, [434]); (652, [581]); (658, [439]); (669, [42930]);
   (670, [42928]); (837, [921]); (881, [880]); (883, [882]); (887, [886]);
   (891, [1021]); (892, [1022]); (893, [1023]); (912, [921; 776; 769]);
   (940, [902]); (941, [904]); (942, [905]); (943, [906]);
   (944, [933; 776; 769]); (945, [913]); (946, [914]); (947, [915]);
   (948, [916]); (949, [917]); (950, [918]); (951, [919]); (952, [920]);
   (953, [921]); (954, [922]); (955, [923]); (956, [924]); (957, [925]);
   (958, [926]); (959, [927]); (960, [928]); (961, [929]); (962, [931]);
   (963, [931]); (964, [932]); (965, [933]); (966, [934]); (967, [935]);
   (968, [936]); (969, [937]); (970, [938]); (971, [939]); (972, [908]);
   (973, [910]); (974, [911]); (976, [914]); (977, [920]); (981, [934]);
   (982, [928]); (983, [975]); (985, [984]); (987, [986]); (989, [988]);
   (991, [990]); (993, [992]); (995, [994]); (997, [996]); (999, [998]);
   (1001, [1000]); (1003, [1002]); (1005, [1004]); (1007, [1006]);
   (1008, [922]); (1009, [929]); (1010, [1017]); (1011, [895]); (1013, [917]);
   (1016, [1015]); (1019, [1018]); (1072, [1040]); (1073, [1041]);
   (1074, [1042]); (1075, [1043]); (1076, [1044]); (1077, [1045]);
   (1078, [1046]); (1079, [1047]); (1080, [1048]); (1081, [1049]);
   (1082, [1050]); (1083, [1051]); (1084, [1052]); (1085, [1053]);
   (1086, [1054]); (1087, [1055]); (1088, [1056]); (1089, [1057]);
   (1090, [1058]); (1091, [1059]); (1092, [1060]); (1093, [1061]);
   (1094, [1062]); (1095, [1063]); (1096, [1064]); (1097, [1065]);
   (1098, [1066]); (1099, [1067]); (1100, [1068]); (1101, [1069]);
   (1102, [1070]); (1103, [1071]); (1104, [1024]); (1105, [1025]);
   (1106, [1026]); (1107, [1027]); (1108, [1028]); (1109, [1029]);
   (1110, [1030]); (1111, [1031]); (1112, [1032]); (1113, [1033]);
   (1114, [1034]); (1115, [1035]); (1116, [1036]); (1117, [1037]);
   (1118, [1038]); (1119, [1039]); (1121, [1120]); (1123, [1122]);
   (1125, [1124]); (1127, [1126]); (1129, [1128]); (1131, [1130]);
   (1133, [1132]); (1135, [1134]); (1137, [1136]); (1139, [1138]);
   (1141, [1140]); (1143, [1142]); (1145, [1144]); (1147, [1146]);
   (1149, [1148]); (1151, [1150]); (1153, [1152]); (1163, [1162]);
   (1165, [1164]); (1167, [1166]); (1169, [1168]); (1171, [1170]);
   (1173, [1172]); (1175, [1174]); (1177, [1176]); (1179, [1178]);
   (1181, [1180]); (1183, [1182]); (1185, [1184]); (1187, [1186]);
   (1189, [1188]); (1191, [1190]); (1193, [1192]); (1195, [1194]);
   (1197, [1196]); (1199, [1198]); (1201, [1200]); (1203, [1202]);
   (1205, [1204]); (1207, [1206]); (1209, [1208]); (1211, [1210]);
   (1213, [1212]); (1215, [1214]); (1218, [1217]); (1220, [1219]);
   (1222, [1221]); (1224, [1223]); (1226, [1225]); (1228, [1227]);
   (1230, [1229]); (1231, [1216]); (1233, [1232]); (1235, [1234]);
   (1237, [1236]); (1239, [1238]); (1241, [1240]); (1243, [1242]);
   (1245, [1244]); (1247, [1246]); (1249, [1248]); (1251, [1250]);
   (1253, [1252]); (1255, [1254]); (1257, [1256]); (1259, [1258]);
   (1261, [1260]); (1263, [1262]); (1265, [1264]); (1267, [1266]);
   (1269, [1268]); (1271, [1270]); (1273, [1272]); (1275, [1274]);
   (1277, [1276]); (1279, [1278]); (1281, [1280]); (1283, [1282]);
   (1285, [1284]); (1287, [1286]); (1289, [1288]); (1291, [1290]);
   (1293, [1292]); (1295, [1294]); (1297, [1296]); (1299, [1298]);
   (1301, [1300]); (1303, [1302]); (1305, [1304]); (1307, [1306]);
   (1309, [1308]); (1311, [1310]); (1313, [1312]); (1315, [1314]);
   (1317, [1316]); (1319, [1318]); (1321, [1320]); (1323, [1322]);
   (1325, [1324]); (1327, [1326]); (1377, [1329]); (1378, [1330]);
   (1379, [1331]); (1380, [1332]); (1381, [1333]); (1382, [1334]);
   (1383, [1335]); (1384, [1336]); (1385, [1337]); (1386, [1338]);
   (1387, [1339]); (1388, [1340]); (1389, [1341]); (1390, [1342]);
   (1391, [1343]); (1392, [1344]); (1393, [1345]); (1394, [1346]);
   (1395, [1347]); (1396, [1348]); (1397, [1349]); (1398, [1350]);
   (1399, [1351]); (1400, [1352]); (1401, [1353]); (1402, [1354]);
   (1403, [1355]); (1404, [1356]); (1405, [1357]); (1406, [1358]);
   (1407, [1359]); (1408, [1360]); (1409, [1361]); (1410, [1362]);
   (1411, [1363]); (1412, [1364]); (1413, [1365]); (1414, [1366]);
   (1415, [1333; 1362]); (4304, [7312]); (4305, [7313]); (4306, [7314]);
   (4307, [7315]); (4308, [7316]); (4309, [7317]); (4310, [7318]);
   (4311, [7319]); (4312, [7320]); (4313, [7321]); (4314, [7322]);
   (4315, [7323]); (4316, [7324]); (4317, [7325]); (4318, [7326]);
   (4319, [7327]); (4320, [7328]); (4321, [7329]); (4322, [7330]);
   (4323, [7331]); (4324, [7332]); (4325, [7333]); (4326, [7334]);
   (4327, [7335]); (4328, [7336]); (4329, [7337]); (4330, [7338]);
   (4331, [7339]); (4332, [7340]); (4333, [7341]); (4334, [7342]);
   (4335, [7343]); (4336, [7344]); (4337, [7345]); (4338, [7346]);
   (4339, [7347]); (4340, [7348]); (4341, [7349]); (4342, [7350]);
   (4343, [7351]); (4344, [7352]); (4345, [7353]); (4346, [7354]);
   (4349, [7357]); (4350, [7358]); (4351, [7359]); (5112, [5104]);
   (5113, [5105]); (5114, [5106]); (5115, [5107]); (5116, [5108]);
   (5117, [5109]); (7296, [1042]); (7297, [1044]); (7298, [1054]);
   (7299, [1057]); (7300, [1058]); (7301, [1058]); (7302, [1066]);
   (7303, [1122]); (7304, [42570]); (7545, [42877]); (7549, [11363]);
   (7566, [42950]); (7681, [7680]); (7683, [7682]); (7685, [7684]);
   (7687, [7686]); (7689, [7688]); (7691, [7690]); (7693, [7692]);
   (7695, [7694]); (7697, [7696]); (7699, [7698]); (7701, [7700]);
   (7703, [7702]); (7705, [7704]); (7707, [7706]); (7709, [7708]);
   (7711, [7710]); (7713, [7712]); (7715, [7714]); (7717, [7716]);
   (7719, [7718]); (7721, [7720]); (7723, [7722]); (7725, [7724]);
   (7727, [7726]); (7729, [7728]); (7731, [7730]); (7733, [7732]);
   (7735, [7734]); (7737, [7736]); (7739, [7738]); (7741, [7740]);
   (7743, [7742]); (7745, [7744]); (7747, [7746]); (7749, [7748]);
   (7751, [7750]); (7753, [7752]); (7755, [7754]); (7757, [7756]);
   (7759, [7758]); (7761, [7760]); (7763, [7762]); (7765, [7764]);
   (7767, [7766]); (7769, [7768]); (7771, [7770]); (7773, [7772]);
   (7775, [7774]); (7777, [7776]); (7779, [7778]); (7781, [7780]);
   (7783, [7782]); (7785, [7784]); (7787, [7786]); (7789, [7788]);
   (7791, [7790]); (7793, [7792]); (7795, [7794]); (7797, [7796]);
   (7799, [7798]); (7801, [7800]); (7803, [7802]); (7805, [7804]);
   (7807, [7806]); (7809, [7808]); (7811, [7810]); (7813, [7812]);
   (7815, [7814]); (7817, [7816]); (7819, [7818]); (7821, [7820]);
   (7823, [7822]); (7825, [7824]); (7827, [7826]); (7829, [7828]);
   (7830, [72; 817]); (7831, [84; 776]); (7832, [87; 778]); (7833, [89; 778]);
   (7834, [65; 702]); (7835, [7776]); (7841, [7840]); (7843, [7842]);
   (7845, [7844]); (7847, [7846]); (7849, [7848]); (7851, [7850]);
   (7853, [7852]); (7855, [7854]); (7857, [7856]); (7859, [7858]);
   (7861, [7860]); (7863, [7862]); (7865, [7864]); (7867, [7866]);
   (7869, [7868]); (7871, [7870]); (7873, [7872]); (7875, [7874]);
   (7877, [7876]); (7879, [7878]); (7881, [7880]); (7883, [7882]);
   (7885, [7884]); (7887, [7886]); (7889, [7888]); (7891, [7890]);
   (7893, [7892]); (7895, [7894]); (7897, [7896]); (7899, [7898]);
   (7901, [7900]); (7903, [7902]); (7905, [7904]); (7907, [7906]);
   (7909, [7908]); (7911, [7910]); (7913, [7912]); (7915, [7914]);
   (7917, [7916]); (7919, [7918]); (7921, [7920]); (7923, [7922]);
   (7925, [7924]); (7927, [7926]); (7929, [7928]); (7931, [7930]);
   (7933, [7932]); (7935, [7934]); (7936, [7944]); (7937, [7945]);
   (7938, [7946]); (7939, [7947]); (7940, [7948]); (7941, [7949]);
   (7942, [7950]); (7943, [7951]); (7952, [7960]); (7953, [7961]);
   (7954, [7962]); (7955, [7963]); (7956, [7964]); (7957, [7965]);
   (7968, [7976]); (7969, [7977]); (7970, [7978]); (7971, [7979]);
   (7972, [7980]); (7973, [7981]); (7974, [7982]); (7975, [7983]);
   (7984, [7992]); (7985, [7993]); (7986, [7994]); (7987, [7995]);
   (7988, [7996]); (7989, [7997]); (7990, [7998]); (7991, [7999]);
   (8000, [8008]); (8001, [8009]); (8002, [8010]); (8003, [8011]);
   (8004, [8012]); (8005, [8013]); (8016, [933; 787]); (8017, [8025]);
   (8018, [933; 787; 768]); (8019, [8027]); (8020, [933; 787; 769]);
   (8021, [8029]); (8022, [933; 787; 834]); (8023, [8031]); (8032, [8040]);
   (8033, [8041]); (8034, [8042]); (8035, [8043]); (8036, [8044]);
   (8037, [8045]); (8038, [8046]); (8039, [8047]); (8048, [8122]);
   (8049, [8123]); (8050, [8136]); (8051, [8137]); (8052, [8138]);
   (8053, [8139]); (8054, [8154]); (8055, [8155]); (8056, [8184]);
   (8057, [8185]); (8058, [8170]); (8059, [8171]); (8060, [8186]);
   (8061, [8187]); (8064, [7944; 921]); (8065, [7945; 921]);
   (8066, [7946; 921]); (8067, [7947; 921]); (8068, [7948; 921]);
   (8069, [7949; 921]); (8070, [7950; 921]); (8071, [7951; 921]);
   (8072, [7944; 921]); (8073, [7945; 921]); (8074, [7946; 921]);
   (8075, [7947; 921]); (8076, [7948; 921]); (8077, [7949; 921]);
   (8078, [7950; 921]); (8079, [7951; 921]); (8080, [7976; 921]);
   (8081, [7977; 921]); (8082, [7978; 921]); (8083, [7979; 921]);
   (8084, [7980; 921]); (8085, [7981; 921]); (8086, [7982; 921]);
   (8087, [7983; 921]); (8088, [7976; 921]); (8089, [7977; 921]);
   (8090, [7978; 921]); (8091, [7979; 921]); (8092, [7980; 921]);
   (8093, [7981; 921]); (8094, [7982; 921]); (8095, [7983; 921]);
   (8096, [8040; 921]); (8097, [8041; 921]); (8098, [8042; 921]);
   (8099, [8043; 921]); (8100, [8044; 921]); (8101, [8045; 921]);
   (8102, [8046; 921]); (8103, [8047; 921]); (8104, [8040; 921]);
   (8105, [8041; 921]); (8106, [8042; 921]); (8107, [8043; 921]);
   (8108, [8044; 921]); (8109, [8045; 921]); (8110, [8046; 921]);
   (8111, [8047; 921]); (8112, [8120]); (8113, [8121]); (8114, [8122; 921]);
   (8115, [913; 921]); (8116, [902; 921]); (8118, [913; 834]);
   (8119, [913; 834; 921]); (8124, [913; 921]); (8126, [921]);
   (8130, [8138; 921]); (8131, [919; 921]); (8132, [905; 921]);
   (8134, [919; 834]); (8135, [919; 834; 921]); (8140, [919; 921]);
   (8144, [8152]); (8145, [8153]); (8146, [921; 776; 768]);
   (8147, [921; 776; 769]); (8150, [921; 834]); (8151, [921; 776; 834]);
   (8160, [8168]); (8161, [8169]); (8162, [933; 776; 768]);
   (8163, [933; 776; 769]); (8164, [929; 787]); (8165, [8172]);
   (8166, [933; 834]); (8167, [933; 776; 834]); (8178, [8186; 921]);
   (8179, [937; 921]); (8180, [911; 921]); (8182, [937; 834]);
   (8183, [937; 834; 921]); (8188, [937; 921]); (8526, [8498]); (8560, [8544]);
   (8561, [8545]); (8562, [8546]); (8563, [8547]); (8564, [8548]);
   (8565, [8549]); (8566, [8550]); (8567, [8551]); (8568, [8552]);
   (8569, [8553]); (8570, [8554]); (8571, [8555]); (8572, [8556]);
   (8573, [8557]); (8574, [8558]); (8575, [8559]); (8580, [8579]);
   (9424, [9398]); (9425, [9399]); (9426, [9400]); (9427, [9401]);
   (9428, [9402]); (9429, [9403]); (9430, [9404]); (9431, [9405]);
   (9432, [9406]); (9433, [9407]); (9434, [9408]); (9435, [9409]);
   (9436, [9410]); (9437, [9411]); (9438, [9412]); (9439, [9413]);
   (9440, [9414]); (9441, [9415]); (9442, [9416]); (9443, [9417]);
   (9444, [9418]); (9445, [9419]); (9446, [9420]); (9447, [9421]);
   (9448, [9422]); (9449, [9423]); (11312, [11264]); (11313, [11265]);
   (11314, [11266]); (11315, [11267]); (11316, [11268]); (11317, [11269]);
   (11318, [11270]); (11319, [11271]); (11320, [11272]); (11321, [11273]);
   (11322, [11274]); (11323, [11275]); (11324, [11276]); (11325, [11277]);
   (11326, [11278]); (11327, [11279]); (11328, [11280]); (11329, [11281]);
   (11330, [11282]); (11331, [11283]); (11332, [11284]); (11333, [11285]);
   (11334, [11286]); (11335, [11287]); (11336, [11288]); (11337, [11289]);
   (11338, [11290]); (11339, [11291]); (11340, [11292]); (11341, [11293]);
   (11342, [11294]); (11343, [11295]); (11344, [11296]); (11345, [11297]);
   (11346, [11298]); (11347, [11299]); (11348, [11300]); (11349, [11301]);
   (11350, [11302]); (11351, [11303]); (11352, [11304]); (11353, [11305]);
   (11354, [11306]); (11355, [11307]); (11356, [11308]); (11357, [11309]);
   (11358, [11310]); (11359, [11311]); (11361, [11360]); (11365, [570]);
   (11366, [574]); (11368, [11367]); (11370, [11369]); (11372, [11371]);
   (11379, [11378]); (11382, [11381]); (11393, [11392]); (11395, [11394]);
   (11397, [11396]); (11399, [11398]); (11401, [11400]); (11403, [11402]);
   (11405, [11404]); (11407, [11406]); (11409, [11408]); (11411, [11410]);
   (11413, [11412]); (11415, [11414]); (11417, [11416]); (11419, [11418]);
   (11421, [11420]); (11423, [11422]); (11425, [11424]); (11427, [11426]);
   (11429, [11428]); (11431, [11430]); (11433, [11432]); (11435, [11434]);
   (11437, [11436]); (11439, [11438]); (11441, [11440]); (11443, [11442]);
   (11445, [11444]); (11447, [11446]); (11449, [11448]); (11451, [11450]);
   (11453, [11452]); (11455, [11454]); (11457, [11456]); (11459, [11458]);
   (11461, [11460]); (11463, [11462]); (11465, [11464]); (11467, [11466]);
   (11469, [11468]); (11471, [11470]); (11473, [11472]); (11475, [11474]);
   (11477, [11476]); (11479, [11478]); (11481, [11480]); (11483, [11482]);
   (11485, [11484]); (11487, [11486]); (11489, [11488]); (11491, [11490]);
   (11500, [11499]); (11502, [11501]); (11507, [11506]); (11520, [4256]);
   (11521, [4257]); (11522, [4258]); (11523, [4259]); (11524, [4260]);
   (11525, [4261]); (11526, [4262]); (11527, [4263]); (11528, [4264]);
   (11529, [4265]); (11530, [4266]); (11531, [4267]); (11532, [4268]);
   (11533, [4269]); (11534, [4270]); (11535, [4271]); (11536, [4272]);
   (11537, [4273]); (11538, [4274]); (11539, [4275]); (11540, [4276]);
   (11541, [4277]); (11542, [4278]); (11543, [4279]); (11544, [4280]);
   (11545, [4281]); (11546, [4282]); (11547, [4283]); (11548, [4284]);
   (11549, [4285]); (11550, [4286]); (11551, [4287]); (11552, [4288]);
   (11553, [4289]); (11554, [4290]); (11555, [4291]); (11556, [4292]);
   (11557, [4293]); (11559, [4295]); (11565, [4301]); (42561, [42560]);
   (42563, [42562]); (42565, [42564]); (42567, [42566]); (42569, [42568]);
   (42571, [42570]); (42573, [42572]); (42575, [42574]); (42577, [42576]);
   (42579, [42578]); (42581, [42580]); (42583, [42582]); (42585, [42584]);
   (42587, [42586]); (42589, [42588]); (42591, [42590]); (42593, [42592]);
   (42595, [42594]); (42597, [42596]); (42599, [42598]); (42601, [42600]);
   (42603, [42602]); (42605, [42604]); (42625, [42624]); (42627, [42626]);
   (42629, [42628]); (42631, [42630]); (42633, [42632]); (42635, [42634]);
   (42637, [42636]); (42639, [42638]); (42641, [42640]); (42643, [42642]);
   (42645, [42644]); (42647, [42646]); (42649, [42648]); (42651, [42650]);
   (42787, [42786]); (42789, [42788]); (42791, [42790]); (42793, [42792]);
   (42795, [42794]); (42797, [42796]); (42799, [42798]); (42803, [42802]);
   (42805, [42804]); (42807, [42806]); (42809, [42808]); (42811, [42810]);
   (42813, [42812]); (42815, [42814]); (42817, [42816]); (42819, [42818]);
   (42821, [42820]); (42823, [42822]); (42825, [42824]); (42827, [42826]);
   (42829, [42828]); (42831, [42830]); (42833, [42832]); (42835, [42834]);
   (42837, [42836]); (42839, [42838]); (42841, [42840]); (42843, [42842]);
   (42845, [42844]); (42847, [42846]); (42849, [42848]); (42851, [42850]);
   (42853, [42852]); (42855, [42854]); (42857, [42856]); (42859, [42858]);
   (42861, [42860]); (42863, [42862]); (42874, [42873]); (42876, [42875]);
   (42879, [42878]); (42881, [42880]); (42883, [42882]); (42885, [42884]);
   (42887, [42886]); (42892, [42891]); (42897, [42896]); (42899, [42898]);
   (42900, [42948]); (42903, [42902]); (42905, [42904]); (42907, [42906]);
   (42909, [42908]); (42911, [42910]); (42913, [42912]); (42915, [42914]);
   (42917, [42916]); (42919, [42918]); (42921, [42920]); (42933, [42932]);
   (42935, [42934]); (42937, [42936]); (42939, [42938]); (42941, [42940]);
   (42943, [42942]); (42945, [42944]); (42947, [42946]); (42952, [42951]);
   (42954, [42953]); (42961, [42960]); (42967, [42966]); (42969, [42968]);
   (42998, [42997]); (43859, [42931]); (43888, [5024]); (43889, [5025]);
   (43890, [5026]); (43891, [5027]); (43892, [5028]); (43893, [5029]);
   (43894, [5030]); (43895, [5031]); (43896, [5032]); (43897, [5033]);
   (43898, [5034]); (43899, [5035]); (43900, [5036]); (43901, [5037]);
   (43902, [5038]); (43903, [5039]); (43904, [5040]); (43905, [5041]);
   (43906, [5042]); (43907, [5043]); (43908, [5044]); (43909, [5045]);
   (43910, [5046]); (43911, [5047]); (43912, [5048]); (43913, [5049]);
   (43914, [5050]); (43915, [5051]); (43916, [5052]); (43917, [5053]);
   (43918, [5054]); (43919, [5055]); (43920, [5056]); (43921, [5057]);
   (43922, [5058]); (43923, [5059]); (43924, [5060]); (43925, [5061]);
   (43926, [5062]); (43927, [5063]); (43928, [5064]); (43929, [5065]);
   (43930, [5066]); (43931, [5067]); (43932, [5068]); (43933, [5069]);
   (43934, [5070]); (43935, [5071]); (43936, [5072]); (43937, [5073]);
   (43938, [5074]); (43939, [5075]); (43940, [5076]); (43941, [5077]);
   (43942, [5078]); (43943, [5079]); (43944, [5080]); (43945, [5081]);
   (43946, [5082]); (43947, [5083]); (43948, [5084]); (43949, [5085]);
   (43950, [5086]); (43951, [5087]); (43952, [5088]); (43953, [5089]);
   (43954, [5090]); (43955, [5091]); (43956, [5092]); (43957, [5093]);
   (43958, [5094]); (43959, [5095]); (43960, [5096]); (43961, [5097]);
   (43962, [5098]); (43963, [5099]); (43964, [5100]); (43965, [5101]);
   (43966, [5102]); (43967, [5103]); (64256, [70; 70]); (64257, [70; 73]);
   (64258, [70; 76]); (64259, [70; 70; 73]); (64260, [70; 70; 76]);
   (64261, [83; 84]); (64262, [83; 84]); (64275, [1348; 1350]);
   (64276, [1348; 1333]); (64277, [1348; 1339]); (64278, [1358; 1350]);
   (64279, [1348; 1341]); (65345, [65313]); (65346, [65314]); (65347, [65315]);
   (65348, [65316]); (65349, [65317]); (65350, [65318]); (65351, [65319]);
   (65352, [65320]); (65353, [65321]); (65354, [65322]); (65355, [65323]);
   (65356, [65324]); (65357, [65325]); (65358, [65326]); (65359, [65327]);
   (65360, [65328]); (65361, [65329]); (65362, [65330]); (65363, [65331]);
   (65364, [65332]); (65365, [65333]); (65366, [65334]); (65367, [65335]);
   (65368, [65336]); (65369, [65337]); (65370, [65338]); (66600, [66560]);
   (66601, [66561]); (66602, [66562]); (66603, [66563]); (66604, [66564]);
   (66605, [66565]); (66606, [66566]); (66607, [66567]); (66608, [66568]);
   (66609, [66569]); (66610, [66570]); (66611, [66571]); (66612, [66572]);
   (66613, [66573]); (66614, [66574]); (66615, [66575]); (66616, [66576]);
   (66617, [66577]); (66618, [66578]); (66619, [66579]); (66620, [66580]);
   (66621, [66581]); (66622, [66582]); (66623, [66583]); (66624, [66584]);
   (66625, [66585]); (66626, [66586]); (66627, [66587]); (66628, [66588]);
   (66629, [66589]); (66630, [66590]); (66631, [66591]); (66632, [66592]);
   (66633, [66593]); (66634, [66594]); (66635, [66595]); (66636, [66596]);
   (66637, [66597]); (66638, [66598]); (66639, [66599]); (66776, [66736]);
   (66777, [66737]); (66778, [66738]); (66779, [66739]); (66780, [66740]);
   (66781, [66741]); (66782, [66742]); (66783, [66743]); (66784, [66744]);
   (66785, [66745]); (66786, [66746]); (66787, [66747]); (66788, [66748]);
   (66789, [66749]); (66790, [66750]); (66791, [66751]); (66792, [66752]);
   (66793, [66753]); (66794, [66754]); (66795, [66755]); (66796, [66756]);
   (66797, [66757]); (66798, [66758]); (66799, [66759]); (66800, [66760]);
   (66801, [66761]); (66802, [66762]); (66803, [66763]); (66804, [66764]);
   (66805, [66765]); (66806, [66766]); (66807, [66767]); (66808, [66768]);
   (66809, [66769]); (66810, [66770]); (66811, [66771]); (66967, [66928]);
   (66968, [66929]); (66969, [66930]); (66970, [66931]); (66971, [66932]);
   (66972, [66933]); (66973, [66934]); (66974, [66935]); (66975, [66936]);
   (66976, [66937]); (66977, [66938]); (66979, [66940]); (66980, [66941]);
   (66981, [66942]); (66982, [66943]); (66983, [66944]); (66984, [66945]);
   (66985, [66946]); (66986, [66947]); (66987, [66948]); (66988, [66949]);
   (66989, [66950]); (66990, [66951]); (66991, [66952]); (66992, [66953]);
   (66993, [66954]); (66995, [66956]); (66996, [66957]); (66997, [66958]);
   (66998, [66959]); (66999, [66960]); (67000, [66961]); (67001, [66962]);
   (67003, [66964]); (67004, [66965]); (68800, [68736]); (68801, [68737]);
   (68802, [68738]); (68803, [68739]); (68804, [68740]); (68805, [68741]);
   (68806, [68742]); (68807, [68743]); (68808, [68744]); (68809, [68745]);
   (68810, [68746]); (68811, [68747]); (68812, [68748]); (68813, [68749]);
   (68814, [68750]); (68815, [68751]); (68816, [68752]); (68817, [68753]);
   (68818, [68754]); (68819, [68755]); (68820, [68756]); (68821, [68757]);
   (68822, [68758]); (68823, [68759]); (68824, [68760]); (68825, [68761]);
   (68826, [68762]); (68827, [68763]); (68828, [68764]); (68829, [68765]);
   (68830, [68766]); (68831, [68767]); (68832, [68768]); (68833, [68769]);
   (68834, [68770]); (68835, [68771]); (68836, [68772]); (68837, [68773]);
   (68838, [68774]); (68839, [68775]); (68840, [68776]); (68841, [68777]);
   (68842, [68778]); (68843, [68779]); (68844, [68780]); (68845, [68781]);
   (68846, [68782]); (68847, [68783]); (68848, [68784]); (68849, [68785]);
   (68850, [68786]); (71872, [71840]); (71873, [71841]); (71874, [71842]);
   (71875, [71843]); (71876, [71844]); (71877, [71845]); (71878, [71846]);
   (71879, [71847]); (71880, [71848]); (71881, [71849]); (71882, [71850]);
   (71883, [71851]); (71884, [71852]); (71885, [71853]); (71886, [71854]);
   (71887, [71855]); (71888, [71856]); (71889, [71857]); (71890, [71858]);
   (71891, [71859]); (71892, [71860]); (71893, [71861]); (71894, [71862]);
   (71895, [71863]); (71896, [71864]); (71897, [71865]); (71898, [71866]);
   (71899, [71867]); (71900, [71868]); (71901, [71869]); (71902, [71870]);
   (71903, [71871]); (93792, [93760]); (93793, [93761]); (93794, [93762]);
   (93795, [93763]); (93796, [93764]); (93797, [93765]); (93798, [93766]);
   (93799, [93767]); (93800, [93768]); (93801, [93769]); (93802, [93770]);
   (93803, [93771]); (93804, [93772]); (93805, [93773]); (93806, [93774]);
   (93807, [93775]); (93808, [93776]); (93809, [93777]); (93810, [93778]);
   (93811, [93779]); (93812, [93780]); (93813, [93781]); (93814, [93782]);
   (93815, [93783]); (93816, [93784]); (93817, [93785]); (93818, [93786]);
   (93819, [93787]); (93820, [93788]); (93821, [93789]); (93822, [93790]);
   (93823, [93791]); (125218, [125184]); (125219, [125185]); (125220, [125186]);
   (125221, [125187]); (125222, [125188]); (125223, [125189]);
   (125224, [125190]); (125225, [125191]); (125226, [125192]);
   (125227, [125193]); (125228, [125194]); (125229, [125195]);
   (125230, [125196]); (125231, [125197]); (125232, [125198]);
   (125233, [125199]); (125234, [125200]); (125235, [125201]);
   (125236, [125202]); (125237, [125203]); (125238, [125204]);
   (125239, [125205]); (125240, [125206]); (125241, [125207]);
   (125242, [125208]); (125243, [125209]); (125244, [125210]);
   (125245, [125211]); (125246, [125212]); (125247, [125213]);
   (125248, [125214]); (125249, [125215]); (125250, [125216]);
   (125251, [125217])]%N.

(** the same in UTF-8 *)
Definition upper_table : list (string * string) :=
  Eval vm_compute in
    List.map (fun kv => (utf8 (fst kv), concat (List.map utf8 (snd kv))))
             upper_data.

(** the entry for the character [s] starts with *)
Definition upper_at (s : string) : option (string * string) :=
  List.find (fun kv => startswith (fst kv) s) upper_table.

(** [s.upper()]: a character of the table is replaced by its upper-case
    form, an ASCII letter by its capital, every other byte is kept.
    [skip] counts the bytes still to pass of a replaced character. *)
Fixpoint upper_from (skip : nat) (s : string) : string :=
  match s with
  | EmptyString => EmptyString
  | String c r =>
      match skip with
      | S n => upper_from n r
      | O => match upper_at s with
             | Some kv => snd kv ++ upper_from (String.length (fst kv) - 1) r
             | None => String (upper_char c) (upper_from 0 r)
             end
      end
  end.

Definition upper (s : string) : string := upper_from 0 s.

(** [str(n)] for an [int] *)
Definition str_int (z : Z) : string := NilZero.string_of_int (Z.to_int z).

End PyStr.

(** ** The identifier pattern

    [re.match(r'^[a-zA-Z0-9_]+(\.[a-zA-Z0-9_]+)?$', table_name)] *)
Module TableNameRe.

(** the class [[a-zA-Z0-9_]] *)
Definition word_char (c : ascii) : bool :=
  PyStr.in_range 97 122 c || PyStr.in_range 65 90 c
  || PyStr.in_range 48 57 c || Ascii.eqb c "_".

(** the greedy [[a-zA-Z0-9_]*]: what is left after the longest run *)
Fixpoint skip_word (s : string) : string :=
  match s with
  | EmptyString => EmptyString
  | String c r => if word_char c then skip_word r else s
  end.

(** the greedy [[a-zA-Z0-9_]+]: fails on an empty run.  A shorter run
    is never worth trying: the character after it is a word character,
    and what follows in the pattern is [\.] or [$]. *)
Definition word_plus (s : string) : option string :=
  match s with
  | EmptyString => None
  | String c r => if word_char c then Some (skip_word r) else None
  end.

(** [$] without [re.MULTILINE]: at the end of the string, or just
    before a newline that is the last character. *)
Definition at_dollar (s : string) : bool :=
  match s with
  | EmptyString => true
  | String c EmptyString => Ascii.eqb c "010"
  | _ => false
  end.

(** the optional group [(\.[a-zA-Z0-9_]+)?] followed by [$]: the group
    is tried first, then skipped. *)
Definition opt_group_then_dollar (s : string) : bool :=
  match s with
  | String c r =>
      (if Ascii.eqb c "." then
         match word_plus r with
         | Some r' => at_dollar r'
         | None => false
         end
       else false)
      || at_dollar s
  | EmptyString => at_dollar s
  end.

(** whether [re.match] returns a match object *)
Definition re_match (table_name : string) : bool :=
  match word_plus table_name with
  | Some r => opt_group_then_dollar r
  | None => false
  end.

End TableNameRe.

(** [validate_table_name] *)
Definition validate_table_name (table_name : string) : outcome string :=
  if negb (TableNameRe.re_match table_name) then
    Raise (Exn ValueError ("Invalid table name: " ++ table_name))
  else
    let parts := PyStr.split "." table_name in
    if Nat.eqb (length parts) 2 then
      Ret ("[" ++ nth 0 parts "" ++ "].[" ++ nth 1 parts "" ++ "]")
    else
      Ret ("[" ++ table_name ++ "]").

(** ** The statement classifier *)

(** [re.sub(r'/\*.*?\*/', '', query, flags=re.DOTALL)] *)
Module BlockCommentRe.

(** [.*?\*/] under [re.DOTALL]: the lazy star stops at the first
    [*/]; the result is what follows it, [None] when there is none. *)
Fixpoint lazy_any_then_close (s : string) : option string :=
  match s with
  | EmptyString => None
  | String c r =>
      if Ascii.eqb c "*" && PyStr.startswith "/" r then Some (PyStr.drop 1 r)
      else lazy_any_then_close r
  end.

(** the whole pattern tried at the start of [s]: what follows the
    match *)
Definition match_here (s : string) : option string :=
  if PyStr.startswith "/*" s then lazy_any_then_close (PyStr.drop 2 s)
  else None.

(** The substitution loop: at each position the pattern is tried; a
    match is dropped and the scan resumes after it, otherwise the
    character is kept.  [fuel] bounds the number of steps. *)
Fixpoint sub_loop (fuel : nat) (s : string) : string :=
  match fuel with
  | O => s
  | S fuel' =>
      match s with
      | EmptyString => EmptyString
      | String c r =>
          match match_here s with
          | Some rest => sub_loop fuel' rest
          | None => String c (sub_loop fuel' r)
          end
      end
  end.

Definition re_sub (query : string) : string :=
  sub_loop (S (String.length query)) query.

End BlockCommentRe.

(** the body of the [for line in lines] loop *)
Definition strip_line_comment (line : string) : string :=
  match PyStr.find "--" line with
  | Some comment_pos => PyStr.take comment_pos line
  | None => line
  end.

(** [is_select_query] *)
Definition is_select_query (query : string) : bool :=
  let query_cleaned := BlockCommentRe.re_sub query in
  let lines := PyStr.split "010" query_cleaned in
  let cleaned_lines := List.map strip_line_comment lines in
  let query_cleaned := PyStr.join LF cleaned_lines in
  let first_word :=
    match PyStr.strip query_cleaned with
    | EmptyString => ""
    | stripped => nth 0 (PyStr.split_ws stripped) ""
    end in
  String.eqb (PyStr.upper first_word) "SELECT".

(** ** The two patterns of the source and what Python takes them to mean *)
Module PyRe.

(** The constructs the two patterns are written with. *)
Inductive re :=
| Chr (c : ascii)         (* a character, escaped or not *)
| Cls (p : ascii -> bool) (* a class [[...]] *)
| Any                     (* [.] under [re.DOTALL] *)
| Seq (r1 r2 : re)
| Opt (r : re)            (* [r?] *)
| Plus (r : re)           (* [r+] *)
| LazyStar (r : re)       (* [r*?] *)
| Bol                     (* [^] *)
| Eol.                    (* [$] *)

(** [matches r before m after]: in the text [before ++ m ++ after] the
    expression [r] can match the part [m].  Without [re.MULTILINE], [^]
    holds at the start of the text only and [$] at its end or just
    before a newline that ends it. *)
Inductive matches : re -> string -> string -> string -> Prop :=
| m_chr c before after : matches (Chr c) before (String c "") after
| m_cls (p : ascii -> bool) c before after :
    p c = true -> matches (Cls p) before (String c "") after
| m_any c before after : matches Any before (String c "") after
| m_seq r1 r2 before m1 m2 after :
    matches r1 before m1 (m2 ++ after) ->
    matches r2 (before ++ m1) m2 after ->
    matches (Seq r1 r2) before (m1 ++ m2) after
| m_opt_none r before after : matches (Opt r) before "" after
| m_opt_some r before m after :
    matches r before m after -> matches (Opt r) before m after
| m_plus_one r before m after :
    matches r before m after -> matches (Plus r) before m after
| m_plus_more r before m1 m2 after :
    matches r before m1 (m2 ++ after) ->
    matches (Plus r) (before ++ m1) m2 after ->
    matches (Plus r) before (m1 ++ m2) after
| m_star_none r before after : matches (LazyStar r) before "" after
| m_star_more r before m1 m2 after :
    matches r before m1 (m2 ++ after) ->
    matches (LazyStar r) (before ++ m1) m2 after ->
    matches (LazyStar r) before (m1 ++ m2) after
| m_bol after : matches Bol "" "" after
| m_eol before after : after = "" \/ after = LF -> matches Eol before "" after.

(** [re.match(r, s)] returns a match: [r] matches a part of [s] that
    starts at its first character. *)
Definition match_at_start (r : re) (s : string) : Prop :=
  exists m after, s = m ++ after /\ matches r "" m after.

(** [r'^[a-zA-Z0-9_]+(\.[a-zA-Z0-9_]+)?$'] *)
Definition table_name_pattern : re :=
  Seq Bol
      (Seq (Plus (Cls TableNameRe.word_char))
           (Seq (Opt (Seq (Chr ".") (Plus (Cls TableNameRe.word_char))))
                Eol)).

(** [r'/\*.*?\*/'] *)
Definition block_comment_pattern : re :=
  Seq (Chr "/") (Seq (Chr "*") (Seq (LazyStar Any) (Seq (Chr "*") (Chr "/")))).

(** What a pattern with one lazy star takes at a position: the shortest
    part it can match there. *)
Definition lazy_match (r : re) (before s m after : string) : Prop :=
  s = m ++ after
  /\ matches r before m after
  /\ forall m' after',
      s = m' ++ after' -> matches r before m' after' ->
      String.length m <= String.length m'.

End PyRe.

(** ** Values, rows and protocol objects *)

(** A cell of a fetched row.  [PyOther] is any other driver value
    (decimal, date, bytes, ...), given by the name of its type and by
    what [str] returns on it. *)
Inductive pyvalue :=
| PyString (s : string)
| PyInt (z : Z)
| PyNone
| PyOther (type_name text : string).

(** [str(v)] *)
Definition py_str (v : pyvalue) : string :=
  match v with
  | PyString s => s
  | PyInt z => PyStr.str_int z
  | PyNone => "None"
  | PyOther _ text => text
  end.

(** [type(v).__name__] *)
Definition py_type_name (v : pyvalue) : string :=
  match v with
  | PyString _ => "str"
  | PyInt _ => "int"
  | PyNone => "NoneType"
  | PyOther type_name _ => type_name
  end.

Definition row := list pyvalue.

(** [mcp.types.Resource] *)
Record Resource := {
  uri : string;
  name : string;
  mimeType : string;
  description : string }.

(** [mcp.types.TextContent], whose [type] field is always ["text"] here *)
Record TextContent := { content_type : string; text : string }.

(** [mcp.types.Tool], without the fixed input schema *)
Record Tool := { tool_name : string; tool_description : string }.

(** [row[0]] *)
Definition first_cell (r : row) : outcome pyvalue :=
  match r with
  | v :: _ => Ret v
  | [] => Raise (Exn IndexError "tuple index out of range")
  end.

(** A list comprehension whose element expression may raise. *)
Fixpoint comprehension (A B : Type) (f : A -> outcome B) (l : list A)
  : outcome (list B) :=
  match l with
  | [] => Ret []
  | a :: l' =>
      match f a with
      | Raise e => Raise e
      | Ret b =>
          match comprehension f l' with
          | Raise e => Raise e
          | Ret bs => Ret (b :: bs)
          end
      end
  end.

(** [sep.join(items)] on arbitrary values: [TypeError] at the first item,
    counted from [index], that is not a [str]. *)
Fixpoint join_values_from (index : nat) (items : list pyvalue)
  : outcome (list string) :=
  match items with
  | [] => Ret []
  | PyString s :: items' =>
      match join_values_from (S index) items' with
      | Ret ss => Ret (s :: ss)
      | Raise e => Raise e
      end
  | v :: _ =>
      Raise (Exn TypeError
               ("sequence item " ++ PyStr.str_int (Z.of_nat index)
                ++ ": expected str instance, " ++ py_type_name v ++ " found"))
  end.

Definition join_values (sep : string) (items : list pyvalue) : outcome string :=
  match join_values_from 0 items with
  | Ret ss => Ret (PyStr.join sep ss)
  | Raise e => Raise e
  end.

(** [",".join(map(str, row))] *)
Definition render_row (r : row) : string := PyStr.join "," (List.map py_str r).

(** ["\n".join([",".join(columns)] + result)] *)
Definition render_rowset (columns : list string) (rows : list row) : string :=
  PyStr.join LF
             (PyStr.join "," columns :: List.map render_row rows).

(** ** The driver interface

    pyodbc as the handlers use it.  [World] is the state of everything
    behind the driver (engine, network); an operation returns a value or
    raises, and moves the world.  [cur_description] and [cur_rowcount]
    are attribute reads. *)
Record Driver (World Conn Cursor : Type) := {
  connect : string -> World -> outcome Conn * World;
  conn_cursor : Conn -> World -> outcome Cursor * World;
  conn_commit : Conn -> World -> outcome unit * World;
  conn_close : Conn -> World -> outcome unit * World;
  cur_execute : Cursor -> string -> World -> outcome unit * World;
  cur_fetchall : Cursor -> World -> outcome (list row) * World;
  cur_description : Cursor -> World -> option (list string);
  cur_rowcount : Cursor -> World -> Z;
  cur_close : Cursor -> World -> outcome unit * World }.

(** What the process asked of the driver, for the record. *)
Inductive event (Conn Cursor : Type) :=
| EvConnect (conn_str : string) (opened : option Conn)
| EvCursor (c : Conn)
| EvCommit (c : Conn)
| EvCloseConn (c : Conn)
| EvExecute (cur : Cursor) (sql : string)
| EvFetchall (cur : Cursor)
| EvCloseCursor (cur : Cursor).
Arguments EvConnect {Conn Cursor} conn_str opened.
Arguments EvCursor {Conn Cursor} c.
Arguments EvCommit {Conn Cursor} c.
Arguments EvCloseConn {Conn Cursor} c.
Arguments EvExecute {Conn Cursor} cur sql.
Arguments EvFetchall {Conn Cursor} cur.
Arguments EvCloseCursor {Conn Cursor} cur.

(** The process state: the world behind the driver, [os.environ], the
    class attribute [DBConnection._conn], and the driver calls made so
    far, latest first. *)
Record state (World Conn Cursor : Type) := {
  world : World;
  environ : string -> option string;
  DBConnection_conn : option Conn;
  trace : list (event Conn Cursor) }.

(** ** The handlers *)
Section Server.

Context {World Conn Cursor : Type}.
Variable drv : Driver World Conn Cursor.

(** pydantic's validation of the [uri] field of a [Resource]: the text
    of the URL it makes of a string, which need not be the string itself
    (characters may come back percent-encoded), or [None] when it refuses
    the string.  The library is not part of the repository. *)
Variable AnyUrl : string -> option string.

Notation state := (state World Conn Cursor).
Notation event := (event Conn Cursor).

(** A computation reads and writes the process state and returns or
    raises; the state written before a raise stays written. *)
Definition M (A : Type) : Type := state -> outcome A * state.

#[global] Instance Monad_M : Monad M := {
  ret := fun A (a : A) st => (Ret a, st);
  bind := fun A B (c : M A) (k : A -> M B) st =>
    match c st with
    | (Ret a, st') => k a st'
    | (Raise e, st') => (Raise e, st')
    end }.

(** [raise] and [try ... except Exception as e: ...] *)
#[global] Instance MonadExc_M : MonadExc exn M := {
  raise := fun A (e : exn) st => (Raise e, st);
  catch := fun A (body : M A) (handler : exn -> M A) st =>
    match body st with
    | (Ret a, st') => (Ret a, st')
    | (Raise e, st') => handler e st'
    end }.

(** a pure expression that may raise *)
Definition lift A (o : outcome A) : M A := fun st => (o, st).

(** a driver call, recorded in the trace *)
Definition driver_call A (op : World -> outcome A * World)
           (ev : outcome A -> event) : M A :=
  fun st =>
    let (r, w) := op (world st) in
    (r, {| world := w; environ := environ st;
           DBConnection_conn := DBConnection_conn st;
           trace := ev r :: trace st |}).

Definition opened (r : outcome Conn) : option Conn :=
  match r with Ret c => Some c | Raise _ => None end.

Definition pyodbc_connect (conn_str : string) : M Conn :=
  driver_call (connect drv conn_str) (fun r => EvConnect conn_str (opened r)).

(** Method calls on a connection.  The receiver is [None] when
    [DBConnection._conn] was never set. *)
Definition on_conn A (method : string) (c : option Conn) (k : Conn -> M A) : M A :=
  match c with
  | Some h => k h
  | None =>
      raise (Exn AttributeError
               ("'NoneType' object has no attribute '" ++ method ++ "'"))
  end.

Definition cursor (c : option Conn) : M Cursor :=
  on_conn "cursor" c (fun h => driver_call (conn_cursor drv h) (fun _ => EvCursor h)).

Definition commit (c : option Conn) : M unit :=
  on_conn "commit" c (fun h => driver_call (conn_commit drv h) (fun _ => EvCommit h)).

Definition close_conn (c : option Conn) : M unit :=
  on_conn "close" c (fun h => driver_call (conn_close drv h) (fun _ => EvCloseConn h)).

Definition execute (cur : Cursor) (sql : string) : M unit :=
  driver_call (cur_execute drv cur sql) (fun _ => EvExecute cur sql).

Definition fetchall (cur : Cursor) : M (list row) :=
  driver_call (cur_fetchall drv cur) (fun _ => EvFetchall cur).

Definition close_cursor (cur : Cursor) : M unit :=
  driver_call (cur_close drv cur) (fun _ => EvCloseCursor cur).

Definition cursor_description (cur : Cursor) : M (option (list string)) :=
  fun st => (Ret (cur_description drv cur (world st)), st).

Definition cursor_rowcount (cur : Cursor) : M Z :=
  fun st => (Ret (cur_rowcount drv cur (world st)), st).

(** [[desc[0] for desc in cursor.description]] *)
Definition column_names (cur : Cursor) : M (list string) :=
  d <- cursor_description cur ;;
  match d with
  | Some columns => ret columns
  | None => raise (Exn TypeError "'NoneType' object is not iterable")
  end.

(** [os.getenv(key)] and [os.getenv(key, default)] *)
Definition getenv (key : string) : M (option string) :=
  fun st => (Ret (environ st key), st).

Definition getenv_default (key default : string) : M string :=
  v <- getenv key ;;
  ret (match v with Some s => s | None => default end).

(** the truth value of an optional string *)
Definition truthy (v : option string) : bool :=
  match v with
  | Some (String _ _) => true
  | _ => false
  end.

(** an optional string inside an f-string *)
Definition format_opt (v : option string) : string :=
  match v with Some s => s | None => "None" end.

(** [get_connection_string] *)
Definition get_connection_string : M string :=
  server <- getenv_default "MSSQL_SERVER" "localhost" ;;
  database <- getenv "MSSQL_DATABASE" ;;
  user <- getenv "MSSQL_USER" ;;
  password <- getenv "MSSQL_PASSWORD" ;;
  port <- getenv_default "MSSQL_PORT" "1433" ;;
  let driver := "{ODBC Driver 17 for SQL Server}" in
  env_driver <- getenv "MSSQL_DRIVER" ;;
  let driver := if truthy env_driver
                then "{" ++ format_opt env_driver ++ "}" else driver in
  let conn_str := "DRIVER=" ++ driver ++ ";SERVER=" ++ server ++ "," ++ port
                  ++ ";DATABASE=" ++ format_opt database in
  windows_auth <- getenv_default "MSSQL_WINDOWS_AUTH" "false" ;;
  conn_str <-
    (if String.eqb (PyStr.lower windows_auth) "true" then
       ret (conn_str ++ ";Trusted_Connection=yes")
     else if negb (truthy user) || negb (truthy password) then
       raise (Exn ValueError
          "MSSQL_USER and MSSQL_PASSWORD are required for SQL Authentication")
     else
       ret (conn_str ++ ";UID=" ++ format_opt user
                     ++ ";PWD=" ++ format_opt password)) ;;
  encrypt <- getenv_default "MSSQL_ENCRYPT" "false" ;;
  if String.eqb (PyStr.lower encrypt) "true" then
    trust <- getenv_default "MSSQL_TRUST_SERVER_CERTIFICATE" "false" ;;
    if String.eqb (PyStr.lower trust) "true" then
      ret (conn_str ++ ";Encrypt=yes" ++ ";TrustServerCertificate=yes")
    else ret (conn_str ++ ";Encrypt=yes")
  else ret conn_str.

(** [get_command] *)
Definition get_command : M string := getenv_default "MSSQL_COMMAND" "execute_sql".

(** reading and assigning [cls._conn] *)
Definition get_conn : M (option Conn) :=
  fun st => (Ret (DBConnection_conn st), st).

Definition set_conn (c : Conn) : M unit :=
  fun st => (Ret tt, {| world := world st; environ := environ st;
                        DBConnection_conn := Some c; trace := trace st |}).

(** the liveness check inside [get_connection]: the body of its
    [try] *)
Definition probe (c : option Conn) : M unit :=
  cur <- cursor c ;;
  execute cur "SELECT 1" ;;
  _ <- fetchall cur ;;
  close_cursor cur.

(** the [except Exception] branch of [get_connection] *)
Definition reconnect (conn_str : string) : M unit :=
  c <- get_conn ;;
  catch (close_conn c) (fun _ => ret tt) ;;
  h <- pyodbc_connect conn_str ;;
  set_conn h.

(** [DBConnection.get_connection] *)
Definition get_connection : M (option Conn) :=
  conn_str <- get_connection_string ;;
  c <- get_conn ;;
  match c with
  | None =>
      h <- pyodbc_connect conn_str ;;
      set_conn h
  | Some _ =>
      catch (c <- get_conn ;; probe c) (fun _ => reconnect conn_str)
  end ;;
  get_conn.

(** the [Resource(...)] that [list_resources] builds for one fetched row *)
Definition resource_of_row (table : row) : outcome Resource :=
  match first_cell table with
  | Raise e => Raise e
  | Ret t =>
      match AnyUrl ("mssql://" ++ py_str t ++ "/data") with
      | Some url =>
          Ret {| uri := url;
                 name := "Table: " ++ py_str t;
                 mimeType := "text/plain";
                 description := "Data in table: " ++ py_str t |}
      | None => Raise (Exn ValidationError "1 validation error for Resource")
      end
  end.

(** the triple-quoted statement of [list_resources], line by line *)
Definition catalog_query : string :=
  LF ++ "            SELECT TABLE_NAME " ++ LF
     ++ "            FROM INFORMATION_SCHEMA.TABLES " ++ LF
     ++ "            WHERE TABLE_TYPE = 'BASE TABLE'" ++ LF
     ++ "        ".

(** [list_resources]: the body of its [try], then the handler *)
Definition list_resources_body : M (list Resource) :=
  conn <- get_connection ;;
  cur <- cursor conn ;;
  execute cur catalog_query ;;
  tables <- fetchall cur ;;
  resources <- lift (comprehension resource_of_row tables) ;;
  close_cursor cur ;;
  ret resources.

Definition list_resources : M (list Resource) :=
  catch list_resources_body (fun _ => ret []).

(** [read_resource]: the body of its [try], then the whole function on
    [str(uri)] *)
Definition read_resource_body (table : string) : M string :=
  safe_table <- lift (validate_table_name table) ;;
  conn <- get_connection ;;
  cur <- cursor conn ;;
  execute cur ("SELECT TOP 100 * FROM " ++ safe_table) ;;
  columns <- column_names cur ;;
  rows <- fetchall cur ;;
  close_cursor cur ;;
  ret (render_rowset columns rows).

Definition read_resource (uri_str : string) : M string :=
  if negb (PyStr.startswith "mssql://" uri_str) then
    raise (Exn ValueError ("Invalid URI scheme: " ++ uri_str))
  else
    let parts := PyStr.split "/" (PyStr.drop 8 uri_str) in
    let table := nth 0 parts "" in
    catch (read_resource_body table)
          (fun e => raise (Exn RuntimeError ("Database error: " ++ str_exn e))).

(** [list_tools] *)
Definition list_tools : M (list Tool) :=
  command <- get_command ;;
  ret [ {| tool_name := command;
           tool_description := "Execute an SQL query on the SQL Server" |} ].

(** [call_tool]; [arguments] is the dictionary of the request *)
Definition dict_get (key : string) (d : list (string * string)) : option string :=
  match List.find (fun kv => String.eqb (fst kv) key) d with
  | Some kv => Some (snd kv)
  | None => None
  end.

Definition text_content (t : string) : list TextContent :=
  [ {| content_type := "text"; text := t |} ].

(** the body of the [try] of [call_tool] *)
Definition call_tool_body (query : string) : M (list TextContent) :=
  conn <- get_connection ;;
  cur <- cursor conn ;;
  execute cur query ;;
  if is_select_query query
     && PyStr.contains "INFORMATION_SCHEMA.TABLES" (PyStr.upper query) then
    tables <- fetchall cur ;;
    cells <- lift (comprehension first_cell tables) ;;
    let result := PyString "Tables_found" :: cells in
    close_cursor cur ;;
    t <- lift (join_values LF result) ;;
    ret (text_content t)
  else if is_select_query query then
    columns <- column_names cur ;;
    rows <- fetchall cur ;;
    close_cursor cur ;;
    ret (text_content (render_rowset columns rows))
  else
    commit conn ;;
    affected_rows <- cursor_rowcount cur ;;
    close_cursor cur ;;
    ret (text_content ("Query executed successfully. Rows affected: "
                         ++ PyStr.str_int affected_rows)).

Definition call_tool (name : string) (arguments : list (string * string))
  : M (list TextContent) :=
  command <- get_command ;;
  if negb (String.eqb name command) then
    raise (Exn ValueError ("Unknown tool: " ++ name))
  else
    let query := dict_get "query" arguments in
    if negb (truthy query) then raise (Exn ValueError "Query is required")
    else
      let query := format_opt query in
      catch (call_tool_body query)
            (fun e => ret (text_content ("Error executing query: " ++ str_exn e))).

End Server.

Arguments M World Conn Cursor A : clear implicits.

(** ** The statement classes of the specification *)

Inductive statement_class := ReadOnly | Mutating.

(** The classification the handlers branch on: [is_select_query] read as
    a two-valued class. *)
Definition classify (sql : string) : statement_class :=
  if is_select_query sql then ReadOnly else Mutating.

(** The classification as the specification words it, one pass over the
    characters per step. *)
Module ClassifySpec.

(** Where a left-to-right reader stands with respect to block comments:
    outside, on the star of an opening [/*], inside, or on the slash of a
    closing [*/]. *)
Inductive position := Outside | Opening | Inside | Closing.

(** Removing the block comments [/* ... */]: a comment opens at a [/*]
    that has a [*/] after it and ends with the first such [*/]. *)
Fixpoint remove_block_comments (p : position) (s : string) : string :=
  match s with
  | EmptyString => EmptyString
  | String c r =>
      match p with
      | Outside =>
          if Ascii.eqb c "/" && PyStr.startswith "*" r
             && PyStr.contains "*/" (PyStr.drop 1 r)
          then remove_block_comments Opening r
          else String c (remove_block_comments Outside r)
      | Opening => remove_block_comments Inside r
      | Inside =>
          if Ascii.eqb c "*" && PyStr.startswith "/" r
          then remove_block_comments Closing r
          else remove_block_comments Inside r
      | Closing => remove_block_comments Outside r
      end
  end.

(** Removing from each line everything from the first [--] onward: after
    a [--] nothing is kept until the line ends. *)
Fixpoint remove_line_comments (in_comment : bool) (s : string) : string :=
  match s with
  | EmptyString => EmptyString
  | String c r =>
      if Ascii.eqb c "010" then String c (remove_line_comments false r)
      else if in_comment then remove_line_comments true r
      else if PyStr.startswith "--" s then remove_line_comments true r
      else String c (remove_line_comments false r)
  end.

(** the statement with its comments removed *)
Definition stripped (sql : string) : string :=
  remove_line_comments false (remove_block_comments Outside sql).

(** the characters up to the first whitespace *)
Fixpoint token (s : string) : string :=
  match s with
  | EmptyString => EmptyString
  | String c r =>
      match PyStr.space_len s with
      | O => String c (token r)
      | S _ => EmptyString
      end
  end.

(** The first whitespace-delimited token of the trimmed text; empty when
    the text is all whitespace. *)
Definition first_token (s : string) : string := token (PyStr.lstrip s).

Definition classification (sql : string) : statement_class :=
  if String.eqb (PyStr.upper (first_token (stripped sql))) "SELECT"
  then ReadOnly else Mutating.

End ClassifySpec.

(** ** The identifier syntax of the specification *)
Module IdentifierSpec.

Fixpoint all_chars (p : ascii -> bool) (s : string) : bool :=
  match s with
  | EmptyString => true
  | String c r => p c && all_chars p r
  end.

(** one or more of letters, digits and underscore *)
Definition is_name (s : string) : Prop :=
  s <> "" /\ all_chars TableNameRe.word_char s = true.

(** [name] or [schema.name]: the strings the pattern
    [^[A-Za-z0-9_]+(\.[A-Za-z0-9_]+)?$] matches from their first to
    their last character. *)
Inductive identifier : string -> Prop :=
| Unqualified name_ : is_name name_ -> identifier name_
| Qualified schema name_ :
    is_name schema -> is_name name_ -> identifier (schema ++ "." ++ name_).

(** the escaped form the specification gives for each *)
Inductive escaped : string -> string -> Prop :=
| EscUnqualified name_ :
    is_name name_ -> escaped name_ ("[" ++ name_ ++ "]")
| EscQualified schema name_ :
    is_name schema -> is_name name_ ->
    escaped (schema ++ "." ++ name_) ("[" ++ schema ++ "].[" ++ name_ ++ "]").

(** The characters of an escaped identifier that stand between a [[]
    and the next []], in order. *)
Fixpoint inside_brackets (inside : bool) (s : string) : string :=
  match s with
  | EmptyString => EmptyString
  | String c r =>
      if inside then
        if Ascii.eqb c "]" then inside_brackets false r
        else String c (inside_brackets true r)
      else inside_brackets (Ascii.eqb c "[") r
  end.

End IdentifierSpec.

(** ** A small driver to run the handlers on

    Connections and cursors are numbers.  The engine holds named tables
    and a list of further statements it knows with their result; it
    understands [SELECT TOP 100 * FROM t] on its tables and [SELECT 1].
    A connection listed in [broken] fails every call. *)
Module Toy.

Record result_set := {
  rs_description : option (list string);
  rs_rows : list row;
  rs_rowcount : Z }.

Record engine := {
  tables : list (string * (list string * list row));
  statements : list (string * result_set);
  broken : list nat;
  next_handle : nat;
  current : result_set }.

Definition no_result : result_set :=
  {| rs_description := None; rs_rows := []; rs_rowcount := (-1)%Z |}.

Definition with_current (w : engine) (rs : result_set) : engine :=
  {| tables := tables w; statements := statements w; broken := broken w;
     next_handle := next_handle w; current := rs |}.

Definition lookup A (key : string) (l : list (string * A)) : option A :=
  match List.find (fun kv => String.eqb (fst kv) key) l with
  | Some kv => Some (snd kv)
  | None => None
  end.

Definition is_broken (h : nat) (w : engine) : bool :=
  List.existsb (Nat.eqb h) (broken w).

Definition link_failure A : outcome A :=
  Raise (Exn DatabaseError "Communication link failure").

Definition guarded A (h : nat) (w : engine) (k : outcome A * engine)
  : outcome A * engine :=
  if is_broken h w then (link_failure A, w) else k.

Definition top_prefix : string := "SELECT TOP 100 * FROM ".

(** what the engine answers to a statement *)
Definition answer (sql : string) (w : engine) : outcome result_set :=
  if String.eqb sql "SELECT 1" then
    Ret {| rs_description := Some [""]; rs_rows := [[PyInt 1]];
           rs_rowcount := (-1)%Z |}
  else if PyStr.startswith top_prefix sql then
    match lookup (PyStr.drop (String.length top_prefix) sql) (tables w) with
    | Some (columns, rows) =>
        Ret {| rs_description := Some columns; rs_rows := firstn 100 rows;
               rs_rowcount := (-1)%Z |}
    | None => Raise (Exn DatabaseError "Invalid object name")
    end
  else
    match lookup sql (statements w) with
    | Some rs => Ret rs
    | None => Raise (Exn DatabaseError "Incorrect syntax")
    end.

Definition toy_connect (conn_str : string) (w : engine) : outcome nat * engine :=
  (Ret (next_handle w),
   {| tables := tables w; statements := statements w; broken := broken w;
      next_handle := S (next_handle w); current := current w |}).

Definition toy_execute (cur : nat) (sql : string) (w : engine)
  : outcome unit * engine :=
  guarded cur w
    match answer sql w with
    | Ret rs => (Ret tt, with_current w rs)
    | Raise e => (Raise e, with_current w no_result)
    end.

Definition toy_fetchall (cur : nat) (w : engine) : outcome (list row) * engine :=
  guarded cur w
    match rs_description (current w) with
    | Some _ => (Ret (rs_rows (current w)), w)
    | None => (Raise (Exn DatabaseError "No results.  Previous SQL was not a query."), w)
    end.

Definition driver : Driver engine nat nat := {|
  connect := toy_connect;
  conn_cursor := fun h w => guarded h w (Ret h, w);
  conn_commit := fun h w => guarded h w (Ret tt, w);
  conn_close := fun h w => guarded h w (Ret tt, w);
  cur_execute := toy_execute;
  cur_fetchall := toy_fetchall;
  cur_description := fun _ w => rs_description (current w);
  cur_rowcount := fun _ w => rs_rowcount (current w);
  cur_close := fun h w => guarded h w (Ret tt, w) |}.

(** environment of a SQL-authentication setup *)
Definition env (key : string) : option string :=
  if String.eqb key "MSSQL_DATABASE" then Some "Shop"
  else if String.eqb key "MSSQL_USER" then Some "sa"
  else if String.eqb key "MSSQL_PASSWORD" then Some "secret"
  else None.

Definition users : list string * list row :=
  (["Id"; "Name"],
   [[PyInt 1; PyString "Alice"]; [PyInt 2; PyString "Bob"]]).

(** 150 rows of one column *)
Definition orders : list string * list row :=
  (["OrderId"], List.map (fun n => [PyInt (Z.of_nat n)]) (seq 1 150)).

Definition shop : engine := {|
  tables := [("[Users]", users); ("[Orders]", orders); ("[dbo].[Users]", users)];
  statements :=
    [("SELECT * FROM Users",
      {| rs_description := Some (fst users); rs_rows := snd users;
         rs_rowcount := (-1)%Z |});
     ("DELETE FROM Users WHERE Id=1",
      {| rs_description := None; rs_rows := []; rs_rowcount := 1%Z |});
     (catalog_query,
      {| rs_description := Some ["TABLE_NAME"];
         rs_rows := [[PyString "Users"]; [PyString "Orders"]];
         rs_rowcount := (-1)%Z |});
     ("SELECT TABLE_NAME, TABLE_TYPE FROM INFORMATION_SCHEMA.TABLES",
      {| rs_description := Some ["TABLE_NAME"; "TABLE_TYPE"];
         rs_rows := [[PyString "Users"; PyString "BASE TABLE"];
                     [PyString "Orders"; PyString "BASE TABLE"]];
         rs_rowcount := (-1)%Z |})];
  broken := [];
  next_handle := 1;
  current := no_result |}.

(** the process right after start: no connection yet, nothing asked *)
Definition start (w : engine) : state engine nat nat :=
  {| world := w; environ := env; DBConnection_conn := None; trace := [] |}.

(** A URL library for the small setup: it takes the strings written with
    letters, digits and [_ . - : /] only, and keeps them as they are. *)
Definition url_char (c : ascii) : bool :=
  TableNameRe.word_char c || Ascii.eqb c "." || Ascii.eqb c "-"
  || Ascii.eqb c ":" || Ascii.eqb c "/".

Definition any_url (u : string) : option string :=
  if IdentifierSpec.all_chars url_char u then Some u else None.

End Toy.

(** ** The rest of the source *)

(** The mask that [main] and [test_connection.py] put over the password
    before they show the connection string:
    [re.sub(r'PWD=[^;]+', 'PWD=***', conn_str)] *)
Module PwdMaskRe.

(** the class [[^;]] *)
Definition not_semicolon (c : ascii) : bool := negb (Ascii.eqb c ";").

(** the greedy [[^;]*]: what is left after the longest run *)
Fixpoint skip_not_semicolon (s : string) : string :=
  match s with
  | EmptyString => EmptyString
  | String c r => if not_semicolon c then skip_not_semicolon r else s
  end.

(** the whole pattern tried at the start of [s]: what follows the
    match.  Nothing follows [[^;]+] in the pattern, so the longest run
    is the one taken. *)
Definition match_here (s : string) : option string :=
  if PyStr.startswith "PWD=" s then
    match PyStr.drop 4 s with
    | String c r =>
        if not_semicolon c then Some (skip_not_semicolon r) else None
    | EmptyString => None
    end
  else None.

(** The substitution loop, as for the block comments: a match is
    replaced by [PWD=***] and the scan resumes after it. *)
Fixpoint sub_loop (fuel : nat) (s : string) : string :=
  match fuel with
  | O => s
  | S fuel' =>
      match s with
      | EmptyString => EmptyString
      | String c r =>
          match match_here s with
          | Some rest => "PWD=***" ++ sub_loop fuel' rest
          | None => String c (sub_loop fuel' r)
          end
      end
  end.

Definition re_sub (conn_str : string) : string :=
  sub_loop (S (String.length conn_str)) conn_str.

End PwdMaskRe.

(** [safe_conn_str] of [main] and of [test_connection.py] *)
Definition safe_conn_str (conn_str : string) : string :=
  PwdMaskRe.re_sub conn_str.

Section Environment.

Context {World Conn Cursor : Type}.

(** the process after the environment variable [key] was set, or was
    removed *)
Definition setenv (key value : string) (st : state World Conn Cursor)
  : state World Conn Cursor :=
  {| world := world st;
     environ := fun k => if String.eqb k key then Some value else environ st k;
     DBConnection_conn := DBConnection_conn st; trace := trace st |}.

Definition unsetenv (key : string) (st : state World Conn Cursor)
  : state World Conn Cursor :=
  {| world := world st;
     environ := fun k => if String.eqb k key then None else environ st k;
     DBConnection_conn := DBConnection_conn st; trace := trace st |}.

(** what [os.getenv(key, default)] gives *)
Definition env_or (key default : string) (st : state World Conn Cursor) : string :=
  match environ st key with Some s => s | None => default end.

(** whether a flag variable says [true], in any letter case *)
Definition flag_on (key : string) (st : state World Conn Cursor) : bool :=
  String.eqb (PyStr.lower (env_or key "false" st)) "true".

End Environment.

(** what may stand between the brackets of a quoted name *)
Definition body_char (c : ascii) : bool :=
  TableNameRe.word_char c || Ascii.eqb c "010".

(** a text that cannot complete a [PWD=] begun before it *)
Definition no_overlap (g : string) : bool :=
  match g with
  | EmptyString => true
  | String x _ =>
      negb (Ascii.eqb x "W") && negb (Ascii.eqb x "D") && negb (Ascii.eqb x "=")
  end.

(** ** Notions the properties are stated with *)

(** a text at whose start a run of word characters must end *)
Definition stops (t : string) : Prop :=
  match t with
  | EmptyString => True
  | String c _ => TableNameRe.word_char c = false
  end.

(** the bytes of UTF-8: the ones beyond ASCII, among them the ones that
    continue a character and the ones that begin one *)
Definition high (c : ascii) : bool := Nat.leb 128 (nat_of_ascii c).
Definition is_cont (c : ascii) : bool := PyStr.in_range 128 191 c.
Definition lead (c : ascii) : bool := Nat.leb 192 (nat_of_ascii c).

(** the UTF-8 form of a character beyond U+007F *)
Definition wide_form (e : string) : bool :=
  match e with
  | String c r => lead c && IdentifierSpec.all_chars is_cont r
  | EmptyString => false
  end.

(** the first word [split_ws_from] returns, given the run collected so
    far *)
Definition first_of (word : string) (skip : nat) (s : string) : string :=
  match word with
  | EmptyString => ClassifySpec.token (PyStr.lstrip_from skip s)
  | _ => PyStr.rev_append word (ClassifySpec.token s)
  end.

Section Notions.

Context {World Conn Cursor : Type}.
Variable drv : Driver World Conn Cursor.

(** A handle is live in a trace when a connect returned it and no close
    was asked of it since. *)
Inductive live_in : list (event Conn Cursor) -> Conn -> Prop :=
| live_opened conn_str h tr : live_in (EvConnect conn_str (Some h) :: tr) h
| live_kept ev h tr :
    live_in tr h -> ev <> EvCloseConn h -> live_in (ev :: tr) h.

(** At most one live handle, the stored one. *)
Definition one_live (st : state World Conn Cursor) : Prop :=
  forall h, live_in (trace st) h -> DBConnection_conn st = Some h.


(** the driver calls of a successful liveness check on [h], latest
    first *)
Definition probe_events (h : Conn) (cur : Cursor) : list (event Conn Cursor) :=
  [EvCloseCursor cur; EvFetchall cur; EvExecute cur "SELECT 1"; EvCursor h].

(** events that neither open nor close a connection *)
Definition quiet_event (ev : event Conn Cursor) : Prop :=
  match ev with
  | EvConnect _ _ | EvCloseConn _ => False
  | _ => True
  end.

(** A computation is quiet when it leaves the environment and the stored
    handle alone and only adds quiet events to the trace. *)
Definition quiet A (c : M World Conn Cursor A) : Prop :=
  forall st r st1,
    c st = (r, st1) ->
    environ st1 = environ st
    /\ DBConnection_conn st1 = DBConnection_conn st
    /\ exists new, trace st1 = (new ++ trace st)%list /\ Forall quiet_event new.

(** the state after a driver call that left the engine in [w] *)
Definition after_call (w : World) (ev : event Conn Cursor)
           (st : state World Conn Cursor) : state World Conn Cursor :=
  {| world := w; environ := environ st;
     DBConnection_conn := DBConnection_conn st; trace := ev :: trace st |}.

(** the state after [cls._conn = h] *)
Definition with_conn (h : Conn) (st : state World Conn Cursor)
  : state World Conn Cursor :=
  {| world := world st; environ := environ st;
     DBConnection_conn := Some h; trace := trace st |}.

(** opening a connection and storing it: [cls._conn = pyodbc.connect(conn_str)] *)
Definition open_and_store (conn_str : string) (st : state World Conn Cursor)
  : outcome (option Conn) * state World Conn Cursor :=
  match pyodbc_connect drv conn_str st with
  | (Ret h, st1) => (Ret (Some h), with_conn h st1)
  | (Raise e, st1) => (Raise e, st1)
  end.

(** a computation that keeps the one-live-handle invariant *)
Definition keeps_one_live A (c : M World Conn Cursor A) : Prop :=
  forall st, one_live st -> one_live (snd (c st)).

(** the value [call_tool] returns for a caught exception *)
Definition error_text (e : exn) : list TextContent :=
  text_content ("Error executing query: " ++ str_exn e).

End Notions.

(** A read-only statement that runs without error always comes back as
    the row set the engine reported: header line of the column names,
    one line per fetched row. *)
Definition select_gives_rowset : Prop :=
  forall (World Conn Cursor : Type) (drv : Driver World Conn Cursor)
         name arguments query st conn st1 cur st2 st3 columns rows st4 st5,
    fst (get_command st) = Ret name ->
    dict_get "query" arguments = Some query ->
    classify query = ReadOnly ->
    get_connection drv st = (Ret conn, st1) ->
    cursor drv conn st1 = (Ret cur, st2) ->
    execute drv cur query st2 = (Ret tt, st3) ->
    cur_description drv cur (world st3) = Some columns ->
    fetchall drv cur st3 = (Ret rows, st4) ->
    close_cursor drv cur st4 = (Ret tt, st5) ->
    fst (call_tool drv name arguments st)
    = Ret (text_content
             (PyStr.join LF
                (PyStr.join "," columns
                 :: List.map (fun r => PyStr.join "," (List.map py_str r)) rows))).

(** ** What a computation adds to the trace *)
Section Ledger.

Context {World Conn Cursor : Type}.

(** events that are not a commit *)
Definition no_commit (ev : event Conn Cursor) : Prop :=
  match ev with
  | EvCommit _ => False
  | _ => True
  end.

(** A computation adds only events of one kind when, from every state,
    the trace it leaves is the trace it found with such events put in
    front. *)
Definition adds_only (P : event Conn Cursor -> Prop) A
           (c : M World Conn Cursor A) : Prop :=
  forall st, exists new,
    trace (snd (c st)) = (new ++ trace st)%list /\ Forall P new.

End Ledger.

(** * Properties *)

Unset Implicit Arguments.

(** ** Strings *)
Module StrFacts.

Lemma append_nil_r (s : string) : s ++ "" = s.
Proof. induction s as [|c r IH]; simpl; [reflexivity | now rewrite IH]. Qed.

Lemma append_assoc (a b c : string) : (a ++ b) ++ c = a ++ b ++ c.
Proof. induction a as [|x a IH]; simpl; [reflexivity | now rewrite IH]. Qed.

Lemma eqb_sym (a b : ascii) : Ascii.eqb a b = Ascii.eqb b a.
Proof.
  destruct (Ascii.eqb_spec a b) as [->|N].
  - symmetry. apply Ascii.eqb_refl.
  - symmetry. apply Ascii.eqb_neq. congruence.
Qed.

Lemma join_cons_char sep c p ps :
  PyStr.join sep (String c p :: ps) = String c (PyStr.join sep (p :: ps)).
Proof. destruct ps; reflexivity. Qed.

Lemma join_cons2 sep p q qs :
  PyStr.join sep (p :: q :: qs) = p ++ sep ++ PyStr.join sep (q :: qs).
Proof. reflexivity. Qed.

Lemma split_nonempty sep s : PyStr.split sep s <> [].
Proof.
  destruct s as [|c r]; simpl; [discriminate|].
  destruct (Ascii.eqb c sep); [discriminate|].
  destruct (PyStr.split sep r); discriminate.
Qed.

Lemma split_cons sep c r :
  Ascii.eqb c sep = false ->
  exists l ls, PyStr.split sep r = l :: ls
               /\ PyStr.split sep (String c r) = String c l :: ls.
Proof.
  intros E. simpl. rewrite E.
  destruct (PyStr.split sep r) as [|l ls] eqn:S.
  - now destruct (split_nonempty sep r).
  - now exists l, ls.
Qed.

(** a string without the separator is its own single piece *)
Lemma split_none sep s :
  IdentifierSpec.all_chars (fun c => negb (Ascii.eqb c sep)) s = true ->
  PyStr.split sep s = [s].
Proof.
  induction s as [|c r IH]; simpl; [reflexivity|].
  intros H. apply andb_true_iff in H as [Hc Hr].
  apply negb_true_iff in Hc. rewrite Hc, (IH Hr). reflexivity.
Qed.

Lemma split_app sep a b :
  IdentifierSpec.all_chars (fun c => negb (Ascii.eqb c sep)) a = true ->
  PyStr.split sep (a ++ String sep b) = a :: PyStr.split sep b.
Proof.
  induction a as [|c r IH]; simpl.
  - intros _. now rewrite Ascii.eqb_refl.
  - intros H. apply andb_true_iff in H as [Hc Hr].
    apply negb_true_iff in Hc. rewrite Hc, (IH Hr). reflexivity.
Qed.

Lemma all_chars_app p a b :
  IdentifierSpec.all_chars p (a ++ b)
  = IdentifierSpec.all_chars p a && IdentifierSpec.all_chars p b.
Proof.
  induction a as [|c r IH]; simpl; [reflexivity|].
  now rewrite IH, andb_assoc.
Qed.

Lemma all_chars_impl (p q : ascii -> bool) s :
  (forall c, p c = true -> q c = true) ->
  IdentifierSpec.all_chars p s = true -> IdentifierSpec.all_chars q s = true.
Proof.
  intros I. induction s as [|c r IH]; simpl; [reflexivity|].
  intros H. apply andb_true_iff in H as [Hc Hr].
  now rewrite (I _ Hc), (IH Hr).
Qed.

Lemma length_app (a b : string) :
  String.length (a ++ b) = String.length a + String.length b.
Proof. induction a as [|c a IH]; simpl; [reflexivity | now rewrite IH]. Qed.

Lemma app_inv_head (a b c : string) : a ++ b = a ++ c -> b = c.
Proof. induction a as [|x a IH]; simpl; [auto | intros [= H]; auto]. Qed.

End StrFacts.

(** ** Matching *)
Module PyReFacts.
Import StrFacts.

Lemma seq_intro r1 r2 before m1 m2 m after :
  m = m1 ++ m2 ->
  PyRe.matches r1 before m1 (m2 ++ after) ->
  PyRe.matches r2 (before ++ m1) m2 after ->
  PyRe.matches (PyRe.Seq r1 r2) before m after.
Proof. intros ->. apply PyRe.m_seq. Qed.

Lemma cls_inv p before m after :
  PyRe.matches (PyRe.Cls p) before m after ->
  exists c, m = String c "" /\ p c = true.
Proof. inversion 1; subst; eauto. Qed.

Lemma chr_inv c before m after :
  PyRe.matches (PyRe.Chr c) before m after -> m = String c "".
Proof. inversion 1; subst; eauto. Qed.

Lemma seq_inv r1 r2 before m after :
  PyRe.matches (PyRe.Seq r1 r2) before m after ->
  exists m1 m2, m = m1 ++ m2
                /\ PyRe.matches r1 before m1 (m2 ++ after)
                /\ PyRe.matches r2 (before ++ m1) m2 after.
Proof. inversion 1; subst; eauto. Qed.

Lemma opt_inv r before m after :
  PyRe.matches (PyRe.Opt r) before m after ->
  m = "" \/ PyRe.matches r before m after.
Proof. inversion 1; subst; eauto. Qed.

Lemma bol_inv before m after :
  PyRe.matches PyRe.Bol before m after -> m = "" /\ before = "".
Proof. inversion 1; subst; eauto. Qed.

Lemma eol_inv before m after :
  PyRe.matches PyRe.Eol before m after ->
  m = "" /\ (after = "" \/ after = LF).
Proof. inversion 1; subst; eauto. Qed.

Lemma any_inv before m after :
  PyRe.matches PyRe.Any before m after -> exists c, m = String c "".
Proof. inversion 1; subst; eauto. Qed.

Lemma star_any_intro b before after :
  PyRe.matches (PyRe.LazyStar PyRe.Any) before b after.
Proof.
  revert before. induction b as [|c b IH]; intros before.
  - apply PyRe.m_star_none.
  - apply (@PyRe.m_star_more _ before (String c "") b after);
      [apply PyRe.m_any | apply IH].
Qed.

Lemma block_comment_intro b before after :
  PyRe.matches PyRe.block_comment_pattern before ("/*" ++ b ++ "*/") after.
Proof.
  unfold PyRe.block_comment_pattern.
  apply (seq_intro _ _ _ "/" ("*" ++ b ++ "*/")); [reflexivity | apply PyRe.m_chr |].
  apply (seq_intro _ _ _ "*" (b ++ "*/")); [reflexivity | apply PyRe.m_chr |].
  apply (seq_intro _ _ _ b "*/"); [reflexivity | apply star_any_intro |].
  apply (seq_intro _ _ _ "*" "/"); [reflexivity | apply PyRe.m_chr | apply PyRe.m_chr].
Qed.

Lemma block_comment_inv before m after :
  PyRe.matches PyRe.block_comment_pattern before m after ->
  exists b, m = "/*" ++ b ++ "*/".
Proof.
  unfold PyRe.block_comment_pattern. intros M.
  apply seq_inv in M as (m1 & m2 & -> & H1 & M). apply chr_inv in H1 as ->.
  apply seq_inv in M as (m1 & m3 & -> & H1 & M). apply chr_inv in H1 as ->.
  apply seq_inv in M as (b & m4 & -> & _ & M).
  apply seq_inv in M as (m1 & m5 & -> & H1 & M). apply chr_inv in H1 as ->.
  apply chr_inv in M as ->. now exists b.
Qed.

End PyReFacts.

(** ** The identifier sanitizer *)
Module SanitizerFacts.
Import TableNameRe IdentifierSpec StrFacts PyReFacts.

Lemma word_char_not (c x : ascii) :
  word_char x = false -> word_char c = true -> Ascii.eqb c x = false.
Proof.
  intros Hx Hc. destruct (Ascii.eqb_spec c x) as [->|]; congruence.
Qed.

Lemma word_char_dot c : word_char c = true -> Ascii.eqb c "." = false.
Proof. now apply word_char_not. Qed.

Lemma word_char_lf c : word_char c = true -> Ascii.eqb c "010" = false.
Proof. now apply word_char_not. Qed.

(** [skip_word] splits off the longest run of word characters *)
Lemma skip_word_run s :
  exists w, s = w ++ skip_word s /\ all_chars word_char w = true.
Proof.
  induction s as [|c r [w [E W]]]; simpl.
  - now exists "".
  - destruct (word_char c) eqn:C.
    + exists (String c w). simpl. now rewrite C, W, <- E.
    + now exists "".
Qed.

Lemma skip_word_app w t :
  all_chars word_char w = true -> stops t -> skip_word (w ++ t) = t.
Proof.
  induction w as [|c r IH]; simpl.
  - intros _ S. destruct t as [|x t]; simpl in *; [reflexivity | now rewrite S].
  - intros H S. apply andb_true_iff in H as [Hc Hr]. now rewrite Hc, IH.
Qed.

Lemma word_plus_app n t :
  is_name n -> stops t -> word_plus (n ++ t) = Some t.
Proof.
  intros [NE W] S. destruct n as [|c r]; [congruence|].
  simpl in *. apply andb_true_iff in W as [Hc Hr].
  now rewrite Hc, skip_word_app.
Qed.

Lemma word_plus_inv s t :
  word_plus s = Some t -> exists n, is_name n /\ s = n ++ t.
Proof.
  destruct s as [|c r]; simpl; [discriminate|].
  destruct (word_char c) eqn:C; [|discriminate].
  intros [= <-]. destruct (skip_word_run r) as [w [E W]].
  exists (String c w). split.
  - split; [discriminate|]. simpl. now rewrite C, W.
  - simpl. now rewrite <- E.
Qed.

Lemma at_dollar_inv t : at_dollar t = true -> t = "" \/ t = LF.
Proof.
  destruct t as [|c [|d t]]; simpl; try discriminate; auto.
  intros H. apply Ascii.eqb_eq in H. subst. now right.
Qed.

(** What [re.match] accepts: an identifier, or an identifier followed by
    one newline. *)
Lemma re_match_inv s :
  re_match s = true ->
  exists id, identifier id /\ (s = id \/ s = id ++ LF).
Proof.
  unfold re_match. destruct (word_plus s) as [r|] eqn:W1; [|discriminate].
  apply word_plus_inv in W1 as [n1 [N1 ->]].
  unfold opt_group_then_dollar. destruct r as [|c r].
  - intros _. exists n1. rewrite append_nil_r. split; [now constructor | now left].
  - intros H. apply orb_true_iff in H as [H|H].
    + destruct (Ascii.eqb_spec c ".") as [->|]; [|discriminate].
      destruct (word_plus r) as [r'|] eqn:W2; [|discriminate].
      apply word_plus_inv in W2 as [n2 [N2 ->]].
      exists (n1 ++ "." ++ n2). split; [now constructor|].
      apply at_dollar_inv in H as [->| ->].
      * left. now rewrite append_nil_r.
      * right. now rewrite append_assoc.
    + apply at_dollar_inv in H as [H|H]; [discriminate|].
      exists n1. split; [now constructor | right; now rewrite H].
Qed.

Lemma re_match_name n t :
  is_name n -> t = "" \/ t = LF -> re_match (n ++ t) = true.
Proof.
  intros N [->| ->]; unfold re_match.
  - now rewrite word_plus_app.
  - rewrite word_plus_app; [reflexivity | assumption | reflexivity].
Qed.

Lemma re_match_qualified a b t :
  is_name a -> is_name b -> t = "" \/ t = LF ->
  re_match (a ++ "." ++ b ++ t) = true.
Proof.
  intros A B T. unfold re_match.
  rewrite word_plus_app; [|assumption|reflexivity].
  simpl. rewrite word_plus_app; [|assumption|now destruct T as [->| ->]].
  now destruct T as [->| ->].
Qed.

(** *** The scanner against the meaning of the pattern *)

Lemma plus_word_intro n before after :
  is_name n -> PyRe.matches (PyRe.Plus (PyRe.Cls word_char)) before n after.
Proof.
  intros [NE W]. revert before. induction n as [|c r IH]; [congruence|].
  intros before. simpl in W. apply andb_true_iff in W as [Hc Hr].
  destruct r as [|d r].
  - apply PyRe.m_plus_one. now apply PyRe.m_cls.
  - apply (@PyRe.m_plus_more _ before (String c "") (String d r) after).
    + now apply PyRe.m_cls.
    + apply IH; [discriminate | exact Hr].
Qed.

Lemma plus_word_inv r before m after :
  PyRe.matches r before m after ->
  r = PyRe.Plus (PyRe.Cls word_char) -> is_name m.
Proof.
  induction 1 as [ | | | | | | r before m after H _
                   | r before m1 m2 after H1 _ H2 IH2 | | | | ];
    try discriminate; intros [= ->].
  - apply cls_inv in H as (c & -> & Hc).
    split; [discriminate|]. simpl. now rewrite Hc.
  - apply cls_inv in H1 as (c & -> & Hc). destruct (IH2 eq_refl) as [_ W].
    split; [discriminate|]. simpl. now rewrite Hc, W.
Qed.

(** [TableNameRe.re_match] decides whether the pattern matches at the
    start of the string. *)
Lemma re_match_adequate s :
  re_match s = true <-> PyRe.match_at_start PyRe.table_name_pattern s.
Proof.
  split.
  - intros R. apply re_match_inv in R as [id [I E]].
    assert (A : exists after, (after = "" \/ after = LF) /\ s = id ++ after).
    { destruct E as [->| ->]; [exists "" | exists LF]; split; auto.
      now rewrite append_nil_r. }
    destruct A as (after & A & ->). exists id, after. split; [reflexivity|].
    unfold PyRe.table_name_pattern.
    apply (seq_intro _ _ "" "" id); [reflexivity | apply PyRe.m_bol |].
    destruct I as [n N | a b Na Nb].
    + apply (seq_intro _ _ _ n ""); [now rewrite append_nil_r| |].
      * now apply plus_word_intro.
      * apply (seq_intro _ _ _ "" ""); [reflexivity | apply PyRe.m_opt_none |].
        now apply PyRe.m_eol.
    + apply (seq_intro _ _ _ a ("." ++ b)); [reflexivity| |].
      * now apply plus_word_intro.
      * apply (seq_intro _ _ _ ("." ++ b) "");
          [now rewrite append_nil_r | | now apply PyRe.m_eol].
        apply PyRe.m_opt_some.
        apply (seq_intro _ _ _ "." b); [reflexivity | apply PyRe.m_chr |].
        now apply plus_word_intro.
  - intros (m & after & -> & M). unfold PyRe.table_name_pattern in M.
    apply seq_inv in M as (m0 & m1 & -> & Hb & M).
    apply bol_inv in Hb as [-> _].
    apply seq_inv in M as (n1 & m2 & -> & Hn1 & M).
    apply plus_word_inv in Hn1; [|reflexivity].
    apply seq_inv in M as (o & e & -> & Ho & He).
    apply eol_inv in He as [-> A]. simpl. rewrite append_nil_r.
    apply opt_inv in Ho as [->|Hz].
    + rewrite append_nil_r. now apply re_match_name.
    + apply seq_inv in Hz as (d & n2 & -> & Hd & Hn2).
      apply chr_inv in Hd as ->.
      apply plus_word_inv in Hn2; [|reflexivity].
      rewrite !append_assoc. now apply re_match_qualified.
Qed.

Lemma name_no_dot n :
  is_name n -> all_chars (fun c => negb (Ascii.eqb c ".")) n = true.
Proof.
  intros [_ W]. apply all_chars_impl with (2 := W). intros c C.
  now rewrite word_char_dot.
Qed.

(** The accepting half of the sanitizer: an identifier is escaped as the
    specification says. *)
Lemma validate_table_name_escapes id out :
  escaped id out -> validate_table_name id = Ret out.
Proof.
  intros [n N | a b A B]; unfold validate_table_name.
  - assert (R : re_match n = true).
    { rewrite <- (append_nil_r n). apply re_match_name; auto. }
    rewrite R. cbv zeta. simpl negb. cbv iota.
    rewrite split_none by now apply name_no_dot.
    reflexivity.
  - assert (R : re_match (a ++ "." ++ b) = true).
    { rewrite <- (append_nil_r b). apply re_match_qualified; auto. }
    assert (S : PyStr.split "." (a ++ "." ++ b) = [a; b]).
    { change (a ++ "." ++ b) with (a ++ String "." b).
      rewrite split_app by now apply name_no_dot.
      now rewrite split_none by now apply name_no_dot. }
    rewrite R. cbv zeta. rewrite S. reflexivity.
Qed.


Lemma identifier_word_or_dot id :
  identifier id ->
  all_chars (fun c => word_char c || Ascii.eqb c ".") id = true.
Proof.
  intros [n [_ W] | a b [_ A] [_ B]].
  - apply all_chars_impl with (2 := W). intros c ->. reflexivity.
  - rewrite all_chars_app. simpl.
    rewrite (all_chars_impl word_char (fun c => word_char c || Ascii.eqb c ".") a)
      by (assumption || (intros c ->; reflexivity)).
    rewrite (all_chars_impl word_char (fun c => word_char c || Ascii.eqb c ".") b)
      by (assumption || (intros c ->; reflexivity)).
    reflexivity.
Qed.


End SanitizerFacts.

Module SanitizerCases.
Import TableNameRe IdentifierSpec StrFacts SanitizerFacts.

(** Everything the sanitizer accepts, and what it returns: an identifier,
    possibly followed by one newline, which then ends up inside the last
    pair of brackets. *)
Lemma validate_table_name_inv s out :
  validate_table_name s = Ret out ->
  exists t, (t = "" \/ t = LF) /\
    ((exists n, is_name n /\ s = n ++ t /\ out = "[" ++ n ++ t ++ "]")
     \/ (exists a b, is_name a /\ is_name b /\ s = a ++ "." ++ b ++ t
                     /\ out = "[" ++ a ++ "].[" ++ b ++ t ++ "]")).
Proof.
  unfold validate_table_name. intros H.
  destruct (re_match s) eqn:R; [|discriminate].
  simpl negb in H. cbv iota zeta in H.
  apply re_match_inv in R as [id [I E]].
  assert (T : exists t, (t = "" \/ t = LF) /\ s = id ++ t).
  { destruct E as [->| ->]; [exists "" | exists LF]; split; auto.
    now rewrite append_nil_r. }
  clear E. destruct T as [t [T ->]]. exists t. split; [assumption|].
  assert (D : all_chars (fun c => negb (Ascii.eqb c ".")) t = true)
    by now destruct T as [->| ->].
  destruct I as [n N | a b A B].
  - rewrite split_none in H
      by (rewrite all_chars_app, (name_no_dot n N), D; reflexivity).
    simpl in H. injection H as <-. left. exists n.
    split; [exact N | split; [reflexivity | now rewrite append_assoc]].
  - rewrite append_assoc in H. simpl (("." ++ b) ++ t) in H.
    rewrite split_app in H by now apply name_no_dot.
    rewrite split_none in H
      by (rewrite all_chars_app, (name_no_dot b B), D; reflexivity).
    simpl in H. injection H as <-. right. exists a, b.
    split; [exact A | split; [exact B |]].
    split; rewrite ?append_assoc; reflexivity.
Qed.

(** C1, checked at the input [users] followed by a newline.  C1 wants
    every string outside the pattern
    [^[A-Za-z0-9_]+(\.[A-Za-z0-9_]+)?$] refused.  This string is outside
    it (it is no identifier), and [validate_table_name] returns the
    bracketed string, newline included: the [$] of [re.match] also
    matches before a final newline. *)
Theorem validate_table_name_trailing_newline :
  ~ identifier ("users" ++ LF)
  /\ validate_table_name ("users" ++ LF) = Ret ("[users" ++ LF ++ "]")
  /\ validate_table_name ("dbo.users" ++ LF) = Ret ("[dbo].[users" ++ LF ++ "]").
Proof.
  split; [|split; reflexivity].
  intros I. apply identifier_word_or_dot in I. discriminate I.
Qed.

(** C10, checked at the same input.  C10 wants only characters of
    [[A-Za-z0-9_]] between the brackets of an accepted identifier, and in
    particular no whitespace.  For [users] followed by a newline the
    sanitizer succeeds and the newline, a whitespace character outside
    the class, stands between the brackets. *)
Theorem validate_table_name_newline_inside_brackets :
  exists out,
    validate_table_name ("users" ++ LF) = Ret out
    /\ inside_brackets false out = "users" ++ LF
    /\ all_chars word_char (inside_brackets false out) = false
    /\ PyStr.isspace "010" = true.
Proof. eexists. repeat split. Qed.

End SanitizerCases.

(** ** The statement classifier *)
Module ClassifierFacts.
Import StrFacts.

(** *** Block comments *)

Lemma startswith1 (c : ascii) (s : string) :
  PyStr.startswith (String c "") s
  = match s with String x _ => Ascii.eqb c x | EmptyString => false end.
Proof. destruct s; simpl; [reflexivity | apply andb_true_r]. Qed.

Lemma startswith_cons a p c r :
  PyStr.startswith (String a p) (String c r)
  = Ascii.eqb c a && PyStr.startswith p r.
Proof. simpl. now rewrite (eqb_sym a c). Qed.

(** a [*/] somewhere is what lets the lazy star succeed *)
Lemma contains_close s :
  PyStr.contains "*/" s
  = match BlockCommentRe.lazy_any_then_close s with
    | Some _ => true
    | None => false
    end.
Proof.
  unfold PyStr.contains. induction s as [|c r IH]; [reflexivity|].
  cbn [PyStr.find BlockCommentRe.lazy_any_then_close].
  rewrite startswith_cons.
  destruct (Ascii.eqb c "*" && PyStr.startswith "/" r); [reflexivity|].
  destruct (PyStr.find "*/" r); simpl in *; exact IH.
Qed.

Lemma close_shorter s rest :
  BlockCommentRe.lazy_any_then_close s = Some rest ->
  String.length rest < String.length s.
Proof.
  revert rest.
  induction s as [|c r IH]; cbn [BlockCommentRe.lazy_any_then_close];
    [discriminate|].
  intros rest. destruct (Ascii.eqb c "*" && PyStr.startswith "/" r).
  - intros [= <-]. destruct r; simpl; lia.
  - intros H. specialize (IH _ H). simpl. lia.
Qed.

(** inside a comment the reader skips to just after the first [*/] *)
Lemma inside_skips s rest :
  BlockCommentRe.lazy_any_then_close s = Some rest ->
  ClassifySpec.remove_block_comments ClassifySpec.Inside s
  = ClassifySpec.remove_block_comments ClassifySpec.Outside rest.
Proof.
  revert rest.
  induction s as [|c r IH];
    cbn [BlockCommentRe.lazy_any_then_close ClassifySpec.remove_block_comments];
    [discriminate|].
  intros rest. destruct (Ascii.eqb c "*" && PyStr.startswith "/" r) eqn:E.
  - intros [= <-]. apply andb_true_iff in E as [_ E].
    destruct r; [discriminate|]. reflexivity.
  - apply IH.
Qed.

Lemma match_here_cons c r :
  BlockCommentRe.match_here (String c r)
  = if Ascii.eqb c "/" && PyStr.startswith "*" r
    then BlockCommentRe.lazy_any_then_close (PyStr.drop 1 r)
    else None.
Proof.
  unfold BlockCommentRe.match_here. now rewrite startswith_cons.
Qed.

(** the lazy star stops at the first [*/] *)
Lemma lazy_first t rest :
  BlockCommentRe.lazy_any_then_close t = Some rest <->
  exists b, t = b ++ "*/" ++ rest
            /\ forall b' rest', t = b' ++ "*/" ++ rest' ->
                                String.length b <= String.length b'.
Proof.
  split.
  - revert rest.
    induction t as [|c r IH]; cbn [BlockCommentRe.lazy_any_then_close];
      [discriminate|].
    intros rest. destruct (Ascii.eqb c "*" && PyStr.startswith "/" r) eqn:E.
    + intros [= <-]. apply andb_true_iff in E as [Ec Er].
      apply Ascii.eqb_eq in Ec. subst c. destruct r as [|d r]; [discriminate|].
      rewrite startswith1 in Er. apply Ascii.eqb_eq in Er. subst d.
      exists "". split; [reflexivity|]. intros; simpl; lia.
    + intros H. destruct (IH _ H) as (b & -> & Min).
      exists (String c b). split; [reflexivity|].
      intros [|c' b'] rest' Eq.
      * simpl in Eq, E. injection Eq as -> Eq. rewrite Eq in E. discriminate E.
      * simpl in Eq. injection Eq as _ Eq. specialize (Min _ _ Eq). simpl. lia.
  - intros (b & -> & Min). induction b as [|c b IH].
    + reflexivity.
    + change (String c b ++ "*/" ++ rest) with (String c (b ++ "*/" ++ rest)).
      cbn [BlockCommentRe.lazy_any_then_close].
      destruct (Ascii.eqb c "*" && PyStr.startswith "/" (b ++ "*/" ++ rest)) eqn:E.
      * apply andb_true_iff in E as [Ec Er]. apply Ascii.eqb_eq in Ec. subst c.
        destruct (b ++ "*/" ++ rest) as [|d r] eqn:B; [discriminate|].
        rewrite startswith1 in Er. apply Ascii.eqb_eq in Er. subst d.
        specialize (Min "" r). simpl in Min, B. rewrite B in Min.
        specialize (Min eq_refl). lia.
      * apply IH. intros b' rest' Eq.
        specialize (Min (String c b') rest'). simpl in Min, Eq.
        rewrite Eq in Min. specialize (Min eq_refl). lia.
Qed.

Lemma startswith_drop p s :
  PyStr.startswith p s = true -> s = p ++ PyStr.drop (String.length p) s.
Proof.
  revert s. induction p as [|a p IH]; intros [|c s]; simpl; try discriminate;
    [reflexivity | reflexivity |].
  intros H. apply andb_true_iff in H as [Hc Hs].
  apply Ascii.eqb_eq in Hc. subst. now rewrite <- (IH _ Hs).
Qed.

(** [BlockCommentRe.match_here] finds what the pattern takes at a
    position, the shortest match, and returns what follows it. *)
Lemma match_here_adequate before s rest :
  BlockCommentRe.match_here s = Some rest <->
  exists m, PyRe.lazy_match PyRe.block_comment_pattern before s m rest.
Proof.
  unfold BlockCommentRe.match_here, PyRe.lazy_match. split.
  - destruct (PyStr.startswith "/*" s) eqn:S; [|discriminate].
    apply startswith_drop in S. simpl String.length in S. intros L.
    apply lazy_first in L as (b & Eb & Min). rewrite Eb in S, Min.
    exists ("/*" ++ b ++ "*/"). split; [|split].
    + rewrite S. simpl. now rewrite append_assoc.
    + apply PyReFacts.block_comment_intro.
    + intros m' after' Eq M. apply PyReFacts.block_comment_inv in M as [b' ->].
      rewrite S in Eq. simpl in Eq. injection Eq as Eq.
      rewrite append_assoc in Eq. specialize (Min _ _ Eq).
      simpl. rewrite !length_app. simpl. lia.
  - intros (m & -> & M & Min).
    pose proof M as M'. apply PyReFacts.block_comment_inv in M' as [b ->].
    simpl. rewrite append_assoc. apply lazy_first. exists b.
    split; [reflexivity|]. intros b' rest' Eq.
    assert (X : ("/*" ++ b ++ "*/") ++ rest = ("/*" ++ b' ++ "*/") ++ rest').
    { simpl. rewrite !append_assoc. now rewrite Eq. }
    specialize (Min _ _ X (PyReFacts.block_comment_intro b' before rest')).
    simpl in Min. rewrite !length_app in Min. simpl in Min. lia.
Qed.

(** with enough fuel the substitution loop is the one-pass removal *)
Lemma sub_loop_outside fuel s :
  String.length s < fuel ->
  BlockCommentRe.sub_loop fuel s
  = ClassifySpec.remove_block_comments ClassifySpec.Outside s.
Proof.
  revert s. induction fuel as [|fuel IH]; intros s L; [lia|].
  destruct s as [|c r]; [reflexivity|].
  cbn [BlockCommentRe.sub_loop]. rewrite match_here_cons.
  cbn [ClassifySpec.remove_block_comments]. rewrite contains_close.
  destruct (Ascii.eqb c "/" && PyStr.startswith "*" r) eqn:E; cbn [andb].
  - destruct (BlockCommentRe.lazy_any_then_close (PyStr.drop 1 r))
      as [rest|] eqn:C.
    + apply andb_true_iff in E as [_ E].
      destruct r as [|x r1]; [discriminate|]. simpl PyStr.drop in C.
      cbn [ClassifySpec.remove_block_comments].
      rewrite (inside_skips _ _ C). apply IH.
      apply close_shorter in C. simpl in L. lia.
    + rewrite IH by (simpl in L; lia). reflexivity.
  - rewrite IH by (simpl in L; lia). reflexivity.
Qed.

Lemma re_sub_spec query :
  BlockCommentRe.re_sub query
  = ClassifySpec.remove_block_comments ClassifySpec.Outside query.
Proof. apply sub_loop_outside. lia. Qed.

(** the fuel is never used up: more of it changes nothing *)
Lemma sub_loop_fuel fuel fuel' s :
  String.length s < fuel -> String.length s < fuel' ->
  BlockCommentRe.sub_loop fuel s = BlockCommentRe.sub_loop fuel' s.
Proof. intros A B. now rewrite !sub_loop_outside. Qed.

(** *** Line comments *)

Notation cut_lines l := (PyStr.join LF (List.map strip_line_comment l)).

Lemma strip_line_comment_cons c l :
  strip_line_comment (String c l)
  = if PyStr.startswith "--" (String c l) then ""
    else String c (strip_line_comment l).
Proof.
  unfold strip_line_comment. cbn [PyStr.find].
  destruct (PyStr.startswith "--" (String c l)); [reflexivity|].
  destruct (PyStr.find "--" l); reflexivity.
Qed.

(** the first line of a text starts with a dash when the text does *)
Lemma first_line_dash r l ls :
  PyStr.split "010" r = l :: ls ->
  PyStr.startswith "-" l = PyStr.startswith "-" r.
Proof.
  destruct r as [|x r]; simpl.
  - now intros [= <- <-].
  - destruct (Ascii.eqb_spec x "010") as [->|N].
    + now intros [= <- <-].
    + destruct (PyStr.split "010" r); intros [= <- <-]; reflexivity.
Qed.

Lemma lines_spec s :
  cut_lines (PyStr.split "010" s) = ClassifySpec.remove_line_comments false s
  /\ PyStr.join LF ("" :: List.map strip_line_comment (tl (PyStr.split "010" s)))
     = ClassifySpec.remove_line_comments true s.
Proof.
  induction s as [|c r [IHf IHt]]; [split; reflexivity|].
  cbn [ClassifySpec.remove_line_comments].
  destruct (Ascii.eqb c "010") eqn:E.
  - apply Ascii.eqb_eq in E. subst c. simpl PyStr.split.
    cbn [tl List.map].
    destruct (PyStr.split "010" r) as [|l ls] eqn:S;
      [now destruct (split_nonempty "010" r)|].
    cbn [List.map] in *. rewrite join_cons2, <- IHf. split; reflexivity.
  - destruct (split_cons "010" c r E) as [l [ls [S ->]]].
    rewrite S in IHf, IHt. cbn [tl List.map] in *. split; [|exact IHt].
    rewrite strip_line_comment_cons, !startswith_cons.
    rewrite (first_line_dash r l ls S).
    destruct (Ascii.eqb c "-" && PyStr.startswith "-" r).
    + exact IHt.
    + rewrite join_cons_char. now rewrite IHf.
Qed.

(** *** The first word *)

Lemma rev_append_app w a t :
  (PyStr.rev_append w a ++ t = PyStr.rev_append w (a ++ t))%string.
Proof. revert a. induction w as [|c r IH]; intros a; simpl; [reflexivity | apply IH]. Qed.

(** whitespace in UTF-8 *)
Import IdentifierSpec.

Lemma wide_spaces_form : forallb wide_form PyStr.wide_spaces = true.
Proof. vm_compute. reflexivity. Qed.

Ltac ranges :=
  unfold is_cont, lead, high, PyStr.isspace, PyStr.in_range in *;
  repeat match goal with
         | H : context [Nat.leb ?a ?b] |- _ => destruct (Nat.leb_spec a b)
         | |- context [Nat.leb ?a ?b] => destruct (Nat.leb_spec a b)
         end; cbn in *; try reflexivity; try discriminate; try lia.

Lemma cont_not_space c : is_cont c = true -> PyStr.isspace c = false.
Proof. intros H. ranges. Qed.

Lemma cont_not_lead c : is_cont c = true -> lead c = false.
Proof. intros H. ranges. Qed.

Lemma cont_high c : is_cont c = true -> high c = true.
Proof. intros H. ranges. Qed.

Lemma lead_high c : lead c = true -> high c = true.
Proof. intros H. ranges. Qed.

Lemma low_not_lead c : high c = false -> lead c = false.
Proof. intros H. ranges. Qed.

Lemma space_low c : PyStr.isspace c = true -> high c = false.
Proof. intros H. ranges. Qed.

Lemma startswith_app e x w :
  PyStr.startswith e x = true -> PyStr.startswith e (x ++ w) = true.
Proof.
  revert x. induction e as [|a e IH]; intros x; [reflexivity|].
  destruct x as [|b x]; [discriminate|]. cbn [PyStr.startswith append].
  intros H. apply andb_true_iff in H as [H1 H2]. now rewrite H1, (IH x H2).
Qed.

Lemma startswith_split e x :
  PyStr.startswith e x = true -> exists rest, x = e ++ rest.
Proof.
  revert x. induction e as [|a e IH]; intros x; [now exists x|].
  destruct x as [|b x]; [discriminate|]. cbn [PyStr.startswith].
  intros H. apply andb_true_iff in H as [H1 H2].
  apply Ascii.eqb_eq in H1. subst b.
  destruct (IH x H2) as [rest ->]. now exists rest.
Qed.

Lemma startswith_refl_app e rest : PyStr.startswith e (e ++ rest) = true.
Proof.
  induction e as [|a e IH]; [reflexivity|]. cbn [PyStr.startswith append].
  now rewrite Ascii.eqb_refl, IH.
Qed.

Lemma find_first_byte (l : list string) c r :
  forallb wide_form l = true -> lead c = false ->
  List.find (fun e => PyStr.startswith e (String c r)) l = None.
Proof.
  intros F L. induction l as [|e l IH]; [reflexivity|].
  cbn [forallb] in F. apply andb_true_iff in F as [Fe Fl].
  cbn [List.find]. destruct e as [|a e]; [discriminate|].
  cbn [wide_form] in Fe. apply andb_true_iff in Fe as [La _].
  cbn [PyStr.startswith]. destruct (Ascii.eqb_spec a c) as [->|N].
  - congruence.
  - now apply IH.
Qed.

Lemma space_len_not_lead c r :
  PyStr.isspace c = false -> lead c = false ->
  PyStr.space_len (String c r) = 0.
Proof.
  intros A L. unfold PyStr.space_len. rewrite A.
  now rewrite (find_first_byte _ c r wide_spaces_form L).
Qed.

Lemma space_len_cont c r :
  is_cont c = true -> PyStr.space_len (String c r) = 0.
Proof.
  intros H. apply space_len_not_lead;
    [now apply cont_not_space | now apply cont_not_lead].
Qed.

Lemma space_len_ascii c r :
  PyStr.isspace c = true -> PyStr.space_len (String c r) = 1.
Proof. intros H. unfold PyStr.space_len. now rewrite H. Qed.

Lemma wide_in e : In e PyStr.wide_spaces -> wide_form e = true.
Proof.
  intros I. pose proof wide_spaces_form as F.
  rewrite forallb_forall in F. now apply F.
Qed.

(** what a whitespace character at the start of a text looks like *)
Lemma space_len_inv c r n :
  PyStr.space_len (String c r) = S n ->
  (PyStr.isspace c = true /\ n = 0)
  \/ exists e rest,
       In (String c e) PyStr.wide_spaces /\ all_chars is_cont e = true
       /\ r = e ++ rest /\ n = String.length e.
Proof.
  unfold PyStr.space_len.
  destruct (PyStr.isspace c); [intros [= <-]; now left|].
  destruct (List.find _ PyStr.wide_spaces) as [e|] eqn:F; [|discriminate].
  apply List.find_some in F as [I S]. intros L. right.
  pose proof (wide_in e I) as W.
  destruct e as [|a e]; [discriminate|]. cbn [wide_form] in W.
  apply andb_true_iff in W as [_ W]. cbn [PyStr.startswith] in S.
  apply andb_true_iff in S as [S1 S2]. apply Ascii.eqb_eq in S1. subst a.
  destruct (startswith_split e r S2) as [rest ->].
  exists e, rest. cbn [String.length] in L. injection L as <-. auto.
Qed.

Lemma find_some_any A (p : A -> bool) l x :
  In x l -> p x = true -> List.find p l <> None.
Proof.
  induction l as [|y l IH]; [contradiction|]. cbn [List.find].
  intros [->|I] P; [now rewrite P|]. destruct (p y); [discriminate|].
  now apply IH.
Qed.

Lemma space_len_wide c e rest :
  In (String c e) PyStr.wide_spaces ->
  PyStr.space_len (String c (e ++ rest)) <> 0.
Proof.
  intros I. unfold PyStr.space_len.
  destruct (PyStr.isspace c); [discriminate|].
  destruct (List.find _ PyStr.wide_spaces) as [e0|] eqn:F.
  - apply List.find_some in F as [I0 _]. apply wide_in in I0.
    destruct e0; [discriminate | cbn; discriminate].
  - exfalso. revert F. apply (find_some_any _ _ _ (String c e) I).
    exact (startswith_refl_app (String c e) rest).
Qed.

(** cutting a text short never makes a whitespace character at its
    start *)
Lemma space_len_trunc c x w :
  PyStr.space_len (String c (x ++ w)) = 0 -> PyStr.space_len (String c x) = 0.
Proof.
  intros Z. destruct (PyStr.space_len (String c x)) as [|n] eqn:E;
    [reflexivity|].
  exfalso. apply space_len_inv in E as [[A _]|(e & rest & I & _ & -> & _)].
  - rewrite (space_len_ascii c _ A) in Z. discriminate.
  - rewrite append_assoc in Z. now apply (space_len_wide c e (rest ++ w)).
Qed.

Lemma token_cons c r :
  ClassifySpec.token (String c r)
  = match PyStr.space_len (String c r) with
    | O => String c (ClassifySpec.token r)
    | S _ => ""
    end.
Proof. reflexivity. Qed.

Lemma lstrip_cons c r :
  PyStr.lstrip (String c r)
  = match PyStr.space_len (String c r) with
    | O => String c r
    | S n => PyStr.lstrip_from n r
    end.
Proof. reflexivity. Qed.

Lemma lstrip_nospace s : PyStr.space_len s = 0 -> PyStr.lstrip s = s.
Proof.
  destruct s as [|c r]; [reflexivity|]. rewrite lstrip_cons. now intros ->.
Qed.

Lemma lstrip_from_skip e rest :
  PyStr.lstrip_from (String.length e) (e ++ rest) = PyStr.lstrip rest.
Proof.
  induction e as [|a e IH]; [now destruct rest|].
  cbn [String.length append PyStr.lstrip_from]. exact IH.
Qed.

Lemma lstrip_head k s :
  PyStr.lstrip_from k s = "" \/ PyStr.space_len (PyStr.lstrip_from k s) = 0.
Proof.
  revert k. induction s as [|c r IH]; intros k; [now left|].
  cbn [PyStr.lstrip_from]. destruct k as [|k]; [|apply IH].
  destruct (PyStr.space_len (String c r)) eqn:E; [now right | apply IH].
Qed.

Lemma rstrip_cons c r :
  PyStr.rstrip (String c r)
  = match PyStr.lstrip (String c r) with
    | EmptyString => ""
    | _ => String c (PyStr.rstrip r)
    end.
Proof. reflexivity. Qed.

Lemma rstrip_prefix s : exists w, s = PyStr.rstrip s ++ w.
Proof.
  induction s as [|c r [w IH]]; [now exists ""|]. rewrite rstrip_cons.
  destruct (PyStr.lstrip (String c r)); [now exists (String c r)|].
  exists w. cbn [append]. now rewrite <- IH.
Qed.

Lemma rstrip_cont e x :
  all_chars is_cont e = true -> PyStr.rstrip (e ++ x) = e ++ PyStr.rstrip x.
Proof.
  induction e as [|b e IH]; [reflexivity|]. cbn [all_chars append].
  intros H. apply andb_true_iff in H as [Hb He]. rewrite rstrip_cons.
  rewrite (lstrip_nospace _ (space_len_cont b (e ++ x) Hb)).
  now rewrite (IH He).
Qed.

Lemma token_rstrip s : ClassifySpec.token (PyStr.rstrip s) = ClassifySpec.token s.
Proof.
  induction s as [|c r IH]; [reflexivity|]. rewrite rstrip_cons.
  destruct (PyStr.lstrip (String c r)) as [|x t] eqn:L.
  - rewrite token_cons. destruct (PyStr.space_len (String c r)) eqn:E;
      [|reflexivity].
    rewrite (lstrip_nospace _ E) in L. discriminate.
  - rewrite !token_cons.
    destruct (PyStr.space_len (String c r)) as [|n] eqn:E.
    + destruct (rstrip_prefix r) as [w Hw].
      rewrite Hw in E. rewrite (space_len_trunc c _ w E). now rewrite IH.
    + apply space_len_inv in E as [[A _]|(e & rest & I & C & -> & _)].
      * now rewrite (space_len_ascii c _ A).
      * rewrite (rstrip_cont e rest C).
        destruct (PyStr.space_len (String c (e ++ PyStr.rstrip rest))) eqn:Z;
          [|reflexivity].
        now destruct (space_len_wide c e (PyStr.rstrip rest) I).
Qed.

Lemma first_token_strip s :
  ClassifySpec.first_token (PyStr.strip s) = ClassifySpec.first_token s.
Proof.
  unfold ClassifySpec.first_token, PyStr.strip, PyStr.lstrip.
  destruct (lstrip_head 0 s) as [E|E].
  - now rewrite E.
  - destruct (PyStr.lstrip_from 0 s) as [|c r] eqn:L; [reflexivity|].
    rewrite <- (token_rstrip (String c r)). f_equal.
    apply (lstrip_nospace (PyStr.rstrip (String c r))).
    rewrite rstrip_cons, (lstrip_nospace _ E).
    destruct (rstrip_prefix r) as [w Hw]. rewrite Hw in E.
    exact (space_len_trunc c _ w E).
Qed.

Lemma split_ws_first word skip s :
  word = "" \/ skip = 0 ->
  nth 0 (PyStr.split_ws_from word skip s) "" = first_of word skip s.
Proof.
  revert word skip. induction s as [|c r IH]; intros word skip H.
  - destruct word; reflexivity.
  - cbn [PyStr.split_ws_from]. destruct skip as [|k].
    + unfold first_of.
      change (PyStr.lstrip_from 0 (String c r)) with (PyStr.lstrip (String c r)).
      rewrite lstrip_cons, token_cons.
      destruct (PyStr.space_len (String c r)) as [|n] eqn:E.
      * rewrite IH by now right. unfold first_of. cbn [PyStr.rev_append].
        destruct word; [rewrite token_cons; now rewrite E | reflexivity].
      * destruct word; [|reflexivity]. cbn [PyStr.flush].
        now rewrite IH by now left.
    + destruct H as [->|H]; [|discriminate]. rewrite IH by now left.
      reflexivity.
Qed.

(** [query_cleaned.strip().split()[0] if query_cleaned.strip() else ""] *)
Lemma first_word_spec s :
  match PyStr.strip s with
  | EmptyString => ""
  | stripped => nth 0 (PyStr.split_ws stripped) ""
  end = ClassifySpec.first_token s.
Proof.
  rewrite <- first_token_strip.
  destruct (PyStr.strip s) as [|c r]; [reflexivity|].
  unfold PyStr.split_ws. rewrite split_ws_first by now left. reflexivity.
Qed.

Lemma is_select_query_spec sql :
  is_select_query sql
  = String.eqb (PyStr.upper (ClassifySpec.first_token (ClassifySpec.stripped sql)))
               "SELECT".
Proof.
  unfold is_select_query, ClassifySpec.stripped. cbv zeta.
  rewrite first_word_spec, re_sub_spec.
  now rewrite (proj1 (lines_spec _)).
Qed.

(** C2: a statement is classified read-only exactly when, after the
    block comments are removed, then everything from the first [--] of
    each line, the first whitespace-delimited token of the trimmed text
    is [SELECT] in upper case; every other statement is mutating, and so
    is one with nothing left after stripping.  Whitespace and upper case
    are Python's, for every character: a no-break space delimits, and a
    long s counts as an S. *)
Theorem classify_first_token sql :
  (classify sql = ReadOnly <->
   PyStr.upper (ClassifySpec.first_token (ClassifySpec.stripped sql)) = "SELECT")
  /\ (classify sql <> ReadOnly <-> classify sql = Mutating)
  /\ (ClassifySpec.first_token (ClassifySpec.stripped sql) = ""
      -> classify sql = Mutating)
  /\ classify sql = ClassifySpec.classification sql.
Proof.
  unfold classify, ClassifySpec.classification. rewrite is_select_query_spec.
  destruct (String.eqb_spec
              (PyStr.upper (ClassifySpec.first_token (ClassifySpec.stripped sql)))
              "SELECT") as [E|N].
  - repeat split; try congruence. intros Z. rewrite Z in E. discriminate.
  - repeat split; try congruence.
Qed.

(** the statements of the specification's edge cases, run *)
Example classify_examples :
  List.map classify
    ["SELECT * FROM Users"; "  select 1"; "/* note */ SeLeCt 1";
     "-- note" ++ LF ++ "select 1"; "/* SELECT 1 */"; "   ";
     "DELETE FROM Users WHERE Id=1"; "SELECT/**/1"; "/* open SELECT 1"]
  = [ReadOnly; ReadOnly; ReadOnly; ReadOnly; Mutating; Mutating;
     Mutating; Mutating; Mutating].
Proof. reflexivity. Qed.

(** statements with characters beyond ASCII: a no-break space and an
    ideographic space are whitespace, a zero-width space is not; the
    long s is an S in upper case, an accented e is no E *)
Example classify_beyond_ascii :
  List.map classify
    [PyStr.utf8 160 ++ "SELECT 1"; PyStr.utf8 383 ++ "elect 1";
     "select" ++ PyStr.utf8 12288 ++ "1";
     "s" ++ PyStr.utf8 233 ++ "lect 1"; PyStr.utf8 8203 ++ "SELECT 1"]
  = [ReadOnly; ReadOnly; ReadOnly; Mutating; Mutating].
Proof. vm_compute. reflexivity. Qed.

(** the upper case of characters beyond ASCII: the dotless i is an I,
    the sharp s two S, and a catalog name written with them is found *)
Example upper_beyond_ascii :
  PyStr.upper (PyStr.utf8 305 ++ "nformation_" ++ PyStr.utf8 383 ++ "chema")
  = "INFORMATION_SCHEMA"
  /\ PyStr.upper ("stra" ++ PyStr.utf8 223 ++ "e") = "STRASSE"
  /\ PyStr.contains "INFORMATION_SCHEMA.TABLES"
       (PyStr.upper ("SELECT 1 FROM " ++ PyStr.utf8 305
                       ++ "nformation_schema.tables")) = true.
Proof. repeat split; vm_compute; reflexivity. Qed.

End ClassifierFacts.

(** ** Running the handlers *)

Lemma ret_inj {A : Type} (a b : A) : Ret a = Ret b -> a = b.
Proof. now intros [= ->]. Qed.

Section ServerFacts.

Context {World Conn Cursor : Type}.
Variable drv : Driver World Conn Cursor.
Variable AnyUrl : string -> option string.

Notation state := (state World Conn Cursor).
Notation M := (M World Conn Cursor).

(** *** Sequencing and handlers *)

Lemma run_bind_ret A B (c : M A) (k : A -> M B) st a st1 :
  c st = (Ret a, st1) -> bind c k st = k a st1.
Proof. intros H. simpl. now rewrite H. Qed.

Lemma run_bind_raise A B (c : M A) (k : A -> M B) st e st1 :
  c st = (Raise e, st1) -> bind c k st = (Raise e, st1).
Proof. intros H. simpl. now rewrite H. Qed.

Lemma run_catch_ret A (c : M A) (handler : exn -> M A) st a st1 :
  c st = (Ret a, st1) -> catch c handler st = (Ret a, st1).
Proof. intros H. simpl. now rewrite H. Qed.

Lemma run_catch_raise A (c : M A) (handler : exn -> M A) st e st1 :
  c st = (Raise e, st1) -> catch c handler st = handler e st1.
Proof. intros H. simpl. now rewrite H. Qed.

(** a bind that returns went through a step that returned *)
Lemma bind_ret_inv A B (c : M A) (k : A -> M B) st b st2 :
  bind c k st = (Ret b, st2) ->
  exists a st1, c st = (Ret a, st1) /\ k a st1 = (Ret b, st2).
Proof.
  simpl. destruct (c st) as [[a|e] st1]; [|discriminate].
  intros H. now exists a, st1.
Qed.

Lemma bind_raise_inv A B (c : M A) (k : A -> M B) st e st2 :
  bind c k st = (Raise e, st2) ->
  c st = (Raise e, st2)
  \/ exists a st1, c st = (Ret a, st1) /\ k a st1 = (Raise e, st2).
Proof.
  simpl. destruct (c st) as [[a|e'] st1]; intros H; [right|left].
  - now exists a, st1.
  - now injection H as -> ->.
Qed.

(** *** Driver calls *)

Lemma driver_call_frame A (op : World -> outcome A * World)
      (ev : outcome A -> event Conn Cursor) (st : state) r st1 :
  driver_call op ev st = (r, st1) ->
  environ st1 = environ st
  /\ DBConnection_conn st1 = DBConnection_conn st
  /\ trace st1 = ev r :: trace st.
Proof.
  unfold driver_call. destruct (op (world st)) as [r' w].
  intros [= <- <-]. now simpl.
Qed.

(** a driver call runs the operation on the engine as it is and goes on
    with the engine the operation left *)
Lemma driver_call_run A (op : World -> outcome A * World)
      (ev : outcome A -> event Conn Cursor) (st : state) r w :
  op (world st) = (r, w) ->
  driver_call op ev st = (r, after_call w (ev r) st).
Proof. intros H. unfold driver_call. now rewrite H. Qed.

Lemma cursor_run h (st : state) r w :
  conn_cursor drv h (world st) = (r, w) ->
  cursor drv (Some h) st = (r, after_call w (EvCursor h) st).
Proof. apply driver_call_run. Qed.

Lemma commit_run h (st : state) r w :
  conn_commit drv h (world st) = (r, w) ->
  commit drv (Some h) st = (r, after_call w (EvCommit h) st).
Proof. apply driver_call_run. Qed.

Lemma execute_run cur sql (st : state) r w :
  cur_execute drv cur sql (world st) = (r, w) ->
  execute drv cur sql st = (r, after_call w (EvExecute cur sql) st).
Proof. apply driver_call_run. Qed.

Lemma fetchall_run cur (st : state) r w :
  cur_fetchall drv cur (world st) = (r, w) ->
  fetchall drv cur st = (r, after_call w (EvFetchall cur) st).
Proof. apply driver_call_run. Qed.

Lemma close_cursor_run cur (st : state) r w :
  cur_close drv cur (world st) = (r, w) ->
  close_cursor drv cur st = (r, after_call w (EvCloseCursor cur) st).
Proof. apply driver_call_run. Qed.

(** *** Configuration *)

Lemma getenv_run key (st : state) : getenv key st = (Ret (environ st key), st).
Proof. reflexivity. Qed.

Lemma getenv_default_run key default (st : state) :
  getenv_default key default st
  = (Ret (match environ st key with Some s => s | None => default end), st).
Proof. reflexivity. Qed.

Lemma get_command_run (st : state) :
  get_command st
  = (Ret (match environ st "MSSQL_COMMAND" with
          | Some s => s
          | None => "execute_sql"
          end), st).
Proof. reflexivity. Qed.

(** reading the configuration leaves the process as it is *)
Lemma get_connection_string_state (st : state) :
  snd (get_connection_string st) = st.
Proof.
  unfold get_connection_string, getenv_default, getenv.
  cbn -[String.append PyStr.lower String.eqb truthy].
  repeat match goal with
         | |- context [if ?b then _ else _] =>
             destruct b; cbn -[String.append PyStr.lower String.eqb truthy]
         end; reflexivity.
Qed.

(** and depends on the environment only *)
Lemma get_connection_string_env (st st' : state) :
  environ st = environ st' ->
  fst (get_connection_string st) = fst (get_connection_string st').
Proof.
  destruct st as [w env c tr], st' as [w' env' c' tr']. simpl. intros <-.
  unfold get_connection_string, getenv_default, getenv.
  cbn -[String.append PyStr.lower String.eqb truthy].
  repeat match goal with
         | |- context [if ?b then _ else _] =>
             destruct b; cbn -[String.append PyStr.lower String.eqb truthy]
         end; reflexivity.
Qed.

Lemma get_connection_string_run (st : state) :
  get_connection_string st = (fst (get_connection_string st), st).
Proof.
  rewrite <- (get_connection_string_state st) at 3.
  now destruct (get_connection_string st).
Qed.

(** *** Quiet computations *)

Ltac mstep :=
  cbn [bind catch ret raise Monad_M MonadExc_M get_conn set_conn lift
       cursor_description cursor_rowcount on_conn].

Lemma quiet_ret A (a : A) : quiet (ret a : M A).
Proof.
  intros st r st1 [= <- <-]. repeat split. now exists [].
Qed.

Lemma quiet_raise A e : quiet (raise e : M A).
Proof.
  intros st r st1 [= <- <-]. repeat split. now exists [].
Qed.

Lemma quiet_lift A (o : outcome A) : quiet (lift o : M A).
Proof.
  intros st r st1 [= <- <-]. repeat split. now exists [].
Qed.

Lemma quiet_trans (st st1 st2 : state) new1 new2 :
  environ st1 = environ st /\ DBConnection_conn st1 = DBConnection_conn st
  /\ trace st1 = (new1 ++ trace st)%list /\ Forall (@quiet_event Conn Cursor) new1 ->
  environ st2 = environ st1 /\ DBConnection_conn st2 = DBConnection_conn st1
  /\ trace st2 = (new2 ++ trace st1)%list /\ Forall (@quiet_event Conn Cursor) new2 ->
  environ st2 = environ st /\ DBConnection_conn st2 = DBConnection_conn st
  /\ exists new, trace st2 = (new ++ trace st)%list /\ Forall quiet_event new.
Proof.
  intros (E1 & C1 & T1 & Q1) (E2 & C2 & T2 & Q2).
  split; [congruence | split; [congruence|]].
  exists (new2 ++ new1)%list. split.
  - now rewrite T2, T1, app_assoc.
  - apply Forall_app. now split.
Qed.

Lemma quiet_bind A B (c : M A) (k : A -> M B) :
  quiet c -> (forall a, quiet (k a)) -> quiet (bind c k).
Proof.
  intros Qc Qk st r st2. mstep.
  destruct (c st) as [[a|e] st1] eqn:C.
  - intros K. destruct (Qc _ _ _ C) as (E1 & C1 & new1 & T1 & Q1).
    destruct (Qk a _ _ _ K) as (E2 & C2 & new2 & T2 & Q2).
    eapply quiet_trans; eauto.
  - intros [= <- <-]. exact (Qc _ _ _ C).
Qed.

Lemma quiet_catch A (c : M A) (handler : exn -> M A) :
  quiet c -> (forall e, quiet (handler e)) -> quiet (catch c handler).
Proof.
  intros Qc Qh st r st2. mstep.
  destruct (c st) as [[a|e] st1] eqn:C.
  - intros [= <- <-]. exact (Qc _ _ _ C).
  - intros K. destruct (Qc _ _ _ C) as (E1 & C1 & new1 & T1 & Q1).
    destruct (Qh e _ _ _ K) as (E2 & C2 & new2 & T2 & Q2).
    eapply quiet_trans; eauto.
Qed.

Lemma quiet_driver_call A (op : World -> outcome A * World)
      (ev : outcome A -> event Conn Cursor) :
  (forall r, quiet_event (ev r)) -> quiet (driver_call op ev).
Proof.
  intros Q st r st1 H. apply driver_call_frame in H as (E & C & T).
  repeat split; auto. exists [ev r]. split; [exact T|]. constructor; auto.
Qed.

Lemma quiet_cursor c : quiet (cursor drv c).
Proof.
  destruct c as [h|]; [|apply quiet_raise].
  apply quiet_driver_call. now intros r.
Qed.

Lemma quiet_commit c : quiet (commit drv c).
Proof.
  destruct c as [h|]; [|apply quiet_raise].
  apply quiet_driver_call. now intros r.
Qed.

Lemma quiet_execute cur sql : quiet (execute drv cur sql).
Proof. apply quiet_driver_call. now intros r. Qed.

Lemma quiet_fetchall cur : quiet (fetchall drv cur).
Proof. apply quiet_driver_call. now intros r. Qed.

Lemma quiet_close_cursor cur : quiet (close_cursor drv cur).
Proof. apply quiet_driver_call. now intros r. Qed.

Lemma quiet_column_names cur : quiet (column_names drv cur).
Proof.
  apply quiet_bind.
  - intros st r st1 [= <- <-]. repeat split. now exists [].
  - intros [columns|]; [apply quiet_ret | apply quiet_raise].
Qed.

Lemma quiet_cursor_rowcount cur : quiet (cursor_rowcount drv cur).
Proof. intros st r st1 [= <- <-]. repeat split. now exists []. Qed.

Lemma quiet_probe c : quiet (probe drv c).
Proof.
  apply quiet_bind; [apply quiet_cursor | intros cur].
  apply quiet_bind; [apply quiet_execute | intros _].
  apply quiet_bind; [apply quiet_fetchall | intros _].
  apply quiet_close_cursor.
Qed.

(** *** Live handles *)

Lemma live_in_quiet new tr (h : Conn) :
  Forall (@quiet_event Conn Cursor) new ->
  live_in (new ++ tr) h -> live_in tr h.
Proof.
  induction new as [|ev new IH]; simpl; [auto|].
  intros Q L. inversion Q as [|? ? Qev Qnew]; subst.
  inversion L as [conn_str h' tr' E | ev' h' tr' L' N]; subst.
  - destruct Qev.
  - now apply IH.
Qed.

(** a process that has asked nothing of the driver has no live handle *)
Lemma one_live_start (st : state) : trace st = [] -> one_live st.
Proof. intros T h L. rewrite T in L. inversion L. Qed.

Lemma one_live_quiet A (c : M A) st r st1 :
  quiet c -> c st = (r, st1) -> one_live st -> one_live st1.
Proof.
  intros Q C I h L. destruct (Q _ _ _ C) as (_ & Cn & new & T & Qn).
  rewrite Cn. apply I. rewrite T in L. eapply live_in_quiet; eauto.
Qed.

(** *** The connection manager *)

Lemma pyodbc_connect_frame conn_str (st : state) r st1 :
  pyodbc_connect drv conn_str st = (r, st1) ->
  environ st1 = environ st
  /\ DBConnection_conn st1 = DBConnection_conn st
  /\ trace st1 = EvConnect conn_str (opened r) :: trace st.
Proof. apply driver_call_frame. Qed.

Lemma close_conn_frame h (st : state) :
  environ (snd (close_conn drv (Some h) st)) = environ st
  /\ DBConnection_conn (snd (close_conn drv (Some h) st)) = DBConnection_conn st
  /\ trace (snd (close_conn drv (Some h) st)) = EvCloseConn h :: trace st.
Proof.
  destruct (close_conn drv (Some h) st) as [r st1] eqn:C.
  now apply driver_call_frame in C.
Qed.

(** a configuration error ends the call before anything else happens *)
Lemma get_connection_config_error (st : state) e :
  fst (get_connection_string st) = Raise e ->
  get_connection drv st = (Raise e, st).
Proof.
  intros G. unfold get_connection.
  rewrite (run_bind_raise _ _ _ _ st e st); [reflexivity|].
  now rewrite get_connection_string_run, G.
Qed.

(** no handle yet: one is opened and stored *)
Lemma get_connection_first (st : state) conn_str :
  fst (get_connection_string st) = Ret conn_str ->
  DBConnection_conn st = None ->
  get_connection drv st = open_and_store drv conn_str st.
Proof.
  intros G N. unfold get_connection, open_and_store.
  rewrite (run_bind_ret _ _ _ _ st conn_str st)
    by now rewrite get_connection_string_run, G.
  mstep. rewrite N. mstep.
  destruct (pyodbc_connect drv conn_str st) as [[h|e] st1]; reflexivity.
Qed.

(** a handle whose check succeeds is handed out as it is *)
Lemma get_connection_probe_ok (st : state) conn_str h st1 :
  fst (get_connection_string st) = Ret conn_str ->
  DBConnection_conn st = Some h ->
  probe drv (Some h) st = (Ret tt, st1) ->
  get_connection drv st = (Ret (Some h), st1).
Proof.
  intros G C P. unfold get_connection.
  rewrite (run_bind_ret _ _ _ _ st conn_str st)
    by now rewrite get_connection_string_run, G.
  mstep. rewrite C. mstep. rewrite C, P. mstep. unfold get_conn.
  destruct (quiet_probe _ _ _ _ P) as (_ & C1 & _). now rewrite C1, C.
Qed.

(** a handle whose check fails is closed, whatever the close does, and
    replaced *)
Lemma get_connection_probe_failed (st : state) conn_str h e st1 :
  fst (get_connection_string st) = Ret conn_str ->
  DBConnection_conn st = Some h ->
  probe drv (Some h) st = (Raise e, st1) ->
  get_connection drv st
  = open_and_store drv conn_str (snd (close_conn drv (Some h) st1)).
Proof.
  intros G C P. unfold get_connection, open_and_store, reconnect.
  rewrite (run_bind_ret _ _ _ _ st conn_str st)
    by now rewrite get_connection_string_run, G.
  mstep. rewrite C. mstep. rewrite C, P. mstep.
  destruct (quiet_probe _ _ _ _ P) as (_ & C1 & _). unfold get_conn at 1.
  rewrite C1, C.
  destruct (close_conn drv (Some h) st1) as [[[]|e'] st2]; cbn [snd];
    destruct (pyodbc_connect drv conn_str st2) as [[h'|e''] st3]; reflexivity.
Qed.

Lemma open_and_store_spec conn_str (st : state) r st1 :
  open_and_store drv conn_str st = (r, st1) ->
  environ st1 = environ st
  /\ ((forall h, ~ live_in (trace st) h) -> one_live st1)
  /\ (forall v, r = Ret v ->
        exists h, v = Some h /\ DBConnection_conn st1 = Some h
                  /\ trace st1 = EvConnect conn_str (Some h) :: trace st)
  /\ exists o, trace st1 = EvConnect conn_str o :: trace st.
Proof.
  unfold open_and_store.
  destruct (pyodbc_connect drv conn_str st) as [[h|e] st2] eqn:P;
    apply pyodbc_connect_frame in P as (E & C & T); intros [= <- <-].
  - split; [exact E|]. split; [|split].
    + intros NL x L. simpl in *. rewrite T in L.
      inversion L; subst; [reflexivity | now destruct (NL x)].
    + intros v [= <-]. exists h. now simpl.
    + now exists (Some h).
  - split; [exact E|]. split; [|split].
    + intros NL x L. rewrite T in L.
      inversion L; subst. now destruct (NL x).
    + discriminate.
    + now exists None.
Qed.

(** What every call of [get_connection] keeps or establishes. *)
Lemma get_connection_spec (st : state) r st1 :
  get_connection drv st = (r, st1) ->
  environ st1 = environ st
  /\ (one_live st -> one_live st1)
  /\ (forall v, r = Ret v -> exists h, v = Some h /\ DBConnection_conn st1 = Some h)
  /\ exists new, trace st1 = (new ++ trace st)%list
       /\ forall s o, In (EvConnect s o) new ->
                      fst (get_connection_string st) = Ret s.
Proof.
  destruct (fst (get_connection_string st)) as [conn_str|e] eqn:G.
  2:{ rewrite (get_connection_config_error st e G). intros [= <- <-].
      repeat split; auto; [discriminate|]. exists []. now split. }
  destruct (DBConnection_conn st) as [h|] eqn:C.
  2:{ rewrite (get_connection_first st conn_str G C). intros O.
      apply open_and_store_spec in O as (E & L & V & o & T).
      split; [exact E|]. split; [|split].
      - intros I. apply L. intros x Lx. apply I in Lx. congruence.
      - intros v Hv. destruct (V v Hv) as (x & -> & Cx & _). now exists x.
      - exists [EvConnect conn_str o]. split; [exact T|].
        intros s o' [[= <- <-]|[]]. reflexivity. }
  destruct (probe drv (Some h) st) as [[[]|e] st2] eqn:P.
  - rewrite (get_connection_probe_ok st conn_str h st2 G C P).
    intros [= <- <-].
    destruct (quiet_probe _ _ _ _ P) as (E & C1 & new & T & Q).
    split; [exact E|]. split; [|split].
    + now apply (one_live_quiet _ _ _ _ _ (quiet_probe _) P).
    + intros v [= <-]. exists h. split; congruence.
    + exists new. split; [exact T|]. intros s o I.
      rewrite Forall_forall in Q. now destruct (Q _ I).
  - rewrite (get_connection_probe_failed st conn_str h e st2 G C P).
    destruct (quiet_probe _ _ _ _ P) as (E & C1 & new & T & Q).
    destruct (close_conn_frame h st2) as (E2 & C2 & T2).
    intros O. apply open_and_store_spec in O as (E3 & L & V & o & T3).
    split; [congruence|]. split; [|split].
    + intros I. apply L. intros x Lx. rewrite T2 in Lx.
      inversion Lx as [|ev x' tr Lx' N]; subst.
      apply (one_live_quiet _ _ _ _ _ (quiet_probe _) P I) in Lx'.
      rewrite C1, C in Lx'. congruence.
    + intros v Hv. destruct (V v Hv) as (x & -> & Cx & _). now exists x.
    + exists (EvConnect conn_str o :: EvCloseConn h :: new)%list.
      split; [now rewrite T3, T2, T|].
      intros s o' [[= <- <-]|[[=]|I]]; [reflexivity|].
      rewrite Forall_forall in Q. now destruct (Q _ I).
Qed.

Lemma probe_ok_trace h (st : state) st1 :
  probe drv (Some h) st = (Ret tt, st1) ->
  exists cur, trace st1 = (probe_events h cur ++ trace st)%list.
Proof.
  unfold probe. intros P.
  apply bind_ret_inv in P as (cur & s1 & P1 & P).
  apply bind_ret_inv in P as ([] & s2 & P2 & P).
  apply bind_ret_inv in P as (rows & s3 & P3 & P4).
  apply driver_call_frame in P1 as (_ & _ & T1).
  apply driver_call_frame in P2 as (_ & _ & T2).
  apply driver_call_frame in P3 as (_ & _ & T3).
  apply driver_call_frame in P4 as (_ & _ & T4).
  exists cur. unfold probe_events. simpl. congruence.
Qed.

(** the check is the first thing asked of an existing handle *)
Lemma probe_starts_on_handle h (st : state) r st1 :
  probe drv (Some h) st = (r, st1) ->
  exists new, trace st1 = (new ++ EvCursor h :: trace st)%list.
Proof.
  unfold probe. mstep.
  destruct (cursor drv (Some h) st) as [[cur|e] s1] eqn:P1.
  - intros K. apply driver_call_frame in P1 as (_ & _ & T1).
    assert (Q : quiet (execute drv cur "SELECT 1" ;;
                       _ <- fetchall drv cur ;; close_cursor drv cur)).
    { apply quiet_bind; [apply quiet_execute | intros _].
      apply quiet_bind; [apply quiet_fetchall | intros _].
      apply quiet_close_cursor. }
    destruct (Q _ _ _ K) as (_ & _ & new & T & _).
    exists new. now rewrite T, T1.
  - intros [= <- <-]. apply driver_call_frame in P1 as (_ & _ & T1).
    exists []. exact T1.
Qed.

Lemma get_connection_ret_config (st : state) v st1 :
  get_connection drv st = (Ret v, st1) ->
  exists conn_str, fst (get_connection_string st) = Ret conn_str.
Proof.
  intros H. destruct (fst (get_connection_string st)) as [s|e] eqn:G.
  - now exists s.
  - rewrite (get_connection_config_error st e G) in H. discriminate.
Qed.

(** C5: the connection manager keeps at most one live handle, the stored
    one.  Every call first rebuilds the connection string from the
    current environment, and every connect it makes uses that string.  A
    stored handle is checked with [SELECT 1] before it is handed out; when
    the check fails the handle is closed, whatever the close does, and a
    replacement is opened and stored before the call returns. *)
Theorem get_connection_one_handle (st : state) :
  one_live st ->
  one_live (snd (get_connection drv st))
  /\ (forall h1 h2,
        live_in (trace (snd (get_connection drv st))) h1 ->
        live_in (trace (snd (get_connection drv st))) h2 -> h1 = h2)
  /\ (forall e, fst (get_connection_string st) = Raise e ->
                get_connection drv st = (Raise e, st))
  /\ (exists new,
        trace (snd (get_connection drv st)) = (new ++ trace st)%list
        /\ forall s o, In (EvConnect s o) new ->
                       fst (get_connection_string st) = Ret s)
  /\ (forall h conn_str,
        DBConnection_conn st = Some h ->
        fst (get_connection_string st) = Ret conn_str ->
        (forall st1,
            probe drv (Some h) st = (Ret tt, st1) ->
            get_connection drv st = (Ret (Some h), st1)
            /\ exists cur, trace st1 = (probe_events h cur ++ trace st)%list)
        /\ (forall e st1,
               probe drv (Some h) st = (Raise e, st1) ->
               (exists new, trace st1 = (new ++ EvCursor h :: trace st)%list)
               /\ get_connection drv st
                  = open_and_store drv conn_str (snd (close_conn drv (Some h) st1))
               /\ (exists o,
                     trace (snd (get_connection drv st))
                     = EvConnect conn_str o :: EvCloseConn h :: trace st1)
               /\ forall v st2,
                    get_connection drv st = (Ret v, st2) ->
                    exists h', v = Some h' /\ DBConnection_conn st2 = Some h'
                      /\ trace st2
                         = EvConnect conn_str (Some h') :: EvCloseConn h :: trace st1)).
Proof.
  intros I.
  destruct (get_connection drv st) as [r st'] eqn:G. cbn [snd].
  destruct (get_connection_spec st r st' G) as (_ & L & _ & T).
  split; [now apply L|]. split; [|split; [|split; [exact T|]]].
  - intros h1 h2 L1 L2. apply (L I) in L1. apply (L I) in L2. congruence.
  - intros e Ge. rewrite <- G. now apply get_connection_config_error.
  - intros h conn_str C Gs. split.
    + intros st1 P. split.
      * rewrite <- G. now apply get_connection_probe_ok with conn_str.
      * now apply probe_ok_trace.
    + intros e st1 P. split; [now apply probe_starts_on_handle with (Raise e)|].
      pose proof (get_connection_probe_failed st conn_str h e st1 Gs C P) as F.
      rewrite G in F. split; [exact F|].
      destruct (close_conn_frame h st1) as (_ & _ & T2).
      symmetry in F.
      destruct (open_and_store_spec _ _ _ _ F) as (_ & _ & V & o & T3).
      split.
      * exists o. now rewrite T3, T2.
      * intros v st2 [= -> <-]. destruct (V v eq_refl) as (h' & -> & C' & T').
        exists h'. repeat split; auto. now rewrite T', T2.
Qed.

(** C8: a second call of [get_connection] whose liveness check succeeds
    returns the handle of the first call, leaves it stored, and asks the
    driver for nothing but the check: no connection is opened. *)
Theorem get_connection_reuses_handle (st : state) v st1 st2 :
  get_connection drv st = (Ret v, st1) ->
  probe drv v st1 = (Ret tt, st2) ->
  get_connection drv st1 = (Ret v, st2)
  /\ DBConnection_conn st2 = v
  /\ exists h cur,
       v = Some h /\ trace st2 = (probe_events h cur ++ trace st1)%list.
Proof.
  intros G P.
  destruct (get_connection_ret_config st v st1 G) as [conn_str Gs].
  destruct (get_connection_spec st _ _ G) as (E & _ & V & _).
  destruct (V v eq_refl) as (h & -> & C).
  assert (Gs1 : fst (get_connection_string st1) = Ret conn_str)
    by now rewrite (get_connection_string_env st1 st E).
  split; [now apply get_connection_probe_ok with conn_str|].
  destruct (quiet_probe _ _ _ _ P) as (_ & C2 & _).
  split; [congruence|].
  destruct (probe_ok_trace h st1 st2 P) as [cur T]. now exists h, cur.
Qed.

(** *** The tool call *)

Ltac go H :=
  first [ rewrite (run_bind_ret _ _ _ _ _ _ _ H)
        | rewrite (run_bind_raise _ _ _ _ _ _ _ H) ];
  cbv beta.

Ltac case_step :=
  match goal with
  | |- context [let (_, _) := ?c in _] => destruct c as [[?|?] ?] eqn:?
  | |- context [match ?o with Ret _ => _ | Raise _ => _ end] =>
      destruct o eqn:?
  | |- context [if ?b then _ else _] => destruct b eqn:?
  | |- context [match ?o with Some _ => _ | None => _ end] =>
      destruct o eqn:?
  end; mstep.

(** a request for the configured tool with a non-empty query runs the
    body under the handler *)
Lemma call_tool_dispatch name arguments query (st : state) :
  fst (get_command st) = Ret name ->
  dict_get "query" arguments = Some query ->
  query <> "" ->
  call_tool drv name arguments st
  = match call_tool_body drv query st with
    | (Ret content, st1) => (Ret content, st1)
    | (Raise e, st1) => (Ret (error_text e), st1)
    end.
Proof.
  intros N Q NE. unfold call_tool. rewrite get_command_run in N.
  cbn [fst] in N. injection N as N.
  rewrite (run_bind_ret _ _ _ _ _ _ _ (get_command_run st)), N, Q.
  rewrite String.eqb_refl. cbn [negb]. destruct query; [congruence|].
  reflexivity.
Qed.

(** the body only ever returns one text item *)
Lemma call_tool_body_ret query (st : state) content st1 :
  call_tool_body drv query st = (Ret content, st1) ->
  exists t, content = text_content t.
Proof.
  unfold call_tool_body, column_names. mstep.
  repeat case_step; intros [= <- <-]; eauto.
Qed.

Lemma call_tool_body_execute_raises query (st : state) conn st1 cur st2 e st3 :
  get_connection drv st = (Ret conn, st1) ->
  cursor drv conn st1 = (Ret cur, st2) ->
  execute drv cur query st2 = (Raise e, st3) ->
  call_tool_body drv query st = (Raise e, st3).
Proof.
  intros G C X. unfold call_tool_body. go G. go C. now go X.
Qed.

Lemma call_tool_body_fetch_raises query (st : state) conn st1 cur st2 st3 e st4 :
  get_connection drv st = (Ret conn, st1) ->
  cursor drv conn st1 = (Ret cur, st2) ->
  execute drv cur query st2 = (Ret tt, st3) ->
  is_select_query query = true ->
  PyStr.contains "INFORMATION_SCHEMA.TABLES" (PyStr.upper query) = true
  \/ cur_description drv cur (world st3) <> None ->
  fetchall drv cur st3 = (Raise e, st4) ->
  call_tool_body drv query st = (Raise e, st4).
Proof.
  intros G C X S D F. unfold call_tool_body. go G. go C. go X. rewrite S.
  destruct (PyStr.contains "INFORMATION_SCHEMA.TABLES" (PyStr.upper query));
    cbn [andb].
  - now go F.
  - destruct D as [D|D]; [discriminate|].
    unfold column_names. mstep.
    destruct (cur_description drv cur (world st3)); [|congruence]. mstep.
    now rewrite F.
Qed.

Lemma call_tool_body_commit_raises query (st : state) conn st1 cur st2 st3 e st4 :
  get_connection drv st = (Ret conn, st1) ->
  cursor drv conn st1 = (Ret cur, st2) ->
  execute drv cur query st2 = (Ret tt, st3) ->
  is_select_query query = false ->
  commit drv conn st3 = (Raise e, st4) ->
  call_tool_body drv query st = (Raise e, st4).
Proof.
  intros G C X S K. unfold call_tool_body. go G. go C. go X. rewrite S.
  cbn [andb]. now go K.
Qed.

(** C3: a tool call for the configured tool with a non-empty query always
    returns a value.  Whatever the body raises comes back as the text
    [Error executing query: ] followed by the message; in particular an
    exception of the statement submission, of the row fetch or of the
    commit. *)
Theorem call_tool_errors_are_values name arguments query (st : state) :
  fst (get_command st) = Ret name ->
  dict_get "query" arguments = Some query ->
  query <> "" ->
  (exists t, fst (call_tool drv name arguments st) = Ret (text_content t))
  /\ (forall e st1,
        call_tool_body drv query st = (Raise e, st1) ->
        call_tool drv name arguments st
        = (Ret (text_content ("Error executing query: " ++ str_exn e)), st1))
  /\ (forall conn st1 cur st2,
        get_connection drv st = (Ret conn, st1) ->
        cursor drv conn st1 = (Ret cur, st2) ->
        (forall e st3,
            execute drv cur query st2 = (Raise e, st3) ->
            call_tool drv name arguments st
            = (Ret (text_content ("Error executing query: " ++ str_exn e)), st3))
        /\ (forall st3,
              execute drv cur query st2 = (Ret tt, st3) ->
              (is_select_query query = true ->
               PyStr.contains "INFORMATION_SCHEMA.TABLES" (PyStr.upper query) = true
               \/ cur_description drv cur (world st3) <> None ->
               forall e st4,
                 fetchall drv cur st3 = (Raise e, st4) ->
                 call_tool drv name arguments st
                 = (Ret (text_content ("Error executing query: " ++ str_exn e)), st4))
              /\ (is_select_query query = false ->
                  forall e st4,
                    commit drv conn st3 = (Raise e, st4) ->
                    call_tool drv name arguments st
                    = (Ret (text_content ("Error executing query: " ++ str_exn e)),
                       st4)))).
Proof.
  intros N Q NE. pose proof (call_tool_dispatch name arguments query st N Q NE) as D.
  assert (R : forall e st1,
             call_tool_body drv query st = (Raise e, st1) ->
             call_tool drv name arguments st
             = (Ret (text_content ("Error executing query: " ++ str_exn e)), st1)).
  { intros e st1 B. now rewrite D, B. }
  split; [|split; [exact R|]].
  - rewrite D. destruct (call_tool_body drv query st) as [[content|e] st1] eqn:B.
    + destruct (call_tool_body_ret _ _ _ _ B) as [t ->]. now exists t.
    + now eexists.
  - intros conn st1 cur st2 G C. split.
    + intros e st3 X. apply R. eapply call_tool_body_execute_raises; eauto.
    + intros st3 X. split.
      * intros S Ds e st4 F. apply R.
        eapply call_tool_body_fetch_raises; eauto.
      * intros S e st4 K. apply R.
        eapply call_tool_body_commit_raises; eauto.
Qed.

(** C4, as the code has it: a read-only statement whose upper-case form
    does not contain [INFORMATION_SCHEMA.TABLES], and that runs without
    error, comes back as the line of the comma-joined column names the
    engine reported followed by one line per fetched row, the cells of a
    row stringified and comma-joined.  The statement goes to the engine
    as it came, the rows are the ones the engine gave for it, nothing is
    committed, and the cursor is closed. *)
Theorem call_tool_select_rowset
        name arguments query (st : state) h st1 cur w2 w3 columns rows w4 w5 :
  fst (get_command st) = Ret name ->
  dict_get "query" arguments = Some query ->
  classify query = ReadOnly ->
  PyStr.contains "INFORMATION_SCHEMA.TABLES" (PyStr.upper query) = false ->
  get_connection drv st = (Ret (Some h), st1) ->
  conn_cursor drv h (world st1) = (Ret cur, w2) ->
  cur_execute drv cur query w2 = (Ret tt, w3) ->
  cur_description drv cur w3 = Some columns ->
  cur_fetchall drv cur w3 = (Ret rows, w4) ->
  cur_close drv cur w4 = (Ret tt, w5) ->
  exists st5,
    call_tool drv name arguments st
    = (Ret (text_content
              (PyStr.join LF
                 (PyStr.join "," columns
                  :: List.map (fun r => PyStr.join "," (List.map py_str r)) rows))),
       st5)
    /\ world st5 = w5
    /\ trace st5
       = EvCloseCursor cur :: EvFetchall cur :: EvExecute cur query
           :: EvCursor h :: trace st1.
Proof.
  intros N Q S' I G C X D F K.
  assert (S : is_select_query query = true).
  { unfold classify in S'. now destruct (is_select_query query). }
  assert (NE : query <> "") by (intros ->; discriminate S).
  apply cursor_run in C. set (s2 := after_call w2 (EvCursor h) st1) in C.
  apply (execute_run cur query s2) in X.
  set (s3 := after_call w3 (EvExecute cur query) s2) in X.
  apply (fetchall_run cur s3) in F.
  set (s4 := after_call w4 (EvFetchall cur) s3) in F.
  apply (close_cursor_run cur s4) in K.
  eexists. split.
  - rewrite (call_tool_dispatch name arguments query st N Q NE).
    unfold call_tool_body. go G. go C. go X. rewrite S, I. cbn [andb].
    unfold column_names. mstep.
    change (world s3) with w3. rewrite D. mstep. rewrite F, K. reflexivity.
  - split; reflexivity.
Qed.

(** X26: the table-listing path: a read-only statement that mentions
    [INFORMATION_SCHEMA.TABLES] in any letter case and runs without error
    comes back as the line [Tables_found] followed by the first cell of
    each row, one per line, when those cells are strings; the other
    columns and the column names are not returned. *)
Lemma call_tool_table_listing
      name arguments query (st : state) conn st1 cur st2 st3 tables names st4 st5 :
  fst (get_command st) = Ret name ->
  dict_get "query" arguments = Some query ->
  is_select_query query = true ->
  PyStr.contains "INFORMATION_SCHEMA.TABLES" (PyStr.upper query) = true ->
  get_connection drv st = (Ret conn, st1) ->
  cursor drv conn st1 = (Ret cur, st2) ->
  execute drv cur query st2 = (Ret tt, st3) ->
  fetchall drv cur st3 = (Ret tables, st4) ->
  comprehension first_cell tables = Ret (List.map PyString names) ->
  close_cursor drv cur st4 = (Ret tt, st5) ->
  call_tool drv name arguments st
  = (Ret (text_content (PyStr.join LF ("Tables_found" :: names))), st5).
Proof.
  intros N Q S I G C X F E K.
  assert (NE : query <> "") by (intros ->; discriminate S).
  rewrite (call_tool_dispatch name arguments query st N Q NE).
  unfold call_tool_body. go G. go C. go X. rewrite S, I. cbn [andb].
  go F. mstep. rewrite E, K. mstep.
  assert (J : forall i, join_values_from i (List.map PyString names) = Ret names).
  { clear E. induction names as [|n ns IH]; intros i; simpl; [reflexivity|].
    now rewrite IH. }
  unfold join_values. cbn [join_values_from]. now rewrite J.
Qed.

(** C6: a statement that is not classified read-only and runs without
    error is committed: the driver's commit is asked of the connection
    the statement ran on, on the engine as the statement left it, after
    the statement and before the cursor is closed, and the process goes
    on with the engine the commit left.  The row count the cursor
    reports after the commit is returned in the message
    [Query executed successfully. Rows affected: N]. *)
Theorem call_tool_mutating_rows_affected
        name arguments query (st : state) h st1 cur w2 w3 w4 w5 :
  fst (get_command st) = Ret name ->
  dict_get "query" arguments = Some query ->
  query <> "" ->
  classify query = Mutating ->
  get_connection drv st = (Ret (Some h), st1) ->
  conn_cursor drv h (world st1) = (Ret cur, w2) ->
  cur_execute drv cur query w2 = (Ret tt, w3) ->
  conn_commit drv h w3 = (Ret tt, w4) ->
  cur_close drv cur w4 = (Ret tt, w5) ->
  exists st5,
    call_tool drv name arguments st
    = (Ret (text_content
              ("Query executed successfully. Rows affected: "
                 ++ PyStr.str_int (cur_rowcount drv cur w4))),
       st5)
    /\ world st5 = w5
    /\ trace st5
       = EvCloseCursor cur :: EvCommit h :: EvExecute cur query
           :: EvCursor h :: trace st1.
Proof.
  intros N Q NE S G C X K Z.
  assert (S' : is_select_query query = false).
  { unfold classify in S. now destruct (is_select_query query). }
  apply cursor_run in C. set (s2 := after_call w2 (EvCursor h) st1) in C.
  apply (execute_run cur query s2) in X.
  set (s3 := after_call w3 (EvExecute cur query) s2) in X.
  apply (commit_run h s3) in K.
  set (s4 := after_call w4 (EvCommit h) s3) in K.
  apply (close_cursor_run cur s4) in Z.
  eexists. split.
  - rewrite (call_tool_dispatch name arguments query st N Q NE).
    unfold call_tool_body. go G. go C. go X. rewrite S'. cbn [andb].
    go K. mstep. now rewrite Z.
  - split; reflexivity.
Qed.

(** *** Listing the tables *)

Lemma comprehension_all A B (f : A -> outcome B) l :
  (forall a, In a l -> exists b, f a = Ret b) ->
  exists bs, comprehension f l = Ret bs /\ Forall2 (fun a b => f a = Ret b) l bs.
Proof.
  induction l as [|a l IH]; intros H.
  - exists []. now split.
  - destruct (H a (or_introl eq_refl)) as [b Fb].
    destruct IH as (bs & C & F2); [intros x Hx; apply H; now right|].
    exists (b :: bs). simpl. rewrite Fb, C. split; [reflexivity|].
    now constructor.
Qed.

Lemma list_resources_run (st : state) :
  list_resources drv AnyUrl st
  = match list_resources_body drv AnyUrl st with
    | (Ret resources, st1) => (Ret resources, st1)
    | (Raise _, st1) => (Ret [], st1)
    end.
Proof. reflexivity. Qed.

Lemma comprehension_raises A B (f : A -> outcome B) l a :
  In a l -> (forall b, f a <> Ret b) -> exists e, comprehension f l = Raise e.
Proof.
  induction l as [|x l IH]; [contradiction|]. intros I N. simpl.
  destruct (f x) as [b|e] eqn:F; [|now exists e].
  destruct I as [->|I]; [now destruct (N b)|].
  destruct (IH I N) as [e ->]. now exists e.
Qed.

(** C9: [list_resources] never raises.  Whatever goes wrong inside, a
    failure to connect, a failure of the catalog query and a row whose
    URI the URL library refuses included, it returns the empty list.  The
    statement it submits to the engine reads [SELECT TABLE_NAME FROM
    INFORMATION_SCHEMA.TABLES WHERE TABLE_TYPE = 'BASE TABLE'], and when
    nothing goes wrong it returns one resource for each row the engine
    gave for it, in order: named after the first cell of the row, with
    the URL the library made of [mssql://], that name and [/data]. *)
Theorem list_resources_never_raises (st : state) :
  (exists resources, fst (list_resources drv AnyUrl st) = Ret resources)
  /\ (forall e st1,
        list_resources_body drv AnyUrl st = (Raise e, st1) ->
        list_resources drv AnyUrl st = (Ret [], st1))
  /\ (forall e st1,
        get_connection drv st = (Raise e, st1) ->
        list_resources drv AnyUrl st = (Ret [], st1))
  /\ PyStr.split_ws catalog_query
     = ["SELECT"; "TABLE_NAME"; "FROM"; "INFORMATION_SCHEMA.TABLES";
        "WHERE"; "TABLE_TYPE"; "="; "'BASE"; "TABLE'"]
  /\ (forall h st1 cur w2,
        get_connection drv st = (Ret (Some h), st1) ->
        conn_cursor drv h (world st1) = (Ret cur, w2) ->
        (forall e w3,
            cur_execute drv cur catalog_query w2 = (Raise e, w3) ->
            exists st3,
              list_resources drv AnyUrl st = (Ret [], st3) /\ world st3 = w3)
        /\ (forall w3 tables w4,
              cur_execute drv cur catalog_query w2 = (Ret tt, w3) ->
              cur_fetchall drv cur w3 = (Ret tables, w4) ->
              ((exists t, In t tables
                          /\ forall r, resource_of_row AnyUrl t <> Ret r) ->
               exists st4,
                 list_resources drv AnyUrl st = (Ret [], st4)
                 /\ world st4 = w4)
              /\ (forall w5,
                    (forall t, In t tables ->
                       exists v url,
                         first_cell t = Ret v
                         /\ AnyUrl ("mssql://" ++ py_str v ++ "/data")
                            = Some url) ->
                    cur_close drv cur w4 = (Ret tt, w5) ->
                    exists resources st5,
                      list_resources drv AnyUrl st = (Ret resources, st5)
                      /\ world st5 = w5
                      /\ trace st5
                         = EvCloseCursor cur :: EvFetchall cur
                             :: EvExecute cur catalog_query
                             :: EvCursor h :: trace st1
                      /\ length resources = length tables
                      /\ Forall2
                           (fun t r =>
                              exists v url,
                                first_cell t = Ret v
                                /\ AnyUrl ("mssql://" ++ py_str v ++ "/data")
                                   = Some url
                                /\ uri r = url
                                /\ name r = "Table: " ++ py_str v
                                /\ mimeType r = "text/plain"
                                /\ description r
                                   = "Data in table: " ++ py_str v)
                           tables resources))).
Proof.
  assert (R : forall e st1,
             list_resources_body drv AnyUrl st = (Raise e, st1) ->
             list_resources drv AnyUrl st = (Ret [], st1)).
  { intros e st1 B. now rewrite list_resources_run, B. }
  split; [|split; [exact R|split; [|split; [vm_compute; reflexivity|]]]].
  - rewrite list_resources_run.
    destruct (list_resources_body drv AnyUrl st) as [[l|e] st1];
      now eexists.
  - intros e st1 G. apply (R e). unfold list_resources_body. now go G.
  - intros h st1 cur w2 G C. apply cursor_run in C.
    set (s2 := after_call w2 (EvCursor h) st1) in C. split.
    + intros e w3 X. apply (execute_run cur catalog_query s2) in X.
      eexists. split.
      * apply (R e). unfold list_resources_body. go G. go C. now go X.
      * reflexivity.
    + intros w3 tables w4 X F.
      apply (execute_run cur catalog_query s2) in X.
      set (s3 := after_call w3 (EvExecute cur catalog_query) s2) in X.
      apply (fetchall_run cur s3) in F.
      set (s4 := after_call w4 (EvFetchall cur) s3) in F. split.
      * intros (t & I & N).
        destruct (comprehension_raises _ _ _ tables t I N) as [e E].
        eexists. split.
        -- apply (R e). unfold list_resources_body.
           go G. go C. go X. go F. mstep. now rewrite E.
        -- reflexivity.
      * intros w5 V K. apply (close_cursor_run cur s4) in K.
        destruct (comprehension_all _ _ (resource_of_row AnyUrl) tables)
          as (resources & E & F2).
        { intros t I. destruct (V t I) as (v & url & Fv & U).
          unfold resource_of_row. rewrite Fv, U. now eexists. }
        exists resources. eexists. split; [|split; [|split; [|split]]].
        -- rewrite list_resources_run. unfold list_resources_body.
           go G. go C. go X. go F. mstep. rewrite E. now rewrite K.
        -- reflexivity.
        -- reflexivity.
        -- symmetry. eapply Forall2_length; eauto.
        -- eapply Forall2_impl; [|exact F2]. intros t r Hr.
           unfold resource_of_row in Hr.
           destruct (first_cell t) as [v|e]; [|discriminate]. exists v.
           destruct (AnyUrl ("mssql://" ++ py_str v ++ "/data")) as [url|];
             [|discriminate].
           exists url. apply ret_inj in Hr. subst r. now repeat split.
Qed.

(** *** Reading a table *)


Lemma read_resource_run uri_str (st : state) :
  PyStr.startswith "mssql://" uri_str = true ->
  read_resource drv uri_str st
  = match read_resource_body
            drv (nth 0 (PyStr.split "/" (PyStr.drop 8 uri_str)) "") st with
    | (Ret t, st1) => (Ret t, st1)
    | (Raise e, st1) =>
        (Raise (Exn RuntimeError ("Database error: " ++ str_exn e)), st1)
    end.
Proof. intros S. unfold read_resource. now rewrite S. Qed.


(** *** The invariant across the handlers *)

Lemma keeps_quiet A (c : M A) : quiet c -> keeps_one_live c.
Proof.
  intros Q st I. destruct (c st) as [r st1] eqn:C.
  exact (one_live_quiet _ c st r st1 Q C I).
Qed.

Lemma keeps_bind A B (c : M A) (k : A -> M B) :
  keeps_one_live c -> (forall a, keeps_one_live (k a)) ->
  keeps_one_live (bind c k).
Proof.
  intros Kc Kk st I. specialize (Kc st I). mstep.
  destruct (c st) as [[a|e] st1]; [apply Kk|]; exact Kc.
Qed.

Lemma keeps_catch A (c : M A) (handler : exn -> M A) :
  keeps_one_live c -> (forall e, keeps_one_live (handler e)) ->
  keeps_one_live (catch c handler).
Proof.
  intros Kc Kh st I. specialize (Kc st I). mstep.
  destruct (c st) as [[a|e] st1]; [|apply Kh]; exact Kc.
Qed.

Lemma keeps_get_connection : keeps_one_live (get_connection drv).
Proof.
  intros st I. destruct (get_connection drv st) as [r st1] eqn:G.
  destruct (get_connection_spec st r st1 G) as (_ & L & _). exact (L I).
Qed.

Lemma keeps_if A (b : bool) (c1 c2 : M A) :
  keeps_one_live c1 -> keeps_one_live c2 ->
  keeps_one_live (if b then c1 else c2).
Proof. now destruct b. Qed.

Ltac keeps :=
  repeat first
    [ apply keeps_get_connection
    | apply keeps_quiet;
      first [ apply quiet_ret | apply quiet_raise | apply quiet_lift
            | apply quiet_cursor | apply quiet_commit | apply quiet_execute
            | apply quiet_fetchall | apply quiet_close_cursor
            | apply quiet_column_names | apply quiet_cursor_rowcount ]
    | apply keeps_bind; [|intros ?]
    | apply keeps_catch; [|intros ?]
    | apply keeps_if ].

(** X25: every handler leaves at most one live handle, the stored one:
    no handler but [get_connection] opens, closes or stores a
    connection. *)
Lemma handlers_keep_one_live :
  keeps_one_live (list_resources drv AnyUrl)
  /\ (forall uri_str, keeps_one_live (read_resource drv uri_str))
  /\ (forall name arguments, keeps_one_live (call_tool drv name arguments)).
Proof.
  split; [|split].
  - unfold list_resources, list_resources_body. keeps.
  - intros uri_str. unfold read_resource, read_resource_body. cbv zeta. keeps.
  - intros name arguments. unfold call_tool, call_tool_body. cbv zeta. keeps.
    apply keeps_quiet. intros st r st1 [= <- <-]. repeat split. now exists [].
Qed.

(** *** What [call_tool] refuses before it runs anything *)

Lemma call_tool_unknown_tool name arguments (st : state) command :
  fst (get_command st) = Ret command -> name <> command ->
  call_tool drv name arguments st
  = (Raise (Exn ValueError ("Unknown tool: " ++ name)), st).
Proof.
  intros N NE. unfold call_tool. rewrite get_command_run in N.
  cbn [fst] in N. injection N as N.
  rewrite (run_bind_ret _ _ _ _ _ _ _ (get_command_run st)), N.
  apply String.eqb_neq in NE. now rewrite NE.
Qed.

Lemma call_tool_query_required name arguments (st : state) :
  fst (get_command st) = Ret name ->
  dict_get "query" arguments = None \/ dict_get "query" arguments = Some "" ->
  call_tool drv name arguments st
  = (Raise (Exn ValueError "Query is required"), st).
Proof.
  intros N Q. unfold call_tool. rewrite get_command_run in N.
  cbn [fst] in N. injection N as N.
  rewrite (run_bind_ret _ _ _ _ _ _ _ (get_command_run st)), N.
  rewrite String.eqb_refl. now destruct Q as [-> | ->].
Qed.

End ServerFacts.

(** ** The handlers on the small driver *)
Module ToyRuns.
Import Toy.

Notation st0 := (start shop).
Notation run c st := (snd (c st)).

(** the process after its first connection: handle 1 is stored *)
Notation connected := (run (get_connection driver) st0).


Lemma connected_one_live : one_live connected.
Proof.
  intros h L. vm_compute in L. vm_compute.
  inversion L as [s h' tr E | ev h' tr L' N]; subst; [reflexivity|].
  inversion L'.
Defined.

(** C3 at a statement the engine refuses: the exception of the
    submission comes back as text. *)
Lemma call_tool_errors_are_values_witness :
  call_tool driver "execute_sql" [("query", "DROP TABLE Nope")] st0
  = (Ret (text_content "Error executing query: Incorrect syntax"),
     run (call_tool_body driver "DROP TABLE Nope") st0).
Proof.
  refine (proj1 (proj2
    (call_tool_errors_are_values driver "execute_sql"
       [("query", "DROP TABLE Nope")] "DROP TABLE Nope" st0 eq_refl eq_refl _))
    (Exn DatabaseError "Incorrect syntax") _ _).
  - discriminate.
  - vm_compute. reflexivity.
Defined.

(** C4 at the two-row table of the specification *)
Lemma call_tool_select_rowset_witness :
  fst (call_tool driver "execute_sql" [("query", "SELECT * FROM Users")] st0)
  = Ret (text_content ("Id,Name" ++ LF ++ "1,Alice" ++ LF ++ "2,Bob")).
Proof.
  set (q := "SELECT * FROM Users").
  pose (w2 := snd (conn_cursor driver 1 (world connected))).
  pose (w3 := snd (cur_execute driver 1 q w2)).
  pose (w4 := snd (cur_fetchall driver 1 w3)).
  pose (w5 := snd (cur_close driver 1 w4)).
  destruct (call_tool_select_rowset driver "execute_sql" [("query", q)] q st0
              1 connected 1 w2 w3 (fst users) (snd users) w4 w5)
    as (st5 & E & _);
    [vm_compute; reflexivity .. |].
  rewrite E. reflexivity.
Defined.

(** C6 at the delete of the specification *)
Lemma call_tool_mutating_rows_affected_witness :
  fst (call_tool driver "execute_sql"
                 [("query", "DELETE FROM Users WHERE Id=1")] st0)
  = Ret (text_content "Query executed successfully. Rows affected: 1").
Proof.
  set (q := "DELETE FROM Users WHERE Id=1").
  pose (w2 := snd (conn_cursor driver 1 (world connected))).
  pose (w3 := snd (cur_execute driver 1 q w2)).
  pose (w4 := snd (conn_commit driver 1 w3)).
  pose (w5 := snd (cur_close driver 1 w4)).
  destruct (call_tool_mutating_rows_affected driver "execute_sql"
              [("query", q)] q st0 1 connected 1 w2 w3 w4 w5)
    as (st5 & E & _);
    [first [discriminate | vm_compute; reflexivity] .. |].
  rewrite E. reflexivity.
Defined.

(** C5 on the process that holds handle 1 *)
Lemma get_connection_one_handle_witness :
  one_live connected /\ one_live (run (get_connection driver) connected).
Proof.
  split; [exact connected_one_live|].
  exact (proj1 (get_connection_one_handle driver connected connected_one_live)).
Defined.

(** C8: the second call returns handle 1 again *)
Lemma get_connection_reuses_handle_witness :
  get_connection driver connected
  = (Ret (Some 1), run (probe driver (Some 1)) connected).
Proof.
  refine (proj1 (get_connection_reuses_handle driver st0 (Some 1) connected
                   (run (probe driver (Some 1)) connected) _ _));
    vm_compute; reflexivity.
Defined.


(** C9 on the small engine: the catalog query gives two rows, and two
    resources come back *)
Lemma list_resources_never_raises_witness :
  exists resources,
    fst (list_resources driver any_url st0) = Ret resources
    /\ length resources = 2.
Proof.
  pose (w2 := snd (conn_cursor driver 1 (world connected))).
  pose (w3 := snd (cur_execute driver 1 catalog_query w2)).
  pose (w4 := snd (cur_fetchall driver 1 w3)).
  pose (w5 := snd (cur_close driver 1 w4)).
  destruct (proj2 (proj2 (proj2 (proj2
              (list_resources_never_raises driver any_url st0)))))
    with (h := 1) (st1 := connected) (cur := 1) (w2 := w2) as [_ S];
    [vm_compute; reflexivity .. |].
  destruct (proj2 (S w3 [[PyString "Users"]; [PyString "Orders"]] w4
                     ltac:(vm_compute; reflexivity)
                     ltac:(vm_compute; reflexivity)) w5)
    as (resources & st5 & E & _ & _ & L & _).
  - intros t [<-|[<-|[]]]; eexists; eexists; split; vm_compute; reflexivity.
  - vm_compute. reflexivity.
  - exists resources. rewrite E. split; [reflexivity | exact L].
Defined.

(** the table of 150 rows, run: exactly 100 data lines after the header *)
Example read_resource_orders :
  exists lines,
    fst (read_resource driver "mssql://Orders/data" st0)
    = Ret (PyStr.join LF ("OrderId" :: lines))
    /\ length lines = 100 /\ length (snd orders) = 150.
Proof.
  exists (List.map render_row (firstn 100 (snd orders))).
  split; [|split]; vm_compute; reflexivity.
Qed.

(** a connection that broke between two requests is closed and replaced *)
Example get_connection_after_drop :
  let dropped :=
    {| world := {| tables := tables shop; statements := statements shop;
                   broken := [1]; next_handle := 2; current := no_result |};
       environ := env; DBConnection_conn := Some 1; trace := [] |} in
  fst (get_connection driver dropped) = Ret (Some 2)
  /\ trace (run (get_connection driver) dropped)
     = [EvConnect
          "DRIVER={ODBC Driver 17 for SQL Server};SERVER=localhost,1433;DATABASE=Shop;UID=sa;PWD=secret"
          (Some 2);
        EvCloseConn 1; EvCursor 1].
Proof. split; vm_compute; reflexivity. Qed.

(** a URI of another scheme is refused before anything else *)
Example read_resource_other_scheme :
  read_resource driver "db://Orders/data" st0
  = (Raise (Exn ValueError "Invalid URI scheme: db://Orders/data"), st0).
Proof. reflexivity. Qed.

(** the listing on the small engine *)
Example list_resources_shop :
  List.map uri (match fst (list_resources driver any_url st0) with
                | Ret l => l
                | Raise _ => []
                end)
  = ["mssql://Users/data"; "mssql://Orders/data"].
Proof. vm_compute. reflexivity. Qed.

(** C4 as it is stated fails on a read-only statement that names
    [INFORMATION_SCHEMA.TABLES]: the engine reports two columns and two
    rows, and the tool call answers [Tables_found] and the first cell of
    each row. *)
Lemma select_gives_rowset_counterexample : ~ select_gives_rowset.
Proof.
  intros H.
  pose (q := "SELECT TABLE_NAME, TABLE_TYPE FROM INFORMATION_SCHEMA.TABLES").
  pose (s2 := run (cursor driver (Some 1)) connected).
  pose (s3 := run (execute driver 1 q) s2).
  pose (s4 := run (fetchall driver 1) s3).
  pose (s5 := run (close_cursor driver 1) s4).
  specialize (H engine nat nat driver "execute_sql" [("query", q)] q st0
                (Some 1) connected 1 s2 s3
                ["TABLE_NAME"; "TABLE_TYPE"]
                [[PyString "Users"; PyString "BASE TABLE"];
                 [PyString "Orders"; PyString "BASE TABLE"]] s4 s5).
  assert (A : fst (call_tool driver "execute_sql" [("query", q)] st0)
              = Ret (text_content ("Tables_found" ++ LF ++ "Users" ++ LF ++ "Orders")))
    by (vm_compute; reflexivity).
  rewrite A in H.
  assert (B : Ret (text_content ("Tables_found" ++ LF ++ "Users" ++ LF ++ "Orders"))
              <> Ret (text_content
                        ("TABLE_NAME,TABLE_TYPE" ++ LF ++ "Users,BASE TABLE"
                           ++ LF ++ "Orders,BASE TABLE")))
    by discriminate.
  apply B. apply H; vm_compute; reflexivity.
Qed.

End ToyRuns.

(** * Further properties *)

(** ** The identifier sanitizer: what is accepted, and what comes out *)
Module SanitizerMore.
Import TableNameRe IdentifierSpec StrFacts SanitizerFacts.

Lemma tail_no_dot t :
  t = "" \/ t = LF -> all_chars (fun c => negb (Ascii.eqb c ".")) t = true.
Proof. now intros [->| ->]. Qed.

Lemma validate_name_tail n t :
  is_name n -> t = "" \/ t = LF ->
  validate_table_name (n ++ t) = Ret ("[" ++ n ++ t ++ "]").
Proof.
  intros N T. unfold validate_table_name.
  rewrite (re_match_name n t N T). cbv zeta. simpl negb. cbv iota.
  rewrite split_none
    by (rewrite all_chars_app, (name_no_dot n N), (tail_no_dot t T); reflexivity).
  simpl. now rewrite append_assoc.
Qed.

Lemma validate_qualified_tail a b t :
  is_name a -> is_name b -> t = "" \/ t = LF ->
  validate_table_name (a ++ "." ++ b ++ t)
  = Ret ("[" ++ a ++ "].[" ++ b ++ t ++ "]").
Proof.
  intros A B T. unfold validate_table_name.
  rewrite (re_match_qualified a b t A B T). cbv zeta. simpl negb. cbv iota.
  assert (S : PyStr.split "." (a ++ "." ++ b ++ t) = [a; b ++ t]).
  { change (a ++ "." ++ b ++ t) with (a ++ String "." (b ++ t)).
    rewrite split_app by now apply name_no_dot.
    rewrite split_none
      by (rewrite all_chars_app, (name_no_dot b B), (tail_no_dot t T); reflexivity).
    reflexivity. }
  rewrite S. simpl. now rewrite append_assoc.
Qed.

(** X1: [validate_table_name] succeeds exactly on [name] and
    [schema.name], each possibly followed by one newline, and returns
    the parts in brackets, the newline kept inside the last pair;
    everything else raises. *)
Theorem validate_table_name_accepts_iff s out :
  validate_table_name s = Ret out <->
  exists t, (t = "" \/ t = LF) /\
    ((exists n, is_name n /\ s = n ++ t /\ out = "[" ++ n ++ t ++ "]")
     \/ (exists a b, is_name a /\ is_name b /\ s = a ++ "." ++ b ++ t
                     /\ out = "[" ++ a ++ "].[" ++ b ++ t ++ "]")).
Proof.
  split.
  - apply SanitizerCases.validate_table_name_inv.
  - intros (t & T & [(n & N & -> & ->) | (a & b & A & B & -> & ->)]).
    + now apply validate_name_tail.
    + now apply validate_qualified_tail.
Qed.

Lemma inside_body w rest :
  all_chars (fun c => negb (Ascii.eqb c "]")) w = true ->
  inside_brackets true (w ++ "]" ++ rest) = w ++ inside_brackets false rest.
Proof.
  induction w as [|c w IH]; [reflexivity|].
  intros H. cbn [all_chars] in H. apply andb_true_iff in H as [Hc Hw].
  apply negb_true_iff in Hc.
  change (String c w ++ "]" ++ rest) with (String c (w ++ "]" ++ rest)).
  cbn [inside_brackets]. rewrite Hc, (IH Hw). reflexivity.
Qed.

Lemma inside_single x :
  all_chars (fun c => negb (Ascii.eqb c "]")) x = true ->
  inside_brackets false ("[" ++ x ++ "]") = x.
Proof.
  intros N. change ("[" ++ x ++ "]") with (String "[" (x ++ "]" ++ "")).
  cbn [inside_brackets]. change (Ascii.eqb "[" "[") with true.
  rewrite (inside_body x "" N). simpl. apply append_nil_r.
Qed.

Lemma inside_pair a x :
  all_chars (fun c => negb (Ascii.eqb c "]")) a = true ->
  all_chars (fun c => negb (Ascii.eqb c "]")) x = true ->
  inside_brackets false ("[" ++ a ++ "].[" ++ x ++ "]") = a ++ x.
Proof.
  intros Na Nx.
  change ("[" ++ a ++ "].[" ++ x ++ "]")
    with (String "[" (a ++ "]" ++ String "." ("[" ++ x ++ "]"))).
  cbn [inside_brackets]. change (Ascii.eqb "[" "[") with true.
  rewrite (inside_body a _ Na). cbn [inside_brackets].
  change (Ascii.eqb "." "[") with false.
  now rewrite (inside_single x Nx).
Qed.

Lemma body_no_bracket n t :
  is_name n -> t = "" \/ t = LF ->
  all_chars body_char (n ++ t) = true
  /\ all_chars (fun c => negb (Ascii.eqb c "]")) (n ++ t) = true.
Proof.
  intros [_ W] T. rewrite !all_chars_app. split.
  - rewrite (all_chars_impl word_char body_char n)
      by (assumption || (unfold body_char; intros c ->; reflexivity)).
    now destruct T as [->| ->].
  - rewrite (all_chars_impl word_char (fun c => negb (Ascii.eqb c "]")) n);
      [now destruct T as [->| ->] | | assumption].
    intros c Hc. now rewrite (word_char_not c "]").
Qed.

(** X2: between the brackets of what [validate_table_name] returns stand
    only letters, digits and underscores and at most a final newline: no
    bracket, quote, semicolon or blank can get inside, so the quoting
    cannot be closed early. *)
Theorem validate_table_name_inside_brackets s out :
  validate_table_name s = Ret out ->
  all_chars body_char (inside_brackets false out) = true
  /\ forall c, In c (list_ascii_of_string (inside_brackets false out)) ->
               c <> "]"%char /\ c <> "["%char /\ c <> ";"%char
               /\ c <> "'"%char /\ c <> "034"%char /\ c <> " "%char.
Proof.
  intros V.
  assert (A : all_chars body_char (inside_brackets false out) = true).
  { apply SanitizerCases.validate_table_name_inv in V
      as (t & T & [(n & N & _ & ->) | (a & b & A & B & _ & ->)]).
    - destruct (body_no_bracket n t N T) as [Bc Nb].
      replace ("[" ++ n ++ t ++ "]") with ("[" ++ (n ++ t) ++ "]")
        by now rewrite <- (append_assoc n t "]").
      now rewrite (inside_single (n ++ t) Nb).
    - destruct (body_no_bracket a "" A (or_introl eq_refl)) as [Ba Na].
      destruct (body_no_bracket b t B T) as [Bb Nb].
      rewrite append_nil_r in Ba, Na.
      replace ("[" ++ a ++ "].[" ++ b ++ t ++ "]")
        with ("[" ++ a ++ "].[" ++ (b ++ t) ++ "]")
        by now rewrite <- (append_assoc b t "]").
      rewrite (inside_pair a (b ++ t) Na Nb), all_chars_app.
      now rewrite Ba, Bb. }
  split; [exact A|].
  intros c I. revert A I.
  induction (inside_brackets false out) as [|x r IH]; simpl; [contradiction|].
  intros H [<-|I].
  - apply andb_true_iff in H as [Hx _].
    repeat split; intros ->; discriminate Hx.
  - apply andb_true_iff in H as [_ Hr]. now apply IH.
Qed.

Lemma app_inv_tail (a b c : string) : a ++ c = b ++ c -> a = b.
Proof.
  revert b. induction a as [|x a IH]; intros [|y b] H.
  - reflexivity.
  - apply (f_equal String.length) in H. simpl in H.
    rewrite length_app in H. lia.
  - apply (f_equal String.length) in H. simpl in H.
    rewrite length_app in H. lia.
  - simpl in H. injection H as -> H. now rewrite (IH b H).
Qed.

Lemma word_split_unique w1 x1 w2 x2 :
  all_chars word_char w1 = true -> all_chars word_char w2 = true ->
  stops x1 -> stops x2 -> w1 ++ x1 = w2 ++ x2 -> w1 = w2 /\ x1 = x2.
Proof.
  intros W1 W2 S1 S2 E.
  assert (X : x1 = x2).
  { rewrite <- (skip_word_app w1 x1 W1 S1), E. now apply skip_word_app. }
  subst x2. split; [now apply app_inv_tail with x1 | reflexivity].
Qed.

Lemma tail_close_stops t rest : t = "" \/ t = LF -> stops (t ++ "]" ++ rest).
Proof. now intros [->| ->]. Qed.

Lemma tail_close_inj t1 t2 : 
  t1 = "" \/ t1 = LF -> t2 = "" \/ t2 = LF -> t1 ++ "]" = t2 ++ "]" -> t1 = t2.
Proof. intros [->| ->] [->| ->]; simpl; congruence. Qed.

(** X3: two different table names never get the same escaped form. *)
Theorem validate_table_name_injective s1 s2 out :
  validate_table_name s1 = Ret out ->
  validate_table_name s2 = Ret out ->
  s1 = s2.
Proof.
  intros V1 V2.
  apply SanitizerCases.validate_table_name_inv in V1
    as (t1 & T1 & [(n1 & [_ N1] & -> & ->) | (a1 & b1 & [_ A1] & [_ B1] & -> & ->)]);
  apply SanitizerCases.validate_table_name_inv in V2
    as (t2 & T2 & [(n2 & [_ N2] & -> & E) | (a2 & b2 & [_ A2] & [_ B2] & -> & E)]);
  simpl in E; injection E as E.
  - apply word_split_unique in E as [-> E]; auto;
      try (now apply (tail_close_stops _ "")).
    now rewrite (tail_close_inj t1 t2 T1 T2 E).
  - apply word_split_unique in E as [_ E]; auto;
      [| now apply (tail_close_stops _ "") | reflexivity].
    destruct T1 as [->| ->]; discriminate E.
  - apply word_split_unique in E as [_ E]; auto;
      [| reflexivity | now apply (tail_close_stops _ "")].
    destruct T2 as [->| ->]; discriminate E.
  - apply word_split_unique in E as [-> E]; auto; try reflexivity.
    simpl in E. injection E as E.
    apply word_split_unique in E as [-> E]; auto;
      try (now apply (tail_close_stops _ "")).
    now rewrite (tail_close_inj t1 t2 T1 T2 E).
Qed.

(** X4: a table name with any character other than a letter, a digit, an
    underscore, a dot or a newline is refused with [ValueError], and the
    message quotes the name as it came. *)
Theorem validate_table_name_refuses s :
  all_chars (fun c => word_char c || Ascii.eqb c "." || Ascii.eqb c "010") s
  = false ->
  validate_table_name s = Raise (Exn ValueError ("Invalid table name: " ++ s)).
Proof.
  intros Bad. unfold validate_table_name.
  destruct (re_match s) eqn:R; [|reflexivity].
  apply re_match_inv in R as (id & I & E).
  apply identifier_word_or_dot in I.
  assert (G : all_chars (fun c => word_char c || Ascii.eqb c "." || Ascii.eqb c "010") id
              = true).
  { apply all_chars_impl with (2 := I). intros c ->. reflexivity. }
  destruct E as [->| ->]; [congruence|].
  rewrite all_chars_app, G in Bad. discriminate Bad.
Qed.

End SanitizerMore.

(** ** The statement classifier: what does and does not matter *)
Module ClassifierMore.
Import StrFacts ClassifierFacts IdentifierSpec.

Lemma contains_cons sub c r :
  PyStr.contains sub (String c r)
  = PyStr.startswith sub (String c r) || PyStr.contains sub r.
Proof.
  unfold PyStr.contains. cbn [PyStr.find].
  destruct (PyStr.startswith sub (String c r)); [reflexivity|].
  now destruct (PyStr.find sub r).
Qed.

Lemma drop1_map f r : PyStr.drop 1 (PyStr.map f r) = PyStr.map f (PyStr.drop 1 r).
Proof. now destruct r. Qed.

(** *** A change of letter case *)

Lemma upper_table_high :
  forallb (fun kv => all_chars high (fst kv)) PyStr.upper_table = true.
Proof. vm_compute. reflexivity. Qed.

Section CaseChange.

Variable f : ascii -> ascii.
Hypothesis f_slash : forall c, Ascii.eqb (f c) "/" = Ascii.eqb c "/".
Hypothesis f_star : forall c, Ascii.eqb (f c) "*" = Ascii.eqb c "*".
Hypothesis f_dash : forall c, Ascii.eqb (f c) "-" = Ascii.eqb c "-".
Hypothesis f_lf : forall c, Ascii.eqb (f c) "010" = Ascii.eqb c "010".
Hypothesis f_space : forall c, PyStr.isspace (f c) = PyStr.isspace c.
Hypothesis f_upper : forall c, PyStr.upper_char (f c) = PyStr.upper_char c.
Hypothesis f_high : forall c, high c = true -> f c = c.
Hypothesis f_low : forall c, high c = false -> high (f c) = false.

Lemma startswith_slash_map r :
  PyStr.startswith "/" (PyStr.map f r) = PyStr.startswith "/" r.
Proof.
  destruct r as [|x r]; [reflexivity|]. cbn [PyStr.map].
  now rewrite !startswith1, !(eqb_sym "/"), f_slash.
Qed.

Lemma startswith_star_map r :
  PyStr.startswith "*" (PyStr.map f r) = PyStr.startswith "*" r.
Proof.
  destruct r as [|x r]; [reflexivity|]. cbn [PyStr.map].
  now rewrite !startswith1, !(eqb_sym "*"), f_star.
Qed.

Lemma startswith_dash_map r :
  PyStr.startswith "-" (PyStr.map f r) = PyStr.startswith "-" r.
Proof.
  destruct r as [|x r]; [reflexivity|]. cbn [PyStr.map].
  now rewrite !startswith1, !(eqb_sym "-"), f_dash.
Qed.

Lemma contains_close_map s :
  PyStr.contains "*/" (PyStr.map f s) = PyStr.contains "*/" s.
Proof.
  induction s as [|c r IH]; [reflexivity|].
  cbn [PyStr.map]. rewrite !contains_cons, !startswith_cons, IH.
  now rewrite f_star, startswith_slash_map.
Qed.

Lemma remove_block_comments_map p s :
  ClassifySpec.remove_block_comments p (PyStr.map f s)
  = PyStr.map f (ClassifySpec.remove_block_comments p s).
Proof.
  revert p. induction s as [|c r IH]; intros p; [reflexivity|].
  cbn [PyStr.map ClassifySpec.remove_block_comments].
  rewrite f_slash, f_star, startswith_star_map, startswith_slash_map.
  rewrite drop1_map, contains_close_map.
  destruct p; rewrite ?IH;
    repeat match goal with
           | |- context [if ?b then _ else _] => destruct b
           end; reflexivity.
Qed.

Lemma remove_line_comments_map b s :
  ClassifySpec.remove_line_comments b (PyStr.map f s)
  = PyStr.map f (ClassifySpec.remove_line_comments b s).
Proof.
  revert b. induction s as [|c r IH]; intros b; [reflexivity|].
  cbn [PyStr.map ClassifySpec.remove_line_comments].
  rewrite !startswith_cons, f_lf, f_dash, startswith_dash_map, !IH.
  destruct (Ascii.eqb c "010"); [reflexivity|].
  destruct b; [reflexivity|].
  now destruct (Ascii.eqb c "-" && PyStr.startswith "-" r).
Qed.

Lemma eqb_high_low a b :
  high a = true -> high b = false -> Ascii.eqb a b = false.
Proof.
  intros A B. destruct (Ascii.eqb_spec a b) as [->|]; [congruence | reflexivity].
Qed.

Lemma eqb_high_map a b : high a = true -> Ascii.eqb a (f b) = Ascii.eqb a b.
Proof.
  intros A. destruct (high b) eqn:B.
  - now rewrite (f_high b B).
  - now rewrite (eqb_high_low a b A B), (eqb_high_low a (f b) A (f_low b B)).
Qed.

Lemma startswith_map_high e s :
  all_chars high e = true ->
  PyStr.startswith e (PyStr.map f s) = PyStr.startswith e s.
Proof.
  revert s. induction e as [|a e IH]; intros s H; [reflexivity|].
  cbn [all_chars] in H. apply andb_true_iff in H as [Ha He].
  destruct s as [|b s]; [reflexivity|]. cbn [PyStr.map PyStr.startswith].
  now rewrite (eqb_high_map a b Ha), (IH s He).
Qed.

Lemma find_ext A (p q : A -> bool) l :
  (forall x, In x l -> p x = q x) -> List.find p l = List.find q l.
Proof.
  induction l as [|y l IH]; intros H; [reflexivity|]. cbn [List.find].
  rewrite (H y (or_introl eq_refl)). destruct (q y); [reflexivity|].
  apply IH. intros x I. apply H. now right.
Qed.

Lemma wide_high e : wide_form e = true -> all_chars high e = true.
Proof.
  destruct e as [|c e]; [discriminate|]. cbn [wide_form all_chars].
  intros H. apply andb_true_iff in H as [L C].
  rewrite (lead_high c L). cbn [andb].
  apply all_chars_impl with (2 := C). exact cont_high.
Qed.

Lemma space_len_map s : PyStr.space_len (PyStr.map f s) = PyStr.space_len s.
Proof.
  destruct s as [|c r]; [reflexivity|]. unfold PyStr.space_len.
  cbn [PyStr.map]. rewrite f_space.
  change (String (f c) (PyStr.map f r)) with (PyStr.map f (String c r)).
  rewrite (find_ext _ (fun e => PyStr.startswith e (PyStr.map f (String c r)))
                      (fun e => PyStr.startswith e (String c r))); [reflexivity|].
  intros e I. apply startswith_map_high, wide_high, wide_in, I.
Qed.

Lemma lstrip_from_map k s :
  PyStr.lstrip_from k (PyStr.map f s) = PyStr.map f (PyStr.lstrip_from k s).
Proof.
  revert k. induction s as [|c r IH]; intros k; [reflexivity|].
  pose proof (space_len_map (String c r)) as E. cbn [PyStr.map] in E.
  cbn [PyStr.map PyStr.lstrip_from]. rewrite E.
  destruct k; [|apply IH].
  destruct (PyStr.space_len (String c r)); [reflexivity | apply IH].
Qed.

Lemma token_map s :
  ClassifySpec.token (PyStr.map f s) = PyStr.map f (ClassifySpec.token s).
Proof.
  induction s as [|c r IH]; [reflexivity|].
  pose proof (space_len_map (String c r)) as E. cbn [PyStr.map] in E.
  cbn [PyStr.map ClassifySpec.token]. rewrite E, IH.
  now destruct (PyStr.space_len (String c r)).
Qed.

Lemma upper_at_map s : PyStr.upper_at (PyStr.map f s) = PyStr.upper_at s.
Proof.
  unfold PyStr.upper_at. apply find_ext. intros kv I.
  apply startswith_map_high.
  pose proof upper_table_high as F. rewrite forallb_forall in F.
  exact (F kv I).
Qed.

Lemma upper_from_map k s :
  PyStr.upper_from k (PyStr.map f s) = PyStr.upper_from k s.
Proof.
  revert k. induction s as [|c r IH]; intros k; [reflexivity|].
  pose proof (upper_at_map (String c r)) as E. cbn [PyStr.map] in E.
  cbn [PyStr.map PyStr.upper_from]. rewrite E.
  destruct k; [|apply IH].
  destruct (PyStr.upper_at (String c r)); now rewrite ?f_upper, IH.
Qed.

Lemma upper_map s : PyStr.upper (PyStr.map f s) = PyStr.upper s.
Proof. apply upper_from_map. Qed.

Lemma is_select_query_map q :
  is_select_query (PyStr.map f q) = is_select_query q.
Proof.
  rewrite !is_select_query_spec. unfold ClassifySpec.stripped, ClassifySpec.first_token.
  unfold PyStr.lstrip.
  now rewrite remove_block_comments_map, remove_line_comments_map,
    lstrip_from_map, token_map, upper_map.
Qed.

End CaseChange.

Ltac by_cases c :=
  destruct c as [[|] [|] [|] [|] [|] [|] [|] [|]];
  first [reflexivity | intros H; first [reflexivity | discriminate H]].

(** X5: the classification does not depend on the case of the ASCII
    letters anywhere in the statement: with its ASCII letters all in
    upper case, or all in lower case, the statement is classified as
    the statement itself. *)
Theorem is_select_query_case_blind q :
  is_select_query (PyStr.ascii_upper q) = is_select_query q
  /\ is_select_query (PyStr.lower q) = is_select_query q.
Proof.
  split; apply is_select_query_map; intros c; by_cases c.
Qed.

(** *** Statements without comments *)

Lemma no_block_comment s :
  PyStr.contains "/*" s = false ->
  ClassifySpec.remove_block_comments ClassifySpec.Outside s = s.
Proof.
  induction s as [|c r IH]; [reflexivity|].
  rewrite contains_cons, startswith_cons. intros H.
  apply orb_false_iff in H as [H1 H2].
  cbn [ClassifySpec.remove_block_comments]. now rewrite H1, (IH H2).
Qed.

Lemma no_line_comment s :
  PyStr.contains "--" s = false ->
  ClassifySpec.remove_line_comments false s = s.
Proof.
  induction s as [|c r IH]; [reflexivity|].
  rewrite contains_cons. intros H. apply orb_false_iff in H as [H1 H2].
  cbn [ClassifySpec.remove_line_comments]. rewrite H1, (IH H2).
  now destruct (Ascii.eqb c "010").
Qed.

(** X6: on a statement with no [/*] and no [--] the comment stripping of
    [is_select_query] changes nothing: splitting into lines, cutting each
    line and joining the lines again gives the statement back. *)
Theorem comment_stripping_identity q :
  PyStr.contains "/*" q = false ->
  PyStr.contains "--" q = false ->
  PyStr.join LF (List.map strip_line_comment
                   (PyStr.split "010" (BlockCommentRe.re_sub q)))
  = q.
Proof.
  intros B L. rewrite re_sub_spec, (no_block_comment q B).
  rewrite (proj1 (lines_spec q)). now apply no_line_comment.
Qed.

(** *** What stands in front of the first word *)

Lemma block_prefix w x :
  all_chars (fun c => negb (Ascii.eqb c "/")) w = true ->
  ClassifySpec.remove_block_comments ClassifySpec.Outside (w ++ x)
  = w ++ ClassifySpec.remove_block_comments ClassifySpec.Outside x.
Proof.
  induction w as [|c w IH]; [reflexivity|].
  cbn [all_chars]. intros H. apply andb_true_iff in H as [Hc Hw].
  apply negb_true_iff in Hc.
  change (String c w ++ x) with (String c (w ++ x)).
  cbn [ClassifySpec.remove_block_comments]. rewrite Hc, (IH Hw). reflexivity.
Qed.

Lemma line_prefix w x :
  all_chars (fun c => negb (Ascii.eqb c "-")) w = true ->
  ClassifySpec.remove_line_comments false (w ++ x)
  = w ++ ClassifySpec.remove_line_comments false x.
Proof.
  induction w as [|c w IH]; [reflexivity|].
  cbn [all_chars]. intros H. apply andb_true_iff in H as [Hc Hw].
  apply negb_true_iff in Hc.
  change (String c w ++ x) with (String c (w ++ x)).
  cbn [ClassifySpec.remove_line_comments].
  rewrite startswith_cons, Hc, (IH Hw). cbn [andb].
  now destruct (Ascii.eqb c "010").
Qed.

Lemma space_inert c :
  PyStr.isspace c = true ->
  negb (Ascii.eqb c "/") = true /\ negb (Ascii.eqb c "-") = true.
Proof.
  destruct c as [[|] [|] [|] [|] [|] [|] [|] [|]];
    intros H; try discriminate H; split; reflexivity.
Qed.

Lemma spaces_inert ws :
  all_chars PyStr.isspace ws = true ->
  all_chars (fun c => negb (Ascii.eqb c "/")) ws = true
  /\ all_chars (fun c => negb (Ascii.eqb c "-")) ws = true.
Proof.
  intros H. split; apply all_chars_impl with (2 := H); intros c Hc;
    now destruct (space_inert c Hc).
Qed.

Lemma lstrip_spaces ws x :
  all_chars PyStr.isspace ws = true -> PyStr.lstrip (ws ++ x) = PyStr.lstrip x.
Proof.
  induction ws as [|c ws IH]; [reflexivity|].
  cbn [all_chars]. intros H. apply andb_true_iff in H as [Hc Hw].
  change (String c ws ++ x) with (String c (ws ++ x)).
  rewrite lstrip_cons, (space_len_ascii c _ Hc). exact (IH Hw).
Qed.

Lemma close_after b x :
  PyStr.contains "*/" b = false ->
  BlockCommentRe.lazy_any_then_close (b ++ "*/" ++ x) = Some x.
Proof.
  induction b as [|c b IH]; [reflexivity|].
  rewrite contains_cons, startswith_cons. intros H.
  apply orb_false_iff in H as [H1 H2].
  change (String c b ++ "*/" ++ x) with (String c (b ++ "*/" ++ x)).
  cbn [BlockCommentRe.lazy_any_then_close].
  replace (PyStr.startswith "/" (b ++ "*/" ++ x)) with (PyStr.startswith "/" b).
  - rewrite H1. now apply IH.
  - destruct b; reflexivity.
Qed.

Lemma stripped_spaces ws q :
  all_chars PyStr.isspace ws = true ->
  ClassifySpec.first_token (ClassifySpec.stripped (ws ++ q))
  = ClassifySpec.first_token (ClassifySpec.stripped q).
Proof.
  intros W. destruct (spaces_inert ws W) as [S D].
  unfold ClassifySpec.stripped, ClassifySpec.first_token.
  now rewrite (block_prefix ws q S), (line_prefix ws _ D), (lstrip_spaces ws _ W).
Qed.

Lemma stripped_comment b q :
  PyStr.contains "*/" b = false ->
  ClassifySpec.stripped ("/*" ++ b ++ "*/" ++ q) = ClassifySpec.stripped q.
Proof.
  intros B. unfold ClassifySpec.stripped. f_equal.
  change ("/*" ++ b ++ "*/" ++ q) with (String "/" (String "*" (b ++ "*/" ++ q))).
  cbn [ClassifySpec.remove_block_comments].
  rewrite startswith1. change (Ascii.eqb "/" "/") with true.
  change (Ascii.eqb "*" "*") with true. cbn [andb PyStr.drop].
  rewrite contains_close, (close_after b q B).
  now apply inside_skips, close_after.
Qed.

(** X7: blanks and a block comment in front of a statement do not change
    its classification. *)
Theorem is_select_query_skips_prefix ws b q :
  all_chars PyStr.isspace ws = true ->
  PyStr.contains "*/" b = false ->
  is_select_query (ws ++ q) = is_select_query q
  /\ is_select_query (ws ++ "/*" ++ b ++ "*/" ++ q) = is_select_query q.
Proof.
  intros W B. rewrite !is_select_query_spec.
  rewrite !(stripped_spaces ws _ W). now rewrite (stripped_comment b q B).
Qed.

(** *** What follows the first word *)

Lemma letter_plain c :
  PyStr.in_range 65 90 (PyStr.upper_char c) = true ->
  negb (Ascii.eqb c "/") = true /\ negb (Ascii.eqb c "-") = true
  /\ PyStr.isspace c = false /\ high c = false.
Proof.
  destruct c as [[|] [|] [|] [|] [|] [|] [|] [|]];
    intros H; try discriminate H; repeat split; reflexivity.
Qed.

Lemma upper_letters kw t :
  PyStr.ascii_upper kw = t -> all_chars (PyStr.in_range 65 90) t = true ->
  all_chars (fun c => PyStr.in_range 65 90 (PyStr.upper_char c)) kw = true.
Proof.
  revert t. induction kw as [|c kw IH]; intros t E H; [reflexivity|].
  subst t. cbn [PyStr.ascii_upper PyStr.map all_chars] in *.
  apply andb_true_iff in H as [Hc Hk]. rewrite Hc. now apply (IH _ eq_refl).
Qed.

Lemma upper_table_keys :
  forallb (fun kv => wide_form (fst kv)) PyStr.upper_table = true.
Proof. vm_compute. reflexivity. Qed.

Lemma upper_at_low c r : high c = false -> PyStr.upper_at (String c r) = None.
Proof.
  intros L. unfold PyStr.upper_at.
  pose proof upper_table_keys as F. apply low_not_lead in L.
  induction PyStr.upper_table as [|kv l IH]; [reflexivity|].
  cbn [forallb] in F. apply andb_true_iff in F as [Fk Fl].
  cbn [List.find]. destruct (fst kv) as [|a e]; [discriminate|].
  cbn [wide_form] in Fk. apply andb_true_iff in Fk as [La _].
  cbn [PyStr.startswith]. destruct (Ascii.eqb_spec a c) as [->|N].
  - congruence.
  - now apply IH.
Qed.

(** on ASCII text [upper] is the upper case of the letters *)
Lemma upper_low s :
  all_chars (fun c => negb (high c)) s = true ->
  PyStr.upper s = PyStr.ascii_upper s.
Proof.
  unfold PyStr.upper, PyStr.ascii_upper.
  induction s as [|c r IH]; [reflexivity|]. cbn [all_chars].
  intros H. apply andb_true_iff in H as [Hc Hr]. apply negb_true_iff in Hc.
  cbn [PyStr.upper_from PyStr.map]. now rewrite (upper_at_low c r Hc), (IH Hr).
Qed.

Lemma token_app kw c rest :
  all_chars (fun x => negb (PyStr.isspace x) && negb (high x)) kw = true ->
  PyStr.isspace c = true ->
  ClassifySpec.token (kw ++ String c rest) = kw.
Proof.
  intros W Sp. induction kw as [|x kw IH].
  - cbn [append]. now rewrite token_cons, (space_len_ascii c rest Sp).
  - cbn [all_chars] in W. apply andb_true_iff in W as [Hx W].
    apply andb_true_iff in Hx as [Hs Hh].
    apply negb_true_iff in Hs. apply negb_true_iff in Hh.
    change (String x kw ++ String c rest) with (String x (kw ++ String c rest)).
    rewrite token_cons.
    rewrite (space_len_not_lead x _ Hs (low_not_lead x Hh)). now rewrite (IH W).
Qed.

Lemma token_word kw c rest :
  kw <> "" ->
  all_chars (fun x => negb (PyStr.isspace x) && negb (high x)) kw = true ->
  PyStr.isspace c = true ->
  ClassifySpec.first_token (kw ++ String c rest) = kw.
Proof.
  intros NE W Sp. unfold ClassifySpec.first_token.
  rewrite <- (token_app kw c rest W Sp) at 2. f_equal.
  destruct kw as [|k kw]; [congruence|]. cbn [all_chars] in W.
  apply andb_true_iff in W as [Hk _].
  apply andb_true_iff in Hk as [Hs Hh].
  apply negb_true_iff in Hs. apply negb_true_iff in Hh.
  change (String k kw ++ String c rest) with (String k (kw ++ String c rest)).
  apply lstrip_nospace. exact (space_len_not_lead k _ Hs (low_not_lead k Hh)).
Qed.

(** X8: a statement whose first word is [SELECT] in any case of its
    ASCII letters, followed by an ASCII whitespace character, is
    classified read-only whatever comes after, further statements
    included. *)
Theorem is_select_query_first_word kw c rest :
  PyStr.ascii_upper kw = "SELECT" ->
  PyStr.isspace c = true ->
  is_select_query (kw ++ String c rest) = true.
Proof.
  intros U Sp. pose proof (upper_letters kw "SELECT" U eq_refl) as L.
  assert (NE : kw <> "") by (intros ->; discriminate U).
  assert (P1 : all_chars (fun c => negb (Ascii.eqb c "/")) kw = true).
  { apply all_chars_impl with (2 := L). intros x Hx. apply (letter_plain x Hx). }
  assert (P2 : all_chars (fun c => negb (Ascii.eqb c "-")) kw = true).
  { apply all_chars_impl with (2 := L). intros x Hx. apply (letter_plain x Hx). }
  assert (P3 : all_chars (fun x => negb (PyStr.isspace x) && negb (high x)) kw
               = true).
  { apply all_chars_impl with (2 := L). intros x Hx.
    destruct (letter_plain x Hx) as (_ & _ & -> & ->). reflexivity. }
  assert (P4 : all_chars (fun x => negb (high x)) kw = true).
  { apply all_chars_impl with (2 := L). intros x Hx.
    destruct (letter_plain x Hx) as (_ & _ & _ & ->). reflexivity. }
  destruct (space_inert c Sp) as [S1 S2].
  rewrite is_select_query_spec. unfold ClassifySpec.stripped.
  rewrite (block_prefix kw _ P1).
  change (String c rest) with (String c "" ++ rest).
  rewrite (block_prefix (String c "") rest) by (simpl; now rewrite S1).
  rewrite (line_prefix kw _ P2).
  rewrite (line_prefix (String c "") _) by (simpl; now rewrite S2).
  change (String c "" ++ ?x) with (String c x).
  rewrite (token_word kw c _ NE P3 Sp), (upper_low kw P4), U. reflexivity.
Qed.

End ClassifierMore.

(** ** The connection string *)
Section ConfigFacts.

Context {World Conn Cursor : Type}.
Notation state := (state World Conn Cursor).

Ltac config :=
  unfold get_connection_string, getenv_default, getenv, setenv, unsetenv,
    flag_on, env_or;
  cbn -[String.append PyStr.lower truthy].

Ltac config_cases :=
  repeat match goal with
         | |- context [if String.eqb ?a ?b then _ else _] =>
             destruct (String.eqb a b) eqn:?;
             cbn -[String.append PyStr.lower truthy]
         | |- context [if ?b then _ else _] =>
             destruct b eqn:?; cbn -[String.append PyStr.lower truthy]
         end.

(** X9: [get_connection_string] fails in one case only: Windows
    authentication is not switched on and the user or the password is
    missing or empty.  The failure is the [ValueError] that names the two
    variables. *)
Theorem get_connection_string_raises_iff (st : state) e :
  fst (get_connection_string st) = Raise e <->
  e = Exn ValueError
          "MSSQL_USER and MSSQL_PASSWORD are required for SQL Authentication"
  /\ flag_on "MSSQL_WINDOWS_AUTH" st = false
  /\ (truthy (environ st "MSSQL_USER") = false
      \/ truthy (environ st "MSSQL_PASSWORD") = false).
Proof.
  destruct st as [w env c tr]. config.
  destruct (String.eqb _ "true") eqn:W;
    cbn -[String.append PyStr.lower truthy].
  - split; [|intros (_ & D & _); discriminate D].
    config_cases; discriminate.
  - destruct (truthy (env "MSSQL_USER")) eqn:U;
      destruct (truthy (env "MSSQL_PASSWORD")) eqn:P;
      cbn -[String.append PyStr.lower truthy].
    + split; [|intros (_ & _ & [D|D]); discriminate D].
      config_cases; discriminate.
    + split; [intros [= <-]; auto | now intros (-> & _)].
    + split; [intros [= <-]; auto | now intros (-> & _)].
    + split; [intros [= <-]; auto | now intros (-> & _)].
Qed.

Lemma lower_lower v : PyStr.lower (PyStr.lower v) = PyStr.lower v.
Proof.
  unfold PyStr.lower. induction v as [|c v IH]; [reflexivity|].
  cbn [PyStr.map]. rewrite IH. f_equal.
  destruct c as [[|] [|] [|] [|] [|] [|] [|] [|]]; reflexivity.
Qed.

(** X10: the three switches are read without regard to letter case: a
    value and its lower-cased form give the same connection string or the
    same failure. *)
Theorem get_connection_string_flags_case_blind (st : state) v :
  fst (get_connection_string (setenv "MSSQL_WINDOWS_AUTH" v st))
  = fst (get_connection_string (setenv "MSSQL_WINDOWS_AUTH" (PyStr.lower v) st))
  /\ fst (get_connection_string (setenv "MSSQL_ENCRYPT" v st))
     = fst (get_connection_string (setenv "MSSQL_ENCRYPT" (PyStr.lower v) st))
  /\ fst (get_connection_string (setenv "MSSQL_TRUST_SERVER_CERTIFICATE" v st))
     = fst (get_connection_string
              (setenv "MSSQL_TRUST_SERVER_CERTIFICATE" (PyStr.lower v) st)).
Proof.
  destruct st as [w env c tr].
  repeat split; config;
    repeat (rewrite ?lower_lower;
            match goal with
            | |- context [if ?b then _ else _] =>
                destruct b eqn:?; cbn -[String.append PyStr.lower truthy]
            end);
    rewrite ?lower_lower; reflexivity.
Qed.

(** X11: what an unset variable stands for.  No server is [localhost],
    no port is [1433], no driver or an empty one is
    [ODBC Driver 17 for SQL Server], an unset switch is [false]; and an
    unset database is not a failure: the string then names the database
    [None]. *)
Theorem get_connection_string_defaults (st : state) :
  fst (get_connection_string (unsetenv "MSSQL_SERVER" st))
  = fst (get_connection_string (setenv "MSSQL_SERVER" "localhost" st))
  /\ fst (get_connection_string (unsetenv "MSSQL_PORT" st))
     = fst (get_connection_string (setenv "MSSQL_PORT" "1433" st))
  /\ fst (get_connection_string (unsetenv "MSSQL_DRIVER" st))
     = fst (get_connection_string
              (setenv "MSSQL_DRIVER" "ODBC Driver 17 for SQL Server" st))
  /\ fst (get_connection_string (setenv "MSSQL_DRIVER" "" st))
     = fst (get_connection_string (unsetenv "MSSQL_DRIVER" st))
  /\ fst (get_connection_string (unsetenv "MSSQL_DATABASE" st))
     = fst (get_connection_string (setenv "MSSQL_DATABASE" "None" st))
  /\ fst (get_connection_string (unsetenv "MSSQL_WINDOWS_AUTH" st))
     = fst (get_connection_string (setenv "MSSQL_WINDOWS_AUTH" "false" st))
  /\ fst (get_connection_string (unsetenv "MSSQL_ENCRYPT" st))
     = fst (get_connection_string (setenv "MSSQL_ENCRYPT" "false" st))
  /\ fst (get_connection_string (unsetenv "MSSQL_TRUST_SERVER_CERTIFICATE" st))
     = fst (get_connection_string
              (setenv "MSSQL_TRUST_SERVER_CERTIFICATE" "false" st)).
Proof.
  destruct st as [w env c tr].
  repeat split; config; cbn [truthy]; config_cases; reflexivity.
Qed.

(** X12: the certificate switch counts only under encryption: while
    [MSSQL_ENCRYPT] is not [true], no value of
    [MSSQL_TRUST_SERVER_CERTIFICATE] changes the result. *)
Theorem get_connection_string_trust_needs_encrypt (st : state) v :
  flag_on "MSSQL_ENCRYPT" st = false ->
  fst (get_connection_string (setenv "MSSQL_TRUST_SERVER_CERTIFICATE" v st))
  = fst (get_connection_string st).
Proof.
  destruct st as [w env c tr]. config. intros E.
  config_cases; first [discriminate | reflexivity].
Qed.

End ConfigFacts.

(** ** The password mask *)
Module MaskFacts.
Import StrFacts ClassifierFacts ClassifierMore IdentifierSpec PwdMaskRe.

Lemma skip_shorter s : String.length (skip_not_semicolon s) <= String.length s.
Proof.
  induction s as [|c r IH]; simpl; [lia|].
  destruct (not_semicolon c); simpl; lia.
Qed.

Lemma match_here_shorter s rest :
  match_here s = Some rest -> String.length rest < String.length s.
Proof.
  unfold match_here. destruct (PyStr.startswith "PWD=" s) eqn:S; [|discriminate].
  apply startswith_drop in S. simpl String.length in S.
  destruct (PyStr.drop 4 s) as [|c r]; [discriminate|].
  destruct (not_semicolon c); [|discriminate]. intros [= <-].
  rewrite S. pose proof (skip_shorter r). simpl. lia.
Qed.

(** the fuel is never used up *)
Lemma mask_loop_fuel fuel fuel' s :
  String.length s < fuel -> String.length s < fuel' ->
  sub_loop fuel s = sub_loop fuel' s.
Proof.
  revert fuel' s. induction fuel as [|fuel IH]; intros fuel' s L L'; [lia|].
  destruct fuel' as [|fuel']; [lia|]. destruct s as [|c r]; [reflexivity|].
  cbn [sub_loop]. destruct (match_here (String c r)) as [rest|] eqn:M.
  - apply match_here_shorter in M. simpl in L, L', M.
    now rewrite (IH fuel' rest) by lia.
  - simpl in L, L'. now rewrite (IH fuel' r) by lia.
Qed.

Lemma sub_loop_step fuel c r :
  sub_loop (S fuel) (String c r)
  = match match_here (String c r) with
    | Some rest => "PWD=***" ++ sub_loop fuel rest
    | None => String c (sub_loop fuel r)
    end.
Proof. reflexivity. Qed.

Lemma re_sub_keep c r :
  match_here (String c r) = None -> re_sub (String c r) = String c (re_sub r).
Proof.
  intros M. unfold re_sub. now rewrite sub_loop_step, M.
Qed.

Lemma re_sub_replace s rest :
  match_here s = Some rest -> re_sub s = "PWD=***" ++ re_sub rest.
Proof.
  intros M. pose proof (match_here_shorter s rest M) as L.
  unfold re_sub. destruct s as [|c r]; [discriminate M|].
  rewrite sub_loop_step, M.
  rewrite (mask_loop_fuel (String.length (String c r)) (S (String.length rest)) rest);
    [reflexivity | exact L | lia].
Qed.

Lemma no_start_no_match s :
  PyStr.startswith "PWD=" s = false -> match_here s = None.
Proof. unfold match_here. now intros ->. Qed.

Lemma re_sub_without_password s :
  PyStr.contains "PWD=" s = false -> re_sub s = s.
Proof.
  induction s as [|c r IH]; [reflexivity|].
  rewrite contains_cons. intros H. apply orb_false_iff in H as [H1 H2].
  rewrite (re_sub_keep c r (no_start_no_match _ H1)). now rewrite (IH H2).
Qed.

(** X13: a connection string without [PWD=] is shown as it is. *)
Theorem safe_conn_str_without_password s :
  PyStr.contains "PWD=" s = false -> safe_conn_str s = s.
Proof. exact (re_sub_without_password s). Qed.

Lemma skip_app w x :
  all_chars not_semicolon w = true ->
  x = "" \/ PyStr.startswith ";" x = true ->
  skip_not_semicolon (w ++ x) = x.
Proof.
  intros W X. induction w as [|c w IH].
  - destruct X as [->|X]; [reflexivity|]. destruct x as [|d x]; [discriminate|].
    rewrite startswith1 in X. apply Ascii.eqb_eq in X. subst d. reflexivity.
  - cbn [all_chars] in W. apply andb_true_iff in W as [Hc Hw].
    change (String c w ++ x) with (String c (w ++ x)).
    cbn [skip_not_semicolon]. now rewrite Hc, IH.
Qed.

Lemma match_password p post :
  p <> "" -> all_chars not_semicolon p = true ->
  post = "" \/ PyStr.startswith ";" post = true ->
  match_here ("PWD=" ++ p ++ post) = Some post.
Proof.
  intros NE W X. destruct p as [|c p]; [congruence|].
  cbn [all_chars] in W. apply andb_true_iff in W as [Hc Hw].
  unfold match_here.
  change (PyStr.startswith "PWD=" ("PWD=" ++ String c p ++ post)) with true.
  change (PyStr.drop 4 ("PWD=" ++ String c p ++ post)) with (String c (p ++ post)).
  cbv iota. now rewrite Hc, skip_app.
Qed.

(** an occurrence that starts in [w] is decided within [w] and the
    three characters after it *)
Lemma startswith_overlap w y :
  w <> "" ->
  PyStr.startswith "PWD=" (w ++ "PWD=" ++ y) = PyStr.startswith "PWD=" (w ++ "PWD").
Proof.
  intros NE. destruct w as [|a [|b [|c [|d w]]]]; [congruence| | | |];
    cbn [append PyStr.startswith];
    repeat match goal with
           | |- context [Ascii.eqb ?x ?y] =>
               is_var y; destruct (Ascii.eqb x y)
           end; reflexivity.
Qed.

Lemma re_sub_masks pre p post :
  PyStr.contains "PWD=" (pre ++ "PWD") = false ->
  p <> "" ->
  all_chars not_semicolon p = true ->
  post = "" \/ PyStr.startswith ";" post = true ->
  re_sub (pre ++ "PWD=" ++ p ++ post) = pre ++ "PWD=***" ++ re_sub post.
Proof.
  intros C NE W X. induction pre as [|c pre IH].
  - now apply re_sub_replace, match_password.
  - change (String c pre ++ "PWD") with (String c (pre ++ "PWD")) in C.
    rewrite contains_cons in C. apply orb_false_iff in C as [C1 C2].
    change (String c pre ++ "PWD=" ++ p ++ post)
      with (String c (pre ++ "PWD=" ++ p ++ post)).
    rewrite re_sub_keep.
    + now rewrite (IH C2).
    + apply no_start_no_match.
      change (String c (pre ++ "PWD=" ++ p ++ post))
        with (String c pre ++ "PWD=" ++ p ++ post).
      rewrite startswith_overlap by discriminate. exact C1.
Qed.

(** X14: in a string whose first [PWD=] is followed by a password
    without semicolon, the password is replaced by [***]; what stands
    before is kept, what follows is masked in its turn. *)
Theorem safe_conn_str_masks pre p post :
  PyStr.contains "PWD=" (pre ++ "PWD") = false ->
  p <> "" ->
  all_chars not_semicolon p = true ->
  post = "" \/ PyStr.startswith ";" post = true ->
  safe_conn_str (pre ++ "PWD=" ++ p ++ post)
  = pre ++ "PWD=***" ++ safe_conn_str post.
Proof. exact (re_sub_masks pre p post). Qed.

(** *** The mask on the strings [get_connection_string] builds *)

Lemma contains_skip c r :
  Ascii.eqb c "P" = false ->
  PyStr.contains "PWD=" (String c r) = PyStr.contains "PWD=" r.
Proof. intros E. now rewrite contains_cons, startswith_cons, E. Qed.

Lemma startswith_value w g :
  w <> "" -> no_overlap g = true ->
  PyStr.startswith "PWD=" (w ++ g) = PyStr.startswith "PWD=" w.
Proof.
  intros NE G. destruct g as [|x g]; [now rewrite append_nil_r|].
  cbn [no_overlap] in G. apply andb_true_iff in G as [G G3].
  apply andb_true_iff in G as [G1 G2].
  apply negb_true_iff in G1, G2, G3.
  destruct w as [|a [|b [|c [|d w]]]]; [congruence| | | |];
    cbn [append]; rewrite ?startswith_cons, ?startswith1, ?(eqb_sym _ x),
      ?G1, ?G2, ?G3, ?andb_false_r; reflexivity.
Qed.

Lemma contains_value v g :
  PyStr.contains "PWD=" v = false -> no_overlap g = true ->
  PyStr.contains "PWD=" (v ++ g) = PyStr.contains "PWD=" g.
Proof.
  intros V G. induction v as [|c v IH]; [reflexivity|].
  rewrite contains_cons in V. apply orb_false_iff in V as [V1 V2].
  change (String c v ++ g) with (String c (v ++ g)). rewrite contains_cons.
  change (String c (v ++ g)) with (String c v ++ g).
  rewrite (startswith_value _ g) by (discriminate || assumption).
  now rewrite V1, (IH V2).
Qed.

Ltac skip_literal := repeat rewrite contains_skip by reflexivity.

(** the part of the connection string before the credentials holds no
    [PWD=] when the values put into it hold none *)
Lemma base_clear d server port database rest :
  PyStr.contains "PWD=" d = false ->
  PyStr.contains "PWD=" server = false ->
  PyStr.contains "PWD=" port = false ->
  PyStr.contains "PWD=" database = false ->
  no_overlap rest = true ->
  PyStr.contains "PWD="
    ("DRIVER=" ++ d ++ ";SERVER=" ++ server ++ "," ++ port
               ++ ";DATABASE=" ++ database ++ rest)
  = PyStr.contains "PWD=" rest.
Proof.
  intros D S P B R. cbn [append]. skip_literal.
  rewrite (contains_value d) by (assumption || reflexivity).
  cbn [append]. skip_literal.
  rewrite (contains_value server) by (assumption || reflexivity).
  cbn [append]. skip_literal.
  rewrite (contains_value port) by (assumption || reflexivity).
  cbn [append]. skip_literal.
  now rewrite (contains_value database).
Qed.

Lemma mask_credentials d server port database user p tail suffix :
  PyStr.contains "PWD=" d = false ->
  PyStr.contains "PWD=" server = false ->
  PyStr.contains "PWD=" port = false ->
  PyStr.contains "PWD=" database = false ->
  PyStr.contains "PWD=" user = false ->
  p <> "" -> all_chars not_semicolon p = true ->
  tail = "" \/ PyStr.startswith ";" tail = true ->
  PyStr.contains "PWD=" tail = false ->
  suffix = "" \/ PyStr.startswith ";" suffix = true ->
  PyStr.contains "PWD=" suffix = false ->
  safe_conn_str
    ("DRIVER=" ++ d ++ ";SERVER=" ++ server ++ "," ++ port
               ++ ";DATABASE=" ++ database ++ ";UID=" ++ user
               ++ ";PWD=" ++ p ++ tail ++ suffix)
  = "DRIVER=" ++ d ++ ";SERVER=" ++ server ++ "," ++ port
              ++ ";DATABASE=" ++ database ++ ";UID=" ++ user
              ++ ";PWD=" ++ "***" ++ tail ++ suffix.
Proof.
  intros D S P B U NE W T Tc X Xc.
  set (pre := "DRIVER=" ++ d ++ ";SERVER=" ++ server ++ "," ++ port
                        ++ ";DATABASE=" ++ database ++ ";UID=" ++ user ++ ";").
  assert (E : forall y,
             "DRIVER=" ++ d ++ ";SERVER=" ++ server ++ "," ++ port
                       ++ ";DATABASE=" ++ database ++ ";UID=" ++ user
                       ++ ";PWD=" ++ y
             = pre ++ "PWD=" ++ y).
  { intros y. subst pre. rewrite !append_assoc. reflexivity. }
  rewrite !E. unfold safe_conn_str.
  assert (Post : tail ++ suffix = "" \/ PyStr.startswith ";" (tail ++ suffix) = true).
  { destruct T as [->|T]; [exact X|]. right.
    destruct tail; [discriminate T | exact T]. }
  assert (PostC : PyStr.contains "PWD=" (tail ++ suffix) = false).
  { rewrite contains_value; auto.
    destruct X as [->|X]; [reflexivity|].
    destruct suffix as [|x r]; [reflexivity|].
    rewrite startswith1 in X. apply Ascii.eqb_eq in X. now subst x. }
  rewrite (re_sub_masks pre p (tail ++ suffix)); auto.
  - rewrite (re_sub_without_password _ PostC). reflexivity.
  - subst pre.
    replace (("DRIVER=" ++ d ++ ";SERVER=" ++ server ++ "," ++ port
                        ++ ";DATABASE=" ++ database ++ ";UID=" ++ user ++ ";")
               ++ "PWD")
      with ("DRIVER=" ++ d ++ ";SERVER=" ++ server ++ "," ++ port
                      ++ ";DATABASE=" ++ database ++ (";UID=" ++ user ++ ";PWD")).
    + rewrite base_clear by (assumption || reflexivity).
      cbn [append]. skip_literal.
      now rewrite (contains_value user) by (assumption || reflexivity).
    + rewrite !append_assoc. reflexivity.
Qed.

End MaskFacts.

(** ** The connection string as [main] and [test_connection.py] show it *)
Section ShownString.

Context {World Conn Cursor : Type}.
Notation state := (state World Conn Cursor).

Import StrFacts ClassifierMore IdentifierSpec MaskFacts.

Ltac config :=
  unfold get_connection_string, getenv_default, getenv, setenv, flag_on, env_or;
  cbn -[String.append PyStr.lower truthy format_opt PyStr.contains safe_conn_str].

Lemma driver_part_clear (v : option string) :
  (forall x, v = Some x -> PyStr.contains "PWD=" x = false) ->
  PyStr.contains "PWD="
    (if truthy v then "{" ++ format_opt v ++ "}"
     else "{ODBC Driver 17 for SQL Server}") = false.
Proof.
  intros H. destruct v as [[|c x]|]; try reflexivity.
  cbn [truthy format_opt].
  change ("{" ++ String c x ++ "}") with (String "{" (String c x ++ "}")).
  rewrite contains_skip by reflexivity.
  now rewrite (contains_value (String c x) "}" (H _ eq_refl)).
Qed.

Lemma default_part_clear (v : option string) default :
  (forall x, v = Some x -> PyStr.contains "PWD=" x = false) ->
  PyStr.contains "PWD=" default = false ->
  PyStr.contains "PWD=" (match v with Some s => s | None => default end) = false.
Proof. intros H D. destruct v; auto. Qed.

Lemma truthy_app p tail : p <> "" -> truthy (Some (p ++ tail)) = true.
Proof. now destruct p. Qed.

(** X15: under SQL authentication, when no other setting contains
    [PWD=], the string that is shown is the connection string of the same
    settings with the password replaced by [***] up to its first
    semicolon: a password without semicolon is hidden whole, and of one
    with a semicolon everything from that semicolon on stays readable. *)
Theorem shown_string_hides_password (st : state) s p tail :
  fst (get_connection_string st) = Ret s ->
  flag_on "MSSQL_WINDOWS_AUTH" st = false ->
  environ st "MSSQL_PASSWORD" = Some (p ++ tail) ->
  p <> "" ->
  all_chars PwdMaskRe.not_semicolon p = true ->
  tail = "" \/ PyStr.startswith ";" tail = true ->
  PyStr.contains "PWD=" tail = false ->
  (forall k v, k <> "MSSQL_PASSWORD" -> environ st k = Some v ->
               PyStr.contains "PWD=" v = false) ->
  fst (get_connection_string (setenv "MSSQL_PASSWORD" ("***" ++ tail) st))
  = Ret (safe_conn_str s).
Proof.
  destruct st as [w env c tr]. config. intros Hs Wf Pw NE Np T Tc H.
  rewrite Wf, Pw in Hs. rewrite Wf.
  rewrite (truthy_app p tail NE) in Hs.
  rewrite (truthy_app "***" tail) by discriminate.
  destruct (truthy (env "MSSQL_USER")) eqn:U; [|discriminate Hs].
  cbn -[String.append PyStr.lower truthy format_opt PyStr.contains safe_conn_str]
    in Hs |- *.
  assert (Hd := driver_part_clear (env "MSSQL_DRIVER")
                  (fun x E => H "MSSQL_DRIVER" x ltac:(discriminate) E)).
  assert (Hsv := default_part_clear (env "MSSQL_SERVER") "localhost"
                   (fun x E => H "MSSQL_SERVER" x ltac:(discriminate) E) eq_refl).
  assert (Hp := default_part_clear (env "MSSQL_PORT") "1433"
                  (fun x E => H "MSSQL_PORT" x ltac:(discriminate) E) eq_refl).
  assert (Hdb := default_part_clear (env "MSSQL_DATABASE") "None"
                   (fun x E => H "MSSQL_DATABASE" x ltac:(discriminate) E) eq_refl).
  assert (Hu := default_part_clear (env "MSSQL_USER") "None"
                  (fun x E => H "MSSQL_USER" x ltac:(discriminate) E) eq_refl).
  change (match env "MSSQL_DATABASE" with Some s => s | None => "None" end)
    with (format_opt (env "MSSQL_DATABASE")) in Hdb.
  change (match env "MSSQL_USER" with Some s => s | None => "None" end)
    with (format_opt (env "MSSQL_USER")) in Hu.
  cbn [format_opt] in Hs |- *.
  destruct (String.eqb (PyStr.lower _) "true") eqn:En in Hs |- *;
    cbn -[String.append PyStr.lower truthy format_opt PyStr.contains safe_conn_str]
      in Hs |- *;
    [destruct (String.eqb (PyStr.lower _) "true") eqn:Tr in Hs |- *;
     cbn -[String.append PyStr.lower truthy format_opt PyStr.contains safe_conn_str]
       in Hs |- * |];
    apply ret_inj in Hs; rewrite <- Hs; f_equal; rewrite !append_assoc.
  - symmetry. apply mask_credentials; auto.
  - symmetry. apply mask_credentials; auto.
  - rewrite <- (append_nil_r tail). symmetry. apply mask_credentials; auto.
Qed.

(** X16: under Windows authentication, when no setting contains [PWD=],
    the string that is shown is the connection string itself. *)
Theorem shown_string_trusted (st : state) s :
  fst (get_connection_string st) = Ret s ->
  flag_on "MSSQL_WINDOWS_AUTH" st = true ->
  (forall k v, environ st k = Some v -> PyStr.contains "PWD=" v = false) ->
  safe_conn_str s = s.
Proof.
  destruct st as [w env c tr]. config. intros Hs Wf H. rewrite Wf in Hs.
  assert (Hd := driver_part_clear (env "MSSQL_DRIVER")
                  (fun x E => H "MSSQL_DRIVER" x E)).
  assert (Hsv := default_part_clear (env "MSSQL_SERVER") "localhost"
                   (fun x E => H "MSSQL_SERVER" x E) eq_refl).
  assert (Hp := default_part_clear (env "MSSQL_PORT") "1433"
                  (fun x E => H "MSSQL_PORT" x E) eq_refl).
  assert (Hdb := default_part_clear (env "MSSQL_DATABASE") "None"
                   (fun x E => H "MSSQL_DATABASE" x E) eq_refl).
  change (match env "MSSQL_DATABASE" with Some s => s | None => "None" end)
    with (format_opt (env "MSSQL_DATABASE")) in Hdb.
  cbn -[String.append PyStr.lower truthy format_opt PyStr.contains safe_conn_str]
    in Hs.
  unfold safe_conn_str. apply re_sub_without_password.
  destruct (String.eqb (PyStr.lower _) "true") eqn:En in Hs;
    cbn -[String.append PyStr.lower truthy format_opt PyStr.contains safe_conn_str]
      in Hs;
    [destruct (String.eqb (PyStr.lower _) "true") eqn:Tr in Hs;
     cbn -[String.append PyStr.lower truthy format_opt PyStr.contains safe_conn_str]
       in Hs |];
    apply ret_inj in Hs; rewrite <- Hs; rewrite !append_assoc;
    rewrite base_clear by (assumption || reflexivity); reflexivity.
Qed.

End ShownString.

(** ** The handlers: what they refuse, what they never do *)
Section HandlerFacts.

Context {World Conn Cursor : Type}.
Variable drv : Driver World Conn Cursor.
Variable AnyUrl : string -> option string.

Notation state := (state World Conn Cursor).
Notation M := (M World Conn Cursor).

Import StrFacts ClassifierFacts IdentifierSpec.

Ltac mstep :=
  cbn [bind catch ret raise Monad_M MonadExc_M get_conn set_conn lift
       cursor_description cursor_rowcount on_conn].

(** *** Adding to the trace *)

Lemma adds_still (P : event Conn Cursor -> Prop) A (c : M A) :
  (forall st, trace (snd (c st)) = trace st) -> adds_only P c.
Proof. intros H st. exists []. now rewrite H. Qed.

Lemma adds_ret P A (a : A) : adds_only P (ret a : M A).
Proof. now apply adds_still. Qed.

Lemma adds_raise P A e : adds_only P (raise e : M A).
Proof. now apply adds_still. Qed.

Lemma adds_lift P A (o : outcome A) : adds_only P (lift o : M A).
Proof. now apply adds_still. Qed.

Lemma adds_bind P A B (c : M A) (k : A -> M B) :
  adds_only P c -> (forall a, adds_only P (k a)) -> adds_only P (bind c k).
Proof.
  intros Hc Hk st. destruct (Hc st) as (n1 & T1 & F1). mstep.
  destruct (c st) as [[a|e] st1]; cbn [snd] in *.
  - destruct (Hk a st1) as (n2 & T2 & F2). exists (n2 ++ n1)%list.
    split; [now rewrite T2, T1, app_assoc | now apply Forall_app].
  - now exists n1.
Qed.

Lemma adds_catch P A (c : M A) (handler : exn -> M A) :
  adds_only P c -> (forall e, adds_only P (handler e)) ->
  adds_only P (catch c handler).
Proof.
  intros Hc Hh st. destruct (Hc st) as (n1 & T1 & F1). mstep.
  destruct (c st) as [[a|e] st1]; cbn [snd] in *.
  - now exists n1.
  - destruct (Hh e st1) as (n2 & T2 & F2). exists (n2 ++ n1)%list.
    split; [now rewrite T2, T1, app_assoc | now apply Forall_app].
Qed.

Lemma adds_if P A (b : bool) (c1 c2 : M A) :
  adds_only P c1 -> adds_only P c2 -> adds_only P (if b then c1 else c2).
Proof. now destruct b. Qed.

Lemma adds_driver_call P A (op : World -> outcome A * World)
      (ev : outcome A -> event Conn Cursor) :
  (forall r, P (ev r)) -> adds_only P (driver_call op ev).
Proof.
  intros H st. destruct (driver_call op ev st) as [r st1] eqn:D.
  apply driver_call_frame in D as (_ & _ & T). exists [ev r].
  split; [exact T | now constructor].
Qed.

Lemma adds_on_conn P A method c (k : Conn -> M A) :
  (forall h, adds_only P (k h)) -> adds_only P (on_conn method c k).
Proof. intros H. destruct c; [apply H | apply adds_raise]. Qed.

Lemma adds_get_connection_string P :
  adds_only P (get_connection_string (World:=World) (Conn:=Conn) (Cursor:=Cursor)).
Proof. apply adds_still. intros st. now rewrite get_connection_string_state. Qed.

Lemma adds_column_names P cur : adds_only P (column_names drv cur).
Proof.
  apply adds_still. intros st. unfold column_names. mstep.
  now destruct (cur_description drv cur (world st)).
Qed.

Ltac adds_with known :=
  repeat first
    [ known
    | apply adds_ret | apply adds_raise | apply adds_lift
    | apply adds_get_connection_string
    | apply adds_column_names
    | apply adds_still; reflexivity
    | apply adds_driver_call; intros ?; exact I
    | apply adds_on_conn; intros ?
    | apply adds_bind; [|intros ?]
    | apply adds_catch; [|intros ?]
    | apply adds_if ].

Ltac adds := adds_with fail.

Lemma get_connection_never_commits : adds_only no_commit (get_connection drv).
Proof.
  unfold get_connection, reconnect, probe, pyodbc_connect, cursor, execute,
    fetchall, close_cursor, close_conn.
  adds. destruct a0; adds.
Qed.

(** X17: neither listing the tables nor previewing one ever asks the
    driver to commit, whatever happens on the way; nor does the
    connection manager. *)
Theorem resources_never_commit :
  adds_only no_commit (list_resources drv AnyUrl)
  /\ (forall uri_str, adds_only no_commit (read_resource drv uri_str))
  /\ adds_only no_commit (get_connection drv).
Proof.
  split; [|split; [intros uri_str|]].
  - unfold list_resources, list_resources_body, cursor, execute, fetchall,
      close_cursor.
    adds_with ltac:(apply get_connection_never_commits).
  - unfold read_resource, read_resource_body, cursor, execute, fetchall,
      close_cursor. cbv zeta.
    adds_with ltac:(apply get_connection_never_commits).
  - apply get_connection_never_commits.
Qed.

(** X18: a tool call whose statement [is_select_query] classifies as
    read-only never asks the driver to commit, whether it succeeds or
    fails. *)
Theorem call_tool_read_only_never_commits name arguments query :
  dict_get "query" arguments = Some query ->
  is_select_query query = true ->
  adds_only no_commit (call_tool drv name arguments).
Proof.
  intros Q S. unfold call_tool. rewrite Q. cbv zeta. cbn [format_opt].
  unfold call_tool_body, get_command, cursor, execute, fetchall, close_cursor.
  rewrite S. cbn [andb].
  adds_with ltac:(apply get_connection_never_commits).
Qed.

(** *** What [call_tool] refuses *)

(** X19: [call_tool] raises in two cases only, both before the driver is
    asked anything: the name is not the configured tool name
    ([ValueError], [Unknown tool: ] and the name), or it is and the query
    is missing or empty ([ValueError], [Query is required]).  A call that
    raises leaves the process as it was. *)
Theorem call_tool_raises_iff name arguments (st : state) e :
  (fst (call_tool drv name arguments st) = Raise e <->
   (name <> env_or "MSSQL_COMMAND" "execute_sql" st
    /\ e = Exn ValueError ("Unknown tool: " ++ name))
   \/ (name = env_or "MSSQL_COMMAND" "execute_sql" st
       /\ (dict_get "query" arguments = None
           \/ dict_get "query" arguments = Some "")
       /\ e = Exn ValueError "Query is required"))
  /\ (fst (call_tool drv name arguments st) = Raise e ->
      call_tool drv name arguments st = (Raise e, st)).
Proof.
  unfold call_tool, env_or.
  rewrite (run_bind_ret _ _ _ _ _ _ _ (get_command_run st)).
  destruct (String.eqb_spec name
              (match environ st "MSSQL_COMMAND" with
               | Some s => s
               | None => "execute_sql"
               end)) as [E|N]; cbn [negb].
  - cbv zeta.
    destruct (dict_get "query" arguments) as [[|c q]|];
      cbn [truthy negb format_opt]; mstep.
    + split; [split|].
      * intros [= <-]. right. auto.
      * intros [[N _]|(_ & _ & ->)]; [congruence | reflexivity].
      * now intros [= <-].
    + split; [split|].
      * destruct (call_tool_body drv (String c q) st) as [[x|x] st1];
          discriminate.
      * intros [[N _]|(_ & [Q|Q] & _)]; [congruence | discriminate Q ..].
      * destruct (call_tool_body drv (String c q) st) as [[x|x] st1];
          discriminate.
    + split; [split|].
      * intros [= <-]. right. auto.
      * intros [[N _]|(_ & _ & ->)]; [congruence | reflexivity].
      * now intros [= <-].
  - mstep. split; [split|].
    + intros [= <-]. left. auto.
    + intros [[_ ->]|(E & _)]; [reflexivity | congruence].
    + now intros [= <-].
Qed.

(** X20: the one tool [list_tools] advertises is the one [call_tool]
    accepts: under the advertised name a call can only fail for a missing
    query, and every other name is refused as unknown. *)
Theorem list_tools_names_the_tool name arguments (st : state) :
  exists t,
    fst (list_tools st) = Ret [t]
    /\ (fst (call_tool drv name arguments st)
        = Raise (Exn ValueError ("Unknown tool: " ++ name))
        <-> name <> tool_name t).
Proof.
  eexists. split; [reflexivity|]. cbn [tool_name]. unfold call_tool.
  rewrite (run_bind_ret _ _ _ _ _ _ _ (get_command_run st)).
  destruct (String.eqb_spec name
              (match environ st "MSSQL_COMMAND" with
               | Some s => s
               | None => "execute_sql"
               end)) as [E|N]; cbn [negb].
  - split; [|congruence]. cbv zeta.
    destruct (dict_get "query" arguments) as [[|c q]|];
      cbn [truthy negb format_opt]; mstep; try discriminate.
    destruct (call_tool_body drv (String c q) st) as [[x|x] st1]; discriminate.
  - split; [intros _; exact N | reflexivity].
Qed.

(** *** When [get_connection] raises *)

(** X21: [get_connection] raises in two cases only: the configuration
    is incomplete, and then nothing was asked of the driver; or
    [pyodbc.connect] itself failed, and then its exception is the one
    raised.  A failing liveness check or a failing close is never passed
    on.  In both cases the stored handle is the one that was stored
    before: after a failed reconnect the closed handle stays. *)
Theorem get_connection_raises_only (st : state) e st1 :
  get_connection drv st = (Raise e, st1) ->
  DBConnection_conn st1 = DBConnection_conn st
  /\ ((fst (get_connection_string st) = Raise e /\ st1 = st)
      \/ exists conn_str st',
           fst (get_connection_string st) = Ret conn_str
           /\ pyodbc_connect drv conn_str st' = (Raise e, st1)).
Proof.
  destruct (fst (get_connection_string st)) as [conn_str|e'] eqn:G.
  2:{ rewrite (get_connection_config_error drv st e' G). intros [= <- <-].
      split; auto. }
  destruct (DBConnection_conn st) as [h|] eqn:C.
  2:{ rewrite (get_connection_first drv st conn_str G C). unfold open_and_store.
      destruct (pyodbc_connect drv conn_str st) as [[h|e'] st2] eqn:P;
        intros [= <- <-].
      split; [|right; now exists conn_str, st].
      apply pyodbc_connect_frame in P as (_ & C1 & _). congruence. }
  destruct (probe drv (Some h) st) as [[[]|e'] st2] eqn:P.
  - rewrite (get_connection_probe_ok drv st conn_str h st2 G C P). discriminate.
  - rewrite (get_connection_probe_failed drv st conn_str h e' st2 G C P).
    unfold open_and_store.
    destruct (pyodbc_connect drv conn_str (snd (close_conn drv (Some h) st2)))
      as [[h'|e''] st3] eqn:O; intros [= <- <-].
    split; [|right; now exists conn_str, (snd (close_conn drv (Some h) st2))].
    apply pyodbc_connect_frame in O as (_ & C3 & _).
    destruct (close_conn_frame drv h st2) as (_ & C2 & _).
    destruct (quiet_probe drv _ _ _ _ P) as (_ & C1 & _). congruence.
Qed.

(** *** The URI of a resource *)

Lemma scheme_prefix x :
  PyStr.startswith "mssql://" ("mssql://" ++ x) = true
  /\ PyStr.drop 8 ("mssql://" ++ x) = x.
Proof. split; reflexivity. Qed.

Lemma read_resource_table table rest (st : state) :
  all_chars (fun c => negb (Ascii.eqb c "/")) table = true ->
  rest = "" \/ PyStr.startswith "/" rest = true ->
  read_resource drv ("mssql://" ++ table ++ rest) st
  = match read_resource_body drv table st with
    | (Ret t, st1) => (Ret t, st1)
    | (Raise e, st1) =>
        (Raise (Exn RuntimeError ("Database error: " ++ str_exn e)), st1)
    end.
Proof.
  intros T R. destruct (scheme_prefix (table ++ rest)) as [S D].
  rewrite (read_resource_run drv _ st S), D.
  assert (N : nth 0 (PyStr.split "/" (table ++ rest)) "" = table).
  { destruct R as [->|R].
    - now rewrite append_nil_r, (split_none _ _ T).
    - destruct rest as [|c rest]; [discriminate|].
      rewrite startswith1 in R. apply Ascii.eqb_eq in R. subst c.
      now rewrite (split_app "/" table rest T). }
  now rewrite N.
Qed.

(** X22: [read_resource] looks at the URI up to the first slash after
    [mssql://] only: whatever path follows the table name, the request
    is the one for the bare table. *)
Theorem read_resource_path_ignored table path (st : state) :
  all_chars (fun c => negb (Ascii.eqb c "/")) table = true ->
  read_resource drv ("mssql://" ++ table ++ "/" ++ path) st
  = read_resource drv ("mssql://" ++ table) st.
Proof.
  intros T.
  rewrite (read_resource_table table ("/" ++ path) st T) by now right.
  rewrite <- (append_nil_r table) at 2.
  rewrite (read_resource_table table "" st T) by now left.
  reflexivity.
Qed.

(** X23: when the URL library keeps the URI that [list_resources]
    writes for a row ([mssql://], the table name, [/data]) as it is,
    reading the listed resource is the preview of the table the row
    names.  When [validate_table_name] refuses that name, a hyphen in it
    for one, the listed resource cannot be read: the request ends in
    [RuntimeError] with the refusal as its text, and the driver is not
    asked anything. *)
Theorem read_resource_of_listed row t r (st : state) :
  first_cell row = Ret (PyString t) ->
  AnyUrl ("mssql://" ++ t ++ "/data") = Some ("mssql://" ++ t ++ "/data") ->
  resource_of_row AnyUrl row = Ret r ->
  all_chars (fun c => negb (Ascii.eqb c "/")) t = true ->
  read_resource drv (uri r) st = read_resource drv ("mssql://" ++ t) st
  /\ forall e,
       validate_table_name t = Raise e ->
       read_resource drv (uri r) st
       = (Raise (Exn RuntimeError ("Database error: " ++ str_exn e)), st).
Proof.
  intros F K R T. unfold resource_of_row in R. rewrite F in R.
  cbn [py_str] in R. rewrite K in R. apply ret_inj in R. subst r. cbn [uri].
  assert (E : read_resource drv ("mssql://" ++ t ++ "/data") st
              = read_resource drv ("mssql://" ++ t) st).
  { rewrite (read_resource_table t "/data" st T) by now right.
    rewrite <- (append_nil_r t) at 2.
    rewrite (read_resource_table t "" st T) by now left.
    reflexivity. }
  split; [exact E|]. intros e V.
  rewrite (read_resource_table t "/data" st T) by now right.
  unfold read_resource_body. mstep. now rewrite V.
Qed.

(** *** The lines of a row set *)

Lemma split_join sep x xs :
  Forall (fun l => all_chars (fun c => negb (Ascii.eqb c sep)) l = true)
         (x :: xs) ->
  PyStr.split sep (PyStr.join (String sep "") (x :: xs)) = x :: xs.
Proof.
  revert x. induction xs as [|y ys IH]; intros x H.
  - inversion H; subst. cbn [PyStr.join]. now apply split_none.
  - inversion H as [|? ? Hx Hr]; subst. rewrite join_cons2.
    change (String sep "" ++ PyStr.join (String sep "") (y :: ys))
      with (String sep (PyStr.join (String sep "") (y :: ys))).
    rewrite (split_app sep x _ Hx). now rewrite (IH y Hr).
Qed.

(** X24: when no column name and no value contains a newline, the text
    of a row set splits at the newlines into the header line and one
    line per row, in order. *)
Theorem render_rowset_lines columns rows :
  Forall (fun l => all_chars (fun c => negb (Ascii.eqb c "010")) l = true)
         (PyStr.join "," columns :: List.map render_row rows) ->
  PyStr.split "010" (render_rowset columns rows)
  = PyStr.join "," columns :: List.map render_row rows.
Proof. intros H. unfold render_rowset. exact (split_join "010" _ _ H). Qed.

End HandlerFacts.

(** ** The further properties on the small driver *)
Module ToyMore.

Import Toy IdentifierSpec.
Notation st0 := (start shop).
Notation run c st := (snd (c st)).
Notation connected := (run (get_connection driver) st0).

(** X2 at a qualified name *)
Lemma validate_table_name_inside_brackets_witness :
  all_chars body_char (inside_brackets false "[dbo].[Users]") = true.
Proof.
  refine (proj1 (SanitizerMore.validate_table_name_inside_brackets
                   "dbo.Users" "[dbo].[Users]" _)).
  vm_compute. reflexivity.
Defined.

(** X3 at one name *)
Lemma validate_table_name_injective_witness : "dbo.Users" = "dbo.Users".
Proof.
  refine (SanitizerMore.validate_table_name_injective
            "dbo.Users" "dbo.Users" "[dbo].[Users]" _ _);
    vm_compute; reflexivity.
Defined.

(** X4 at an attempted injection *)
Lemma validate_table_name_refuses_witness :
  validate_table_name "Users; DROP TABLE Users"
  = Raise (Exn ValueError ("Invalid table name: " ++ "Users; DROP TABLE Users")).
Proof.
  refine (SanitizerMore.validate_table_name_refuses "Users; DROP TABLE Users" _).
  vm_compute. reflexivity.
Defined.

(** X6 at a statement without comments *)
Lemma comment_stripping_identity_witness :
  PyStr.join LF (List.map strip_line_comment
                   (PyStr.split "010" (BlockCommentRe.re_sub "SELECT 1 - 2")))
  = "SELECT 1 - 2".
Proof.
  refine (ClassifierMore.comment_stripping_identity "SELECT 1 - 2" _ _);
    vm_compute; reflexivity.
Defined.

(** X7 at a statement behind blanks and a comment *)
Lemma is_select_query_skips_prefix_witness :
  is_select_query ("  " ++ "/*" ++ " note " ++ "*/" ++ "DELETE FROM Users")
  = is_select_query "DELETE FROM Users".
Proof.
  refine (proj2 (ClassifierMore.is_select_query_skips_prefix
                   "  " " note " "DELETE FROM Users" _ _));
    vm_compute; reflexivity.
Defined.

(** X8 at a read followed by a second statement *)
Lemma is_select_query_first_word_witness :
  is_select_query ("select" ++ String " " "1; DROP TABLE Users") = true.
Proof.
  refine (ClassifierMore.is_select_query_first_word
            "select" " " "1; DROP TABLE Users" _ _);
    vm_compute; reflexivity.
Defined.

(** X12 on the setup without encryption *)
Lemma get_connection_string_trust_needs_encrypt_witness :
  fst (get_connection_string
         (setenv "MSSQL_TRUST_SERVER_CERTIFICATE" "true" st0))
  = fst (get_connection_string st0).
Proof.
  refine (get_connection_string_trust_needs_encrypt st0 "true" _).
  vm_compute. reflexivity.
Defined.

(** X13 at a trusted connection *)
Lemma safe_conn_str_without_password_witness :
  safe_conn_str "SERVER=db;Trusted_Connection=yes"
  = "SERVER=db;Trusted_Connection=yes".
Proof.
  refine (MaskFacts.safe_conn_str_without_password
            "SERVER=db;Trusted_Connection=yes" _).
  vm_compute. reflexivity.
Defined.

(** X14 at a password followed by a further setting *)
Lemma safe_conn_str_masks_witness :
  safe_conn_str ("UID=sa;" ++ "PWD=" ++ "secret" ++ ";Encrypt=yes")
  = "UID=sa;" ++ "PWD=***" ++ safe_conn_str ";Encrypt=yes".
Proof.
  refine (MaskFacts.safe_conn_str_masks "UID=sa;" "secret" ";Encrypt=yes"
            _ _ _ _).
  - vm_compute. reflexivity.
  - discriminate.
  - vm_compute. reflexivity.
  - right. vm_compute. reflexivity.
Defined.

(** the settings of the small setup hold no [PWD=] *)
Lemma env_clear k v : env k = Some v -> PyStr.contains "PWD=" v = false.
Proof.
  unfold env.
  destruct (String.eqb k "MSSQL_DATABASE"); [now intros [= <-]|].
  destruct (String.eqb k "MSSQL_USER"); [now intros [= <-]|].
  destruct (String.eqb k "MSSQL_PASSWORD"); [now intros [= <-]|].
  discriminate.
Defined.

(** X15 with a password that holds a semicolon: what follows the
    semicolon is shown *)
Lemma shown_string_hides_password_witness :
  fst (get_connection_string
         (setenv "MSSQL_PASSWORD" ("***" ++ ";cret")
                 (setenv "MSSQL_PASSWORD" "se;cret" st0)))
  = Ret (safe_conn_str
           "DRIVER={ODBC Driver 17 for SQL Server};SERVER=localhost,1433;DATABASE=Shop;UID=sa;PWD=se;cret").
Proof.
  refine (shown_string_hides_password
            (setenv "MSSQL_PASSWORD" "se;cret" st0) _ "se" ";cret" _ _ _ _ _ _ _ _).
  - vm_compute. reflexivity.
  - vm_compute. reflexivity.
  - vm_compute. reflexivity.
  - discriminate.
  - vm_compute. reflexivity.
  - right. vm_compute. reflexivity.
  - vm_compute. reflexivity.
  - intros k v N. cbn [setenv environ start].
    destruct (String.eqb_spec k "MSSQL_PASSWORD") as [E|_]; [contradiction|].
    apply env_clear.
Defined.

(** X16 on the small setup switched to Windows authentication *)
Lemma shown_string_trusted_witness :
  safe_conn_str
    "DRIVER={ODBC Driver 17 for SQL Server};SERVER=localhost,1433;DATABASE=Shop;Trusted_Connection=yes"
  = "DRIVER={ODBC Driver 17 for SQL Server};SERVER=localhost,1433;DATABASE=Shop;Trusted_Connection=yes".
Proof.
  refine (shown_string_trusted (setenv "MSSQL_WINDOWS_AUTH" "TRUE" st0) _ _ _ _).
  - vm_compute. reflexivity.
  - vm_compute. reflexivity.
  - intros k v. cbn [setenv environ start].
    destruct (String.eqb k "MSSQL_WINDOWS_AUTH"); [now intros [= <-]|].
    apply env_clear.
Defined.

(** X18 at a read of the two-row table *)
Lemma call_tool_read_only_never_commits_witness :
  adds_only no_commit
    (call_tool driver "execute_sql" [("query", "SELECT * FROM Users")]).
Proof.
  refine (call_tool_read_only_never_commits driver "execute_sql"
            [("query", "SELECT * FROM Users")] "SELECT * FROM Users" _ _);
    vm_compute; reflexivity.
Defined.

(** X21 on a setup without password: nothing is stored, nothing asked *)
Lemma get_connection_raises_only_witness :
  DBConnection_conn (unsetenv "MSSQL_PASSWORD" st0) = None.
Proof.
  refine (proj1 (get_connection_raises_only driver
                   (unsetenv "MSSQL_PASSWORD" st0)
                   (Exn ValueError
                      "MSSQL_USER and MSSQL_PASSWORD are required for SQL Authentication")
                   (unsetenv "MSSQL_PASSWORD" st0) _)).
  vm_compute. reflexivity.
Defined.

(** X22 at the URI that [list_resources] gives the table *)
Lemma read_resource_path_ignored_witness :
  read_resource driver ("mssql://" ++ "Users" ++ "/" ++ "data") st0
  = read_resource driver ("mssql://" ++ "Users") st0.
Proof.
  refine (read_resource_path_ignored driver "Users" "data" st0 _).
  vm_compute. reflexivity.
Defined.

(** X23 at a table with a hyphen in its name: listed, not readable *)
Lemma read_resource_of_listed_witness :
  read_resource driver "mssql://Order-Details/data" st0
  = (Raise (Exn RuntimeError
              "Database error: Invalid table name: Order-Details"), st0).
Proof.
  refine (proj2 (read_resource_of_listed driver any_url
                   [PyString "Order-Details"] "Order-Details"
                   {| uri := "mssql://Order-Details/data";
                      name := "Table: Order-Details";
                      mimeType := "text/plain";
                      description := "Data in table: Order-Details" |}
                   st0 _ _ _ _)
                (Exn ValueError "Invalid table name: Order-Details") _);
    vm_compute; reflexivity.
Defined.

(** X24 at the two-row table *)
Lemma render_rowset_lines_witness :
  PyStr.split "010" (render_rowset (fst users) (snd users))
  = PyStr.join "," (fst users) :: List.map render_row (snd users).
Proof.
  refine (render_rowset_lines (fst users) (snd users) _).
  repeat constructor.
Defined.

(** X26 at a statement on the catalog *)
Lemma call_tool_table_listing_witness :
  fst (call_tool driver "execute_sql"
         [("query",
           "SELECT TABLE_NAME, TABLE_TYPE FROM INFORMATION_SCHEMA.TABLES")]
         st0)
  = Ret (text_content ("Tables_found" ++ LF ++ "Users" ++ LF ++ "Orders")).
Proof.
  set (q := "SELECT TABLE_NAME, TABLE_TYPE FROM INFORMATION_SCHEMA.TABLES").
  pose (s2 := run (cursor driver (Some 1)) connected).
  pose (s3 := run (execute driver 1 q) s2).
  pose (s4 := run (fetchall driver 1) s3).
  pose (s5 := run (close_cursor driver 1) s4).
  rewrite (call_tool_table_listing driver "execute_sql" [("query", q)] q st0
             (Some 1) connected 1 s2 s3
             [[PyString "Users"; PyString "BASE TABLE"];
              [PyString "Orders"; PyString "BASE TABLE"]]
             ["Users"; "Orders"] s4 s5);
    vm_compute; reflexivity.
Defined.

End ToyMore.
